(** * MavunoSure: the claim adjudication pipeline, embedded in Rocq

    The development follows the layout of [backend/app]:
    - [Py]: the few pieces of Python the services rely on (exceptions,
      number formatting, [round], [datetime]);
    - [Schemas]: [app/schemas/verification.py];
    - [SatelliteService]: [app/services/satellite_service.py];
    - [WeightedVerificationService]:
      [app/services/weighted_verification_service.py];
    - [Claim], [Farm], [PaymentTransactionModel], [Session]: the columns of
      [app/models] that the payout reads and writes;
    - [MobileMoneyService] and [PaymentService]:
      [app/services/mobile_money_service.py], [app/services/payment_service.py];
    - [SMSService]: [app/services/sms_service.py].
    The modules whose names end in [Facts] hold the properties.

    Python [float] and [Decimal] values are embedded as exact rationals
    ([Q]); a decimal literal of the source denotes the rational it spells.
    NaN and the infinities are outside the embedding.  Effects are explicit:
    a call takes the world it runs in and returns the world it leaves,
    with an exception as a [Raise] result.  Logging is left out. *)

From Stdlib Require Import ZArith NArith QArith String Ascii List Lia Lqa Bool.
From Stdlib Require Import Qabs Qround DecimalString.
From stdpp Require Import base option gmap strings.
Import ListNotations.

(* ===================================================================== *)
(** * Python prelude *)
(* ===================================================================== *)

Module Py.

(** Exceptions that the modelled services raise or catch.  [EEException]
    is the provider's own class ([ee.EEException]); [PyException] is a
    bare [Exception(...)]; [ValidationError] is pydantic's. *)
Inductive exn : Type :=
| EEException (msg : string)
| ValueError (msg : string)
| ValidationError
| TypeError (msg : string)
| PyException (msg : string).

Inductive result (A : Type) : Type :=
| Ok (a : A)
| Raise (e : exn).
Arguments Ok {A} a.
Arguments Raise {A} e.

Definition is_EEException (e : exn) : bool :=
  match e with EEException _ => true | _ => false end.

(** ** Comparisons on floats *)

Definition Qltb (x y : Q) : bool := negb (Qle_bool y x).
Definition Qgeb (x y : Q) : bool := Qle_bool y x.
Definition Qgtb (x y : Q) : bool := negb (Qle_bool x y).
Definition Qleb (x y : Q) : bool := Qle_bool x y.

(** ** Strings *)

Local Open Scope string_scope.

Definition nl : string := String (ascii_of_nat 10) EmptyString.

Definition str_N (n : N) : string := NilEmpty.string_of_uint (N.to_uint n).
Definition str_nat (n : nat) : string := NilEmpty.string_of_uint (Nat.to_uint n).

Fixpoint zeros (n : nat) : string :=
  match n with O => "" | S k => "0" ++ zeros k end.

(** [s.zfill(w)] for a string of digits. *)
Definition zfill (w : nat) (s : string) : string :=
  zeros (w - String.length s) ++ s.

(** [s.startswith(p)] *)
Definition startswith (p s : string) : bool := String.prefix p s.

(** Drop the zeros at the end of a digit string, keeping one character. *)
Fixpoint rstrip_zeros (s : string) : string :=
  match s with
  | EmptyString => EmptyString
  | String c r =>
      match rstrip_zeros r with
      | EmptyString =>
          if Ascii.eqb c "0"%char
          then EmptyString
          else String c EmptyString
      | r' => String c r'
      end
  end.

Definition rstrip_zeros1 (s : string) : string :=
  match rstrip_zeros s with
  | EmptyString => "0"
  | r => r
  end.

(** ** Decimal rounding

    Both [round(x, nd)] and the [f] presentation type round the exact
    value of the float to [nd] decimals, ties going to the even digit.
    The result is kept as a sign and a magnitude scaled by [10^nd], so
    that a negative number rounding to zero keeps its sign, as Python's
    [-0.0] does. *)

Definition round_half_even (a : N) (b : positive) : N :=
  let q := (a / Npos b)%N in
  let r := (a mod Npos b)%N in
  match (2 * r ?= Npos b)%N with
  | Lt => q
  | Gt => (q + 1)%N
  | Eq => if N.even q then q else (q + 1)%N
  end.

Record decimal : Type := mk_decimal
  { dec_neg : bool;      (* sign bit *)
    dec_mag : N;         (* |value| * 10 ^ dec_places *)
    dec_places : nat }.

Definition round (x : Q) (nd : nat) : decimal :=
  {| dec_neg := Qltb x 0;
     dec_mag := round_half_even
                  (Z.to_N (Z.abs (Qnum x)) * 10 ^ N.of_nat nd) (Qden x);
     dec_places := nd |}.

Definition dec_int (d : decimal) : N := (dec_mag d / 10 ^ N.of_nat (dec_places d))%N.
Definition dec_frac (d : decimal) : N := (dec_mag d mod 10 ^ N.of_nat (dec_places d))%N.

Definition sign_str (d : decimal) : string := if dec_neg d then "-" else "".

(** [format(x, '.<nd>f')] for [nd > 0]. *)
Definition format_f (nd : nat) (x : Q) : string :=
  let d := round x nd in
  sign_str d ++ str_N (dec_int d) ++ "." ++ zfill nd (str_N (dec_frac d)).

(** [format(x, '.1%')] *)
Definition format_pct1 (x : Q) : string := format_f 1 (x * 100) ++ "%".

(** [repr] of a float that [round(_, nd)] returned: the shortest decimal
    that reads back as that float, which is the rounded decimal itself
    while it has at most 15 significant digits (coordinates have 7). *)
Definition repr_decimal (d : decimal) : string :=
  sign_str d ++ str_N (dec_int d) ++ "."
    ++ rstrip_zeros1 (zfill (dec_places d) (str_N (dec_frac d))).

(** [repr] of a float constant with at most four decimals. *)
Definition repr_const (x : Q) : string := repr_decimal (round x 4).

(** ** datetime (naive) *)

Record datetime : Type := mk_datetime
  { year : N; month : N; day : N;
    hour : N; minute : N; second : N; microsecond : N }.

Definition month_name (m : N) : string :=
  match m with
  | 1 => "January" | 2 => "February" | 3 => "March" | 4 => "April"
  | 5 => "May" | 6 => "June" | 7 => "July" | 8 => "August"
  | 9 => "September" | 10 => "October" | 11 => "November"
  | _ => "December"
  end%N.

Definition is_leap (y : N) : bool :=
  ((y mod 4 =? 0) && (negb (y mod 100 =? 0) || (y mod 400 =? 0)))%N.

Definition days_in_month (y m : N) : N :=
  match m with
  | 2 => if is_leap y then 29 else 28
  | 4 | 6 | 9 | 11 => 30
  | _ => 31
  end%N.

(** The ranges that the [datetime] constructor enforces. *)
Definition datetime_valid (d : datetime) : bool :=
  ((1 <=? year d) && (year d <=? 9999)
   && (1 <=? month d) && (month d <=? 12)
   && (1 <=? day d) && (day d <=? days_in_month (year d) (month d))
   && (hour d <? 24) && (minute d <? 60) && (second d <? 60)
   && (microsecond d <? 1000000))%N.

Definition digit_char (d : N) : ascii := ascii_of_N (48 + d).

(** ['%0<w>d' % n] for [n < 10 ^ w], which the fields of a [datetime]
    are: the last [w] decimal digits of [n]. *)
Fixpoint pad0 (w : nat) (n : N) : string :=
  match w with
  | O => ""
  | S w' => pad0 w' (n / 10)%N ++ String (digit_char (n mod 10)%N) ""
  end.

(** [d.strftime('%Y-%m-%d')] *)
Definition strftime_Ymd (d : datetime) : string :=
  pad0 4 (year d) ++ "-" ++ pad0 2 (month d) ++ "-" ++ pad0 2 (day d).

(** [d.isoformat()] *)
Definition isoformat (d : datetime) : string :=
  pad0 4 (year d) ++ "-" ++ pad0 2 (month d) ++ "-" ++ pad0 2 (day d)
    ++ "T" ++ pad0 2 (hour d) ++ ":" ++ pad0 2 (minute d)
    ++ ":" ++ pad0 2 (second d)
    ++ (if (microsecond d =? 0)%N then "" else "." ++ pad0 6 (microsecond d)).

Definition digit_of (c : ascii) : option N :=
  let n := N_of_ascii c in
  if ((48 <=? n) && (n <=? 57))%N then Some (n - 48)%N else None.

(** Read exactly [w] digits from the front of [s]. *)
Fixpoint take_digits (w : nat) (s : string) (acc : N) : option (N * string) :=
  match w with
  | O => Some (acc, s)
  | S w' =>
      match s with
      | String c r =>
          match digit_of c with
          | Some d => take_digits w' r (10 * acc + d)%N
          | None => None
          end
      | EmptyString => None
      end
  end.

Definition expect (c : ascii) (s : string) : option string :=
  match s with
  | String c' r => if Ascii.eqb c c' then Some r else None
  | EmptyString => None
  end.

(** The fields of a string in one of the two layouts that [isoformat]
    writes for a naive datetime, [YYYY-MM-DDTHH:MM:SS] and
    [YYYY-MM-DDTHH:MM:SS.ffffff]. *)
Definition parse_isoformat (s : string) : option datetime :=
  '(y, s) ← take_digits 4 s 0;
  s ← expect "-" s;
  '(m, s) ← take_digits 2 s 0;
  s ← expect "-" s;
  '(d, s) ← take_digits 2 s 0;
  s ← expect "T" s;
  '(hh, s) ← take_digits 2 s 0;
  s ← expect ":" s;
  '(mm, s) ← take_digits 2 s 0;
  s ← expect ":" s;
  '(ss, s) ← take_digits 2 s 0;
  match s with
  | EmptyString => Some (mk_datetime y m d hh mm ss 0)
  | _ =>
      s ← expect "." s;
      '(us, s) ← take_digits 6 s 0;
      match s with
      | EmptyString => Some (mk_datetime y m d hh mm ss us)
      | _ => None
      end
  end.

(** [datetime.fromisoformat(s)] on those layouts; every other string is
    taken to be rejected (newer Pythons read further ISO 8601
    spellings, which [isoformat] never writes). *)
Definition fromisoformat (s : string) : result datetime :=
  match parse_isoformat s with
  | Some d =>
      if datetime_valid d then Ok d
      else Raise (ValueError "Invalid isoformat string")
  | None => Raise (ValueError "Invalid isoformat string")
  end.

(** [s.upper()] on ASCII *)
Definition upper_char (c : ascii) : ascii :=
  let n := N_of_ascii c in
  if ((97 <=? n) && (n <=? 122))%N then ascii_of_N (n - 32) else c.

Fixpoint upper (s : string) : string :=
  match s with
  | EmptyString => EmptyString
  | String c r => String (upper_char c) (upper r)
  end.

(** Thousands separators for a digit string: [format(n, ',')]. *)
Fixpoint group3_rev (s : list ascii) : list ascii :=
  match s with
  | a :: b :: c :: ((_ :: _) as r) => a :: b :: c :: ","%char :: group3_rev r
  | _ => s
  end.

Definition commas (s : string) : string :=
  string_of_list_ascii
    (rev (group3_rev (rev (list_ascii_of_string s)))).

(** [format(x, ',.2f')] *)
Definition format_comma_2f (x : Q) : string :=
  let d := round x 2 in
  sign_str d ++ commas (str_N (dec_int d)) ++ "." ++ zfill 2 (str_N (dec_frac d)).

(** [d.strftime('%B')] *)
Definition strftime_B (d : datetime) : string := month_name (month d).

End Py.

Export Py.

(** Sequencing of computations that may raise. *)
Definition bind_result {A B : Type} (m : result A) (k : A -> result B) : result B :=
  match m with
  | Ok a => k a
  | Raise e => Raise e
  end.

Notation "x <- m ;; k" := (bind_result m (fun x => k))
  (at level 100, m at next level, right associativity, only parsing).

(* ===================================================================== *)
(** * app/schemas/verification.py *)
(* ===================================================================== *)

Module Schemas.

Local Open Scope string_scope.

Inductive CropCondition : Type :=
| HEALTHY | DROUGHT | DISEASE_BLIGHT | DISEASE_RUST | PEST_ARMYWORM | OTHER.

Definition CropCondition_value (c : CropCondition) : string :=
  match c with
  | HEALTHY => "healthy"
  | DROUGHT => "drought_stress"
  | DISEASE_BLIGHT => "northern_leaf_blight"
  | DISEASE_RUST => "common_rust"
  | PEST_ARMYWORM => "fall_armyworm"
  | OTHER => "other"
  end.

Inductive ClaimStatus : Type :=
| PENDING | AUTO_APPROVED | FLAGGED_FOR_REVIEW | REJECTED | PAID.

Definition ClaimStatus_value (s : ClaimStatus) : string :=
  match s with
  | PENDING => "pending"
  | AUTO_APPROVED => "auto_approved"
  | FLAGGED_FOR_REVIEW => "flagged_for_review"
  | REJECTED => "rejected"
  | PAID => "paid"
  end.

#[global] Instance CropCondition_eq_dec : EqDecision CropCondition.
Proof. solve_decision. Defined.

#[global] Instance ClaimStatus_eq_dec : EqDecision ClaimStatus.
Proof. solve_decision. Defined.

Record GroundTruth : Type := mk_GroundTruth
  { image_url : string;
    ml_class : CropCondition;
    ml_confidence : Q;
    top_three_classes : list (CropCondition * Q);
    device_tilt : Q;
    device_azimuth : Q;
    capture_gps_lat : Q;
    capture_gps_lng : Q;
    capture_timestamp : datetime }.

(** [Field(..., ge=0.0, le=1.0)] *)
Definition ge0_le1 (x : Q) : bool := Qgeb x 0 && Qleb x 1.

(** What pydantic checks when a [GroundTruth] is built. *)
Definition GroundTruth_valid (g : GroundTruth) : bool :=
  ge0_le1 (ml_confidence g).

Record WeightedVerificationResult : Type := mk_WeightedVerificationResult
  { score : Q;
    status : ClaimStatus;
    explanation : string;
    ground_truth_confidence : Q;
    space_truth_confidence : Q;
    rule_applied : option string }.

(** The constructor call [WeightedVerificationResult(...)]: pydantic
    raises when a bounded field is out of range. *)
Definition WeightedVerificationResult_new
    (score : Q) (status : ClaimStatus) (explanation : string)
    (ground_truth_confidence space_truth_confidence : Q)
    (rule_applied : string) : result WeightedVerificationResult :=
  if ge0_le1 score && ge0_le1 ground_truth_confidence
     && ge0_le1 space_truth_confidence
  then Ok (mk_WeightedVerificationResult score status explanation
             ground_truth_confidence space_truth_confidence
             (Some rule_applied))
  else Raise ValidationError.

End Schemas.

(* ===================================================================== *)
(** * app/services/satellite_service.py *)
(* ===================================================================== *)

Module SatelliteService.

Local Open Scope string_scope.

Inductive SatelliteVerdict : Type :=
| SEVERE_STRESS | MODERATE_STRESS | NORMAL.

Definition SatelliteVerdict_value (v : SatelliteVerdict) : string :=
  match v with
  | SEVERE_STRESS => "severe_stress"
  | MODERATE_STRESS => "moderate_stress"
  | NORMAL => "normal"
  end.

#[global] Instance SatelliteVerdict_eq_dec : EqDecision SatelliteVerdict.
Proof. solve_decision. Defined.

Record SpaceTruth : Type := mk_SpaceTruth
  { ndmi_value : Q;
    ndmi_14day_avg : Q;
    observation_date : datetime;
    cloud_cover_pct : Q;
    verdict : SatelliteVerdict }.

Definition _generate_verdict (ndmi_value : Q) : SatelliteVerdict :=
  if Qltb ndmi_value (-0.2) then SEVERE_STRESS
  else if Qltb ndmi_value (-0.1) then MODERATE_STRESS
  else NORMAL.

(** ** The world around the service

    The service reaches three things outside the process: the Earth
    Engine backend (its state is a parameter [G]), the wall clock
    ([time.sleep] advances it and is recorded), and a Redis server. *)

(** A JSON scalar.  [json.dumps] of the dumped model and [json.loads] of
    what it wrote are inverse to each other (a float is written with
    [repr], which reads back exactly), so the text kept in Redis is
    represented by the object it spells. *)
Inductive jvalue : Type :=
| JNum (x : Q)
| JStr (s : string).

(** A Redis string with the time at which it expires. *)
Record redis_entry : Type := mk_redis_entry
  { expires_at : Z; payload : gmap string jvalue }.

Record world (G : Type) : Type := mk_world
  { gee : G;                                   (* provider state *)
    now : Z;                                   (* seconds *)
    slept : list Z;                            (* delays, oldest first *)
    redis : option (gmap string redis_entry)   (* None: unreachable *) }.
Arguments mk_world {G} _ _ _ _.
Arguments gee {G} _.
Arguments now {G} _.
Arguments slept {G} _.
Arguments redis {G} _.

(** A call that may raise and may change the world. *)
Definition io (G A : Type) : Type := world G -> result A * world G.

(** [time.sleep(delay)] *)
Definition sleep {G : Type} (delay : Z) (w : world G) : world G :=
  mk_world (gee w) (now w + delay) (slept w ++ [delay])%list (redis w).

(** Time passing between two calls of the service. *)
Definition elapse {G : Type} (dt : Z) (w : world G) : world G :=
  mk_world (gee w) (now w + dt) (slept w) (redis w).

(** [redis_client.get(key)] and [redis_client.setex(key, ttl, value)];
    both raise when the server cannot be reached. *)
Definition redis_get {G : Type} (key : string) : io G (option (gmap string jvalue)) :=
  fun w =>
    match redis w with
    | None => (Raise (PyException "ConnectionError"), w)
    | Some db =>
        match db !! key with
        | Some e =>
            if (now w <? expires_at e)%Z then (Ok (Some (payload e)), w)
            else (Ok None, w)
        | None => (Ok None, w)
        end
    end.

Definition redis_setex {G : Type} (key : string) (ttl : Z)
    (value : gmap string jvalue) : io G unit :=
  fun w =>
    match redis w with
    | None => (Raise (PyException "ConnectionError"), w)
    | Some db =>
        (Ok tt,
         mk_world (gee w) (now w) (slept w)
           (Some (<[key := mk_redis_entry (now w + ttl) value]> db)))
    end.

Definition redis_ping {G : Type} : io G unit :=
  fun w =>
    match redis w with
    | None => (Raise (PyException "ConnectionError"), w)
    | Some _ => (Ok tt, w)
    end.

(** ** GEEClient *)

Record GEEClient : Type := mk_GEEClient
  { _initialized : bool;
    _max_retries : nat;
    _retry_delay : Z }.

(** [GEEClient.__init__] *)
Definition GEEClient_init : GEEClient := mk_GEEClient false 3 2.

(** The body of [for attempt in range(self._max_retries)], over the
    attempts still to run; falling out of the loop raises
    [last_exception]. *)
Fixpoint retry_loop {G A : Type} (self : GEEClient) (func : io G A)
    (attempts : list nat) (last_exception : option exn) : io G A :=
  fun w =>
    match attempts with
    | [] =>
        match last_exception with
        | Some e => (Raise e, w)
        | None => (Raise (TypeError "exceptions must derive from BaseException"), w)
        end
    | attempt :: rest =>
        match func w with
        | (Ok a, w1) => (Ok a, w1)
        | (Raise e, w1) =>
            if is_EEException e then
              let w2 :=
                if (attempt <? _max_retries self - 1)%nat
                then sleep (_retry_delay self * 2 ^ Z.of_nat attempt) w1
                else w1 in
              retry_loop self func rest (Some e) w2
            else (Raise e, w1)
        end
    end.

Definition execute_with_retry {G A : Type} (self : GEEClient) (func : io G A)
  : io G A :=
  retry_loop self func (seq 0 (_max_retries self)) None.

(** ** SatelliteService constants *)

Definition SENTINEL2_COLLECTION : string := "COPERNICUS/S2_SR_HARMONIZED".
Definition MAX_CLOUD_COVER : Q := 20.0.
Definition RECENT_IMAGE_DAYS : Z := 3.
Definition BASELINE_START_DAYS : Z := 17.
Definition BASELINE_END_DAYS : Z := 3.
Definition SAMPLE_BUFFER : Z := 50.
Definition SPATIAL_SCALE : Z := 20.
Definition CACHE_TTL : Z := 86400.

(** ** Earth Engine

    The client library builds expressions on the client side; only
    [getInfo()] talks to the backend. *)

(** An image collection filtered by place, period and cloud cover. *)
Record ee_collection : Type := mk_ee_collection
  { coll_id : string;
    coll_lng : Q; coll_lat : Q;
    coll_start : datetime; coll_end : datetime;
    coll_max_cloud : Q }.

Inductive ee_image : Type :=
| LeastCloudyFirst (c : ee_collection)
    (* [c.sort('CLOUDY_PIXEL_PERCENTAGE').first()] *)
| MeanNdmi (c : ee_collection)
    (* [c.map(normalizedDifference(['B8A','B11'])).mean()] *)
| Ndmi (i : ee_image)
    (* [i.normalizedDifference(['B8A', 'B11'])] *).

(** [img.reduceRegion(mean, point.buffer(buffer), scale, 1e9).get('nd')] *)
Record ee_region_mean : Type := mk_ee_region_mean
  { rm_image : ee_image; rm_lng : Q; rm_lat : Q; rm_buffer : Z; rm_scale : Z }.

(** The part of an image's metadata that the service reads. *)
Record image_info : Type := mk_image_info
  { system_time_start : Q;           (* milliseconds since the epoch *)
    CLOUDY_PIXEL_PERCENTAGE : Q }.

Class EarthEngine (G : Type) : Type :=
  { image_getInfo : ee_image -> G -> result (option image_info) * G;
    number_getInfo : ee_region_mean -> G -> result (option Q) * G }.

(** Functions of the Python library that the service calls and that the
    embedding of floats and dates leaves open. *)
Class PyLib : Type :=
  { add_days : datetime -> Z -> datetime;   (* [d + timedelta(days=n)] *)
    str_float : Q -> string;                (* [str(x)] of any float *)
    fromtimestamp : Q -> datetime }.        (* [datetime.fromtimestamp] *)

Definition lift_gee {G A : Type} (f : G -> result A * G) : io G A :=
  fun w =>
    let '(r, g) := f (gee w) in
    (r, mk_world g (now w) (slept w) (redis w)).

Definition bind_io {G A B : Type} (m : io G A) (k : A -> io G B) : io G B :=
  fun w =>
    match m w with
    | (Ok a, w1) => k a w1
    | (Raise e, w1) => (Raise e, w1)
    end.

Definition ret_io {G A : Type} (a : A) : io G A := fun w => (Ok a, w).
Definition raise_io {G A : Type} (e : exn) : io G A := fun w => (Raise e, w).

(** [try: body except Exception: handler] *)
Definition try_except {G A : Type} (body : io G A) (handler : exn -> io G A)
  : io G A :=
  fun w =>
    match body w with
    | (Ok a, w1) => (Ok a, w1)
    | (Raise e, w1) => handler e w1
    end.

Notation "x <~ m ;; k" := (bind_io m (fun x => k))
  (at level 100, m at next level, right associativity, only parsing).

Section Query.

Context {G : Type} `{EarthEngine G} `{PyLib}.

Definition date_str (d : datetime) : string := strftime_Ymd d.

(** The closure [get_recent_image] of [_query_satellite_data]. *)
Definition get_recent_image (lat lng : Q) (recent_start recent_end : datetime)
  : io G ee_image :=
  let collection :=
    mk_ee_collection SENTINEL2_COLLECTION lng lat recent_start recent_end
      MAX_CLOUD_COVER in
  let image := LeastCloudyFirst collection in
  image_info <~ lift_gee (image_getInfo image) ;;
  match image_info with
  | None =>
      raise_io (PyException
        ("No suitable Sentinel-2 imagery found for location ("
         ++ str_float lat ++ ", " ++ str_float lng ++ ") "
         ++ "between " ++ date_str recent_start ++ " and " ++ date_str recent_end
         ++ " " ++ "with cloud cover < " ++ str_float MAX_CLOUD_COVER ++ "%"))
  | Some _ => ret_io image
  end.

Definition _calculate_ndmi (gee_client : GEEClient) (image : ee_image)
    (lat lng : Q) : io G Q :=
  let calculate : io G Q :=
    let ndmi := Ndmi image in
    let ndmi_value := mk_ee_region_mean ndmi lng lat SAMPLE_BUFFER SPATIAL_SCALE in
    result <~ lift_gee (number_getInfo ndmi_value) ;;
    match result with
    | None =>
        raise_io (PyException "Failed to calculate NDMI - no valid pixels in region")
    | Some x => ret_io x
    end in
  execute_with_retry gee_client calculate.

Definition _calculate_baseline_ndmi (gee_client : GEEClient)
    (lat lng : Q) (start_date end_date : datetime) : io G Q :=
  let calculate : io G Q :=
    let collection :=
      mk_ee_collection SENTINEL2_COLLECTION lng lat start_date end_date
        MAX_CLOUD_COVER in
    let mean_ndmi := MeanNdmi collection in
    let ndmi_value :=
      mk_ee_region_mean mean_ndmi lng lat SAMPLE_BUFFER SPATIAL_SCALE in
    result <~ lift_gee (number_getInfo ndmi_value) ;;
    match result with
    | None => ret_io 0.0%Q
    | Some x => ret_io x
    end in
  execute_with_retry gee_client calculate.

Definition _query_satellite_data (gee_client : GEEClient)
    (lat lng : Q) (claim_date : datetime) : io G SpaceTruth :=
  let recent_start := add_days claim_date (- RECENT_IMAGE_DAYS) in
  let recent_end := add_days claim_date RECENT_IMAGE_DAYS in
  let baseline_start := add_days claim_date (- BASELINE_START_DAYS) in
  let baseline_end := add_days claim_date (- BASELINE_END_DAYS) in
  recent_image <~ execute_with_retry gee_client
                    (get_recent_image lat lng recent_start recent_end) ;;
  ndmi_value <~ _calculate_ndmi gee_client recent_image lat lng ;;
  let get_image_metadata : io G (option image_info) :=
    lift_gee (image_getInfo recent_image) in
  image_metadata <~ execute_with_retry gee_client get_image_metadata ;;
  match image_metadata with
  | None => raise_io (TypeError "'NoneType' object is not subscriptable")
  | Some image_metadata =>
      let observation_date :=
        fromtimestamp (system_time_start image_metadata / 1000) in
      let cloud_cover_pct := CLOUDY_PIXEL_PERCENTAGE image_metadata in
      ndmi_14day_avg <~ _calculate_baseline_ndmi gee_client lat lng
                          baseline_start baseline_end ;;
      let verdict := _generate_verdict ndmi_value in
      ret_io (mk_SpaceTruth ndmi_value ndmi_14day_avg observation_date
                cloud_cover_pct verdict)
  end.

End Query.

(** ** The result cache *)

(** Values held by the dict between [model_dump()] and [json.dumps], and
    between [json.loads] and the construction of [SpaceTruth]. *)
Inductive pyvalue : Type :=
| VFloat (x : Q)
| VStr (s : string)
| VDatetime (d : datetime)
| VVerdict (v : SatelliteVerdict).

(** [result.model_dump()] *)
Definition model_dump (r : SpaceTruth) : gmap string pyvalue :=
  <["ndmi_value" := VFloat (ndmi_value r)]>
    (<["ndmi_14day_avg" := VFloat (ndmi_14day_avg r)]>
      (<["observation_date" := VDatetime (observation_date r)]>
        (<["cloud_cover_pct" := VFloat (cloud_cover_pct r)]>
          (<["verdict" := VVerdict (verdict r)]> ∅)))).

Definition json_value (v : pyvalue) : option jvalue :=
  match v with
  | VFloat x => Some (JNum x)
  | VStr s => Some (JStr s)
  | VVerdict v => Some (JStr (SatelliteVerdict_value v))  (* a [str] enum *)
  | VDatetime _ => None
  end.

(** [json.dumps(data)] *)
Definition json_dumps (data : gmap string pyvalue) : result (gmap string jvalue) :=
  if bool_decide (map_Forall (fun _ v => is_Some (json_value v)) data)
  then Ok (omap json_value data)
  else Raise (TypeError "Object of type datetime is not JSON serializable").

(** [json.loads(text)] *)
Definition json_loads (text : gmap string jvalue) : gmap string pyvalue :=
  (fun j => match j with JNum x => VFloat x | JStr s => VStr s end) <$> text.

Definition SatelliteVerdict_of_value (s : string) : option SatelliteVerdict :=
  if String.eqb s "severe_stress" then Some SEVERE_STRESS
  else if String.eqb s "moderate_stress" then Some MODERATE_STRESS
  else if String.eqb s "normal" then Some NORMAL
  else None.

Definition as_float (v : option pyvalue) : option Q :=
  match v with Some (VFloat x) => Some x | _ => None end.

Definition as_datetime (v : option pyvalue) : option datetime :=
  match v with Some (VDatetime d) => Some d | _ => None end.

Definition as_verdict (v : option pyvalue) : option SatelliteVerdict :=
  match v with
  | Some (VVerdict x) => Some x
  | Some (VStr s) => SatelliteVerdict_of_value s
  | _ => None
  end.

(** [SpaceTruth] built from the keywords of [data]: pydantic raises when a field is missing or of
    the wrong kind.  (The coercions of its lax mode, such as a float
    from a numeric string, are not modelled; the cache never needs
    them.) *)
Definition SpaceTruth_new (data : gmap string pyvalue) : result SpaceTruth :=
  match as_float (data !! "ndmi_value"),
        as_float (data !! "ndmi_14day_avg"),
        as_datetime (data !! "observation_date"),
        as_float (data !! "cloud_cover_pct"),
        as_verdict (data !! "verdict") with
  | Some n, Some a, Some d, Some c, Some v => Ok (mk_SpaceTruth n a d c v)
  | _, _, _, _, _ => Raise ValidationError
  end.

(** The object state of the service ([self]). *)
Record SatelliteService : Type := mk_SatelliteService
  { gee_client : GEEClient;
    redis_client : bool   (* is [self.redis_client] set? *) }.

(** [SatelliteService.__init__]: a fresh client, which [initialize()]
    marks as initialized unless it fails (the failure is only logged), and
    no Redis client yet. *)
Definition SatelliteService_init (initialized : bool) : SatelliteService :=
  mk_SatelliteService (mk_GEEClient initialized 3 2) false.

Section Cache.

Context {G : Type}.

Definition _generate_cache_key (lat lng : Q) (claim_date : datetime) : string :=
  (* Round coordinates to 4 decimal places (~11m precision) *)
  let lat_rounded := round lat 4 in
  let lng_rounded := round lng 4 in
  let date_str := strftime_Ymd claim_date in
  "satellite:" ++ repr_decimal lat_rounded ++ ":" ++ repr_decimal lng_rounded
    ++ ":" ++ date_str.

(** Returns [true] for a client, [false] for [None], and the service
    with its [redis_client] attribute. *)
Definition _get_redis_client (self : SatelliteService)
  : world G -> bool * SatelliteService * world G :=
  fun w =>
    if redis_client self then (true, self, w)
    else
      let self' := mk_SatelliteService (gee_client self) true in
      match redis_ping w with
      | (Ok _, w1) => (true, self', w1)
      | (Raise _, w1) => (false, self', w1)
      end.

Definition _get_cached_result (self : SatelliteService) (cache_key : string)
  : world G -> option SpaceTruth * SatelliteService * world G :=
  fun w =>
    let '(client, self, w) := _get_redis_client self w in
    if negb client then (None, self, w)
    else
      let body : io G (option SpaceTruth) :=
        cached_data <~ redis_get cache_key ;;
        match cached_data with
        | Some text =>
            let data := json_loads text in
            match data !! "observation_date" with
            | Some (VStr s) =>
                match fromisoformat s with
                | Ok d =>
                    let data := <["observation_date" := VDatetime d]> data in
                    match SpaceTruth_new data with
                    | Ok r => ret_io (Some r)
                    | Raise e => raise_io e
                    end
                | Raise e => raise_io e
                end
            | Some _ => raise_io (TypeError "fromisoformat: argument must be str")
            | None => raise_io (PyException "KeyError: 'observation_date'")
            end
        | None => ret_io None
        end in
      let '(r, w) := try_except body (fun _ => ret_io None) w in
      (match r with Ok (Some x) => Some x | _ => None end, self, w).

Definition _cache_result (self : SatelliteService) (cache_key : string)
    (result : SpaceTruth) : world G -> SatelliteService * world G :=
  fun w =>
    let '(client, self, w) := _get_redis_client self w in
    if negb client then (self, w)
    else
      let body : io G unit :=
        let data := model_dump result in
        match data !! "observation_date" with
        | Some (VDatetime d) =>
            let data := <["observation_date" := VStr (isoformat d)]> data in
            match json_dumps data with
            | Ok text => redis_setex cache_key CACHE_TTL text
            | Raise e => raise_io e
            end
        | _ => raise_io (PyException "AttributeError: isoformat")
        end in
      let '(_, w) := try_except body (fun _ => ret_io tt) w in
      (self, w).

Context `{EarthEngine G} `{PyLib}.

Definition verify_claim (self : SatelliteService) (lat lng : Q)
    (claim_date : datetime)
  : world G -> result SpaceTruth * SatelliteService * world G :=
  fun w =>
    (* Check cache first *)
    let cache_key := _generate_cache_key lat lng claim_date in
    let '(cached_result, self, w) := _get_cached_result self cache_key w in
    match cached_result with
    | Some r => (Ok r, self, w)
    | None =>
        (* Query satellite data *)
        match _query_satellite_data (gee_client self) lat lng claim_date w with
        | (Ok result, w) =>
            (* Cache the result *)
            let '(self, w) := _cache_result self cache_key result w in
            (Ok result, self, w)
        | (Raise e, w) => (Raise e, self, w)
        end
    end.

End Cache.

End SatelliteService.

(* ===================================================================== *)
(** * app/services/weighted_verification_service.py *)
(* ===================================================================== *)

Module WeightedVerificationService.

Import Schemas SatelliteService.
Local Open Scope string_scope.

Definition GROUND_TRUTH_WEIGHT : Q := 0.6.
Definition SPACE_TRUTH_WEIGHT : Q := 0.4.

Definition AUTO_APPROVE_THRESHOLD : Q := 0.8.
Definition FLAG_THRESHOLD : Q := 0.5.

(** [sep.join(parts)] *)
Fixpoint join (sep : string) (parts : list string) : string :=
  match parts with
  | [] => ""
  | [p] => p
  | p :: rest => p ++ sep ++ join sep rest
  end.

(** [enumerate(l, start)] *)
Fixpoint enumerate {A : Type} (l : list A) (start : nat) : list (nat * A) :=
  match l with
  | [] => []
  | x :: r => (start, x) :: enumerate r (S start)
  end.

Definition _format_top_classes_explanation
    (top_three_classes : list (CropCondition * Q)) : string :=
  match top_three_classes with
  | [] => "No alternative classifications available"
  | _ =>
      join " | "
        (map (fun '(i, (condition, confidence)) =>
                str_nat i ++ ". " ++ CropCondition_value condition ++ ": "
                  ++ format_pct1 confidence)
             (enumerate (firstn 3 top_three_classes) 1))
  end.

Definition _satellite_confidence (space_truth : SpaceTruth) : Q :=
  match verdict space_truth with
  | SEVERE_STRESS => 0.9
  | MODERATE_STRESS => 0.6
  | NORMAL => 0.3
  end.

Definition _check_disagreement
    (ground_truth : GroundTruth) (space_truth : SpaceTruth) : bool :=
  if bool_decide (ml_class ground_truth = DROUGHT)
     && bool_decide (verdict space_truth = NORMAL)
  then true
  else if bool_decide (ml_class ground_truth = HEALTHY)
          && bool_decide (verdict space_truth = SEVERE_STRESS)
  then true
  else false.

Definition _build_detailed_explanation
    (status : ClaimStatus) (score : Q)
    (ground_truth : GroundTruth) (space_truth : SpaceTruth)
    (rule_applied : string) (base_explanation : string) : string :=
  let gt_conf := ml_confidence ground_truth in
  let st_conf := _satellite_confidence space_truth in
  base_explanation
  ++ (nl ++ nl ++ "AI Classification Details:" ++ nl
      ++ "Primary: " ++ CropCondition_value (ml_class ground_truth)
      ++ " (" ++ format_pct1 (ml_confidence ground_truth) ++ " confidence)" ++ nl
      ++ "Top 3 Predictions: "
      ++ _format_top_classes_explanation (top_three_classes ground_truth))
  ++ (nl ++ nl ++ "Satellite Analysis:" ++ nl
      ++ "NDMI Value: " ++ format_f 3 (ndmi_value space_truth)
      ++ " (14-day avg: " ++ format_f 3 (ndmi_14day_avg space_truth) ++ ")" ++ nl
      ++ "Verdict: " ++ SatelliteVerdict_value (verdict space_truth) ++ nl
      ++ "Observation Date: " ++ strftime_Ymd (observation_date space_truth) ++ nl
      ++ "Cloud Cover: " ++ format_f 1 (cloud_cover_pct space_truth) ++ "%")
  ++ (nl ++ nl ++ "Verification Logic:" ++ nl
      ++ "Ground Truth Confidence: " ++ format_pct1 gt_conf ++ nl
      ++ "Space Truth Confidence: " ++ format_pct1 st_conf ++ nl
      ++ "Weighted Score: " ++ format_f 2 score
      ++ " (GT weight: " ++ repr_const GROUND_TRUTH_WEIGHT
      ++ ", ST weight: " ++ repr_const SPACE_TRUTH_WEIGHT ++ ")" ++ nl
      ++ "Rule Applied: " ++ rule_applied ++ nl
      ++ "Decision Threshold: ")
  ++ match status with
     | AUTO_APPROVED =>
         "Auto-approve (score > " ++ repr_const AUTO_APPROVE_THRESHOLD ++ ")"
     | FLAGGED_FOR_REVIEW =>
         "Flag for review (score between " ++ repr_const FLAG_THRESHOLD
           ++ " and " ++ repr_const AUTO_APPROVE_THRESHOLD ++ ")"
     | REJECTED => "Reject (score < " ++ repr_const FLAG_THRESHOLD ++ ")"
     | _ => "N/A"
     end
  ++ (if _check_disagreement ground_truth space_truth
      then nl ++ nl ++ "⚠️ Ground Truth and Space Truth Disagreement Detected:" ++ nl
           ++ "The visual assessment (" ++ CropCondition_value (ml_class ground_truth)
           ++ ") and satellite data ("
           ++ SatelliteVerdict_value (verdict space_truth)
           ++ ") show different conditions. This may indicate:" ++ nl
           ++ "- Localized conditions not visible from satellite" ++ nl
           ++ "- Recent changes not yet reflected in satellite imagery" ++ nl
           ++ "- Potential data quality issues requiring manual review"
      else "").

(** One rule of the matrix: the explanation is built for the rule's
    status and score, then the result object is constructed. *)
Definition rule_result
    (ground_truth : GroundTruth) (space_truth : SpaceTruth)
    (score : Q) (status : ClaimStatus) (gt_conf st_conf : Q)
    (rule_applied base_explanation : string)
  : result (option WeightedVerificationResult) :=
  let detailed_explanation :=
    _build_detailed_explanation status score ground_truth space_truth
      rule_applied base_explanation in
  r <- WeightedVerificationResult_new score status detailed_explanation
         gt_conf st_conf rule_applied ;;
  Ok (Some r).

Definition _apply_contextual_rules
    (ground_truth : GroundTruth) (space_truth : SpaceTruth)
  : result (option WeightedVerificationResult) :=
  let gt_class := ml_class ground_truth in
  let gt_conf := ml_confidence ground_truth in
  let ndmi := ndmi_value space_truth in
  let st_verdict := verdict space_truth in
  (* Rule 1: Drought + Low Moisture (< -0.2) -> Auto-Approve *)
  if bool_decide (gt_class = DROUGHT) && Qltb ndmi (-0.2) then
    rule_result ground_truth space_truth 0.95 AUTO_APPROVED gt_conf 0.9
      "rule_1_drought_low_moisture"
      ("Double confirmation: Visual drought stress matches severe satellite "
       ++ "moisture deficit. High confidence in claim validity.")
  (* Rule 2: Drought + Normal Moisture -> Flag for Review *)
  else if bool_decide (gt_class = DROUGHT) && bool_decide (st_verdict = NORMAL) then
    rule_result ground_truth space_truth 0.65 FLAGGED_FOR_REVIEW gt_conf 0.3
      "rule_2_drought_normal_moisture"
      ("Possible localized drought or camera fraud - satellite shows normal "
       ++ "moisture but ground assessment indicates drought. Manual review required.")
  (* Rule 3: Disease -> Auto-Approve *)
  else if bool_decide (gt_class = DISEASE_BLIGHT) || bool_decide (gt_class = DISEASE_RUST) then
    rule_result ground_truth space_truth 0.85 AUTO_APPROVED gt_conf 0.5
      "rule_3_disease_normal_moisture"
      ("Disease detected (" ++ CropCondition_value gt_class ++ "). "
       ++ "Satellite may not show immediate moisture impact for disease conditions. "
       ++ "Claim approved based on visual assessment.")
  (* Rule 4: Healthy + Low Moisture -> Reject *)
  else if bool_decide (gt_class = HEALTHY) && Qltb ndmi (-0.1) then
    rule_result ground_truth space_truth 0.2 REJECTED gt_conf 0.9
      "rule_4_healthy_low_moisture"
      ("Contradiction: Crop appears healthy in photo but satellite shows "
       ++ "moisture stress. Possible bare soil reading or invalid photo. Claim rejected.")
  (* Rule 5: Weed/Other -> Reject *)
  else if bool_decide (gt_class = OTHER) then
    rule_result ground_truth space_truth 0.0 REJECTED gt_conf 0.0
      "rule_5_invalid_subject"
      ("Invalid subject matter - photo does not show a valid crop condition. "
       ++ "Claim rejected.")
  (* No contextual rule applies *)
  else Ok None.

Definition _apply_seasonality_validation
    (ground_truth : GroundTruth) (space_truth : SpaceTruth)
    (claim_date : datetime) : result (option WeightedVerificationResult) :=
  let claim_month := month claim_date in
  if bool_decide (ml_class ground_truth = DROUGHT)
     && (N.eqb claim_month 1 || N.eqb claim_month 2) then
    if Qgeb (ndmi_value space_truth) (-0.1) then
      rule_result ground_truth space_truth 0.45 REJECTED
        (ml_confidence ground_truth) 0.3
        "seasonality_dry_harvest_rejection"
        ("Drought claim submitted during historically dry harvest month "
         ++ "(" ++ strftime_B claim_date ++ "), but satellite shows adequate moisture. "
         ++ "Claim rejected due to seasonality mismatch unless irrigation is documented.")
    else Ok None
  else Ok None.

Definition verify
    (ground_truth : GroundTruth) (space_truth : SpaceTruth)
    (claim_date : option datetime) : result WeightedVerificationResult :=
  (* Apply contextual rules first *)
  contextual_result <- _apply_contextual_rules ground_truth space_truth ;;
  match contextual_result with
  | Some r => Ok r
  | None =>
    (* Apply seasonality validation if claim_date provided *)
    seasonality_result <-
      match claim_date with
      | Some d => _apply_seasonality_validation ground_truth space_truth d
      | None => Ok None
      end ;;
    match seasonality_result with
    | Some r => Ok r
    | None =>
      (* Calculate weighted score *)
      let gt_confidence := ml_confidence ground_truth in
      let st_confidence := _satellite_confidence space_truth in
      let score := (gt_confidence * GROUND_TRUTH_WEIGHT
                    + st_confidence * SPACE_TRUTH_WEIGHT)%Q in
      (* Apply threshold logic *)
      let '(status, base_explanation) :=
        if Qgtb score AUTO_APPROVE_THRESHOLD then
          (AUTO_APPROVED,
           "High confidence from both Ground Truth and Space Truth. "
           ++ "The claim meets the auto-approval threshold.")
        else if Qgeb score FLAG_THRESHOLD then
          (FLAGGED_FOR_REVIEW,
           "Moderate confidence detected. The weighted score falls in the review range, "
           ++ "indicating uncertainty that requires human judgment.")
        else
          (REJECTED,
           "Low confidence score. The combined assessment from visual and satellite data "
           ++ "does not meet the minimum threshold for claim approval.") in
      let detailed_explanation :=
        _build_detailed_explanation status score ground_truth space_truth
          "weighted_score" base_explanation in
      WeightedVerificationResult_new score status detailed_explanation
        gt_confidence st_confidence "weighted_score"
    end
  end.

End WeightedVerificationService.

(* ===================================================================== *)
(** * app/models: the columns that the payout touches *)
(* ===================================================================== *)

Module Claim.
Record t : Type := mk
  { id : string;
    farm_id : option string;
    status : string;
    payout_amount : option Q;
    payout_status : option string;
    payout_reference : option string }.
End Claim.

Module Farm.
Record t : Type := mk
  { id : string;
    phone_number : string }.
End Farm.

Module PaymentTransactionModel.
Record t : Type := mk
  { transaction_id : string;
    claim_id : string;
    phone_number : string;
    amount : Q;
    status : string;
    message : string;
    created_at : Z }.
End PaymentTransactionModel.

(** The tables behind a [Session].  Rows of [payment_transactions] are
    only ever added, at the end. *)
Record Session : Type := mk_Session
  { claims : gmap string Claim.t;
    farms : gmap string Farm.t;
    payment_transactions : list PaymentTransactionModel.t }.

(* ===================================================================== *)
(** * app/services/mobile_money_service.py *)
(* ===================================================================== *)

Module MobileMoneyService.

Local Open Scope string_scope.

(** The result object [PaymentTransaction]. *)
Record PaymentTransaction : Type := mk_PaymentTransaction
  { success : bool;
    transaction_id : string;
    message : string;
    amount : Q;
    phone_number : string;
    timestamp : Z }.

(** [self] together with what the process supplies: the draws of
    [uuid.uuid4().hex] still to come, the clock, and whether the database
    accepts a commit. *)
Record t : Type := mk
  { api_url : string;
    api_key : string;
    is_production : bool;
    uuid4_hex : nat -> string;
    uuid4_drawn : nat;
    utcnow : Z;
    db_accepts : bool }.

Definition draw_uuid4_hex (self : t) : string * t :=
  (uuid4_hex self (uuid4_drawn self),
   mk (api_url self) (api_key self) (is_production self)
      (uuid4_hex self) (S (uuid4_drawn self)) (utcnow self) (db_accepts self)).

(** The table is [unique] on [transaction_id]. *)
Definition transaction_id_taken (tid : string)
    (table : list PaymentTransactionModel.t) : bool :=
  existsb (fun r => String.eqb (PaymentTransactionModel.transaction_id r) tid) table.

(** [db.add(transaction); db.commit()] *)
Definition add_and_commit (self : t) (row : PaymentTransactionModel.t)
    (table : list PaymentTransactionModel.t)
  : result (list PaymentTransactionModel.t) :=
  if negb (db_accepts self) then Raise (PyException "OperationalError")
  else if transaction_id_taken (PaymentTransactionModel.transaction_id row) table
  then Raise (PyException "IntegrityError")
  else Ok (table ++ [row])%list.

Definition _log_transaction (self : t)
    (transaction_id phone_number : string) (amount : Q)
    (reference : string) (success : bool) (message : string)
    (table : list PaymentTransactionModel.t) : list PaymentTransactionModel.t :=
  let transaction :=
    PaymentTransactionModel.mk transaction_id reference phone_number amount
      (if success then "completed" else "failed") message (utcnow self) in
  match add_and_commit self transaction table with
  | Ok table' => table'
  | Raise _ => table   (* db.rollback() *)
  end.

Definition send_payment (phone_number : string) (amount : Q) (reference : string)
    (st : t * list PaymentTransactionModel.t)
  : result PaymentTransaction * (t * list PaymentTransactionModel.t) :=
  let '(self, table) := st in
  (* Validate inputs *)
  if String.eqb phone_number "" || negb (startswith "+254" phone_number) then
    (Ok (mk_PaymentTransaction false ""
           "Invalid phone number format. Must start with +254"
           amount phone_number (utcnow self)), st)
  else if Qleb amount 0 then
    (Ok (mk_PaymentTransaction false ""
           "Invalid payment amount. Must be greater than 0"
           amount phone_number (utcnow self)), st)
  else
    (* Generate transaction ID *)
    let '(hex, self) := draw_uuid4_hex self in
    let transaction_id := "MM" ++ upper (String.substring 0 12 hex) in
    let '(success, message) :=
      if is_production self && negb (String.eqb (api_url self) "") then
        (false, "Mobile money API not configured")
      else
        (true, "Payment of KES " ++ format_comma_2f amount
                 ++ " sent successfully (simulated)") in
    (* Log transaction to database *)
    let table :=
      _log_transaction self transaction_id phone_number amount reference
        success message table in
    (Ok (mk_PaymentTransaction success transaction_id message amount
           phone_number (utcnow self)), (self, table)).

End MobileMoneyService.

(* ===================================================================== *)
(** * app/services/payment_service.py *)
(* ===================================================================== *)

Module PaymentService.

Import MobileMoneyService.
Local Open Scope string_scope.

Definition MAX_RETRIES : nat := 3.
Definition BASE_BACKOFF_SECONDS : Z := 2.
Definition DEFAULT_PAYOUT_AMOUNT : Q := 5000.00.

(** The two collaborators of the payout stage, which the module imports
    as [mobile_money_service] and [sms_service].  The money service works
    on its own state and on the transactions table; the SMS service on
    its own state. *)
Class MoneyService (P : Type) : Type :=
  { money_send_payment :
      string -> Q -> string -> P * list PaymentTransactionModel.t ->
      result PaymentTransaction * (P * list PaymentTransactionModel.t) }.

Class SmsService (S : Type) : Type :=
  { sms_send_payment_notification :
      string -> Q -> string -> S -> result bool * S }.

(** The world of a payout.  [attempts] and [notifications] record the
    calls made to the two collaborators, [slept] the delays awaited. *)
Record world (P S : Type) : Type := mk_world
  { db : Session;
    money : P;
    sms : S;
    slept : list Z;
    attempts : list (string * Q * string);
    notifications : list (string * Q * string) }.
Arguments mk_world {P S} _ _ _ _ _ _.
Arguments db {P S} _.
Arguments money {P S} _.
Arguments sms {P S} _.
Arguments slept {P S} _.
Arguments attempts {P S} _.
Arguments notifications {P S} _.

Section Payout.

Context {P S : Type} `{MoneyService P} `{SmsService S}.

Definition set_db (d : Session) (w : world P S) : world P S :=
  mk_world d (money w) (sms w) (slept w) (attempts w) (notifications w).

(** Assign attributes of the claim object and [db.commit()].  The commit
    of a claim update is taken to succeed; the one commit whose failure
    the code handles itself is that of [_log_transaction]. *)
Definition update_claim (claim_id : string) (f : Claim.t -> Claim.t)
    (w : world P S) : world P S :=
  set_db (mk_Session (alter f claim_id (claims (db w))) (farms (db w))
            (payment_transactions (db w))) w.

(** [await asyncio.sleep(seconds)] *)
Definition sleep (seconds : Z) (w : world P S) : world P S :=
  mk_world (db w) (money w) (sms w) (slept w ++ [seconds])%list (attempts w)
    (notifications w).

(** [await mobile_money_service.send_payment(...)] *)
Definition call_send_payment (phone_number : string) (amount : Q)
    (reference : string) (w : world P S)
  : result PaymentTransaction * world P S :=
  let '(r, (p, table)) :=
    money_send_payment phone_number amount reference
      (money w, payment_transactions (db w)) in
  (r, mk_world (mk_Session (claims (db w)) (farms (db w)) table) p (sms w)
        (slept w) (attempts w ++ [(phone_number, amount, reference)])%list
        (notifications w)).

(** [await sms_service.send_payment_notification(...)] *)
Definition call_send_payment_notification (phone_number : string)
    (amount : Q) (claim_id : string) (w : world P S)
  : result bool * world P S :=
  let '(r, s) := sms_send_payment_notification phone_number amount claim_id (sms w) in
  (r, mk_world (db w) (money w) s (slept w) (attempts w)
        (notifications w ++ [(phone_number, amount, claim_id)])%list).

(** If not last attempt, wait with exponential backoff. *)
Definition backoff (attempt : nat) (w : world P S) : world P S :=
  if (attempt <? MAX_RETRIES - 1)%nat
  then sleep (BASE_BACKOFF_SECONDS ^ (Z.of_nat attempt + 1)) w
  else w.

(** The body of [for attempt in range(self.MAX_RETRIES)] over the
    attempts still to run: [Some b] when the loop returns [b], [None]
    when it runs to its end. *)
Fixpoint payout_loop (claim_id farmer_phone : string) (payout_amount : Q)
    (remaining : list nat) (w : world P S) : option bool * world P S :=
  match remaining with
  | [] => (None, w)
  | attempt :: rest =>
      match call_send_payment farmer_phone payout_amount claim_id w with
      | (Ok payment_result, w) =>
          if success payment_result then
            (* Payment successful - update claim status *)
            let w :=
              update_claim claim_id
                (fun c => Claim.mk (Claim.id c) (Claim.farm_id c) "paid"
                            (Claim.payout_amount c) (Some "completed")
                            (Some (transaction_id payment_result))) w in
            (* Send SMS notification; an error is logged and dropped *)
            let '(_, w) :=
              call_send_payment_notification farmer_phone payout_amount
                claim_id w in
            (Some true, w)
          else
            (* Payment failed - log and retry *)
            payout_loop claim_id farmer_phone payout_amount rest
              (backoff attempt w)
      | (Raise _, w) =>
          payout_loop claim_id farmer_phone payout_amount rest
            (backoff attempt w)
      end
  end.

(** Truth value of [claim.payout_amount]: [None] and zero are false. *)
Definition truthy_amount (a : option Q) : bool :=
  match a with
  | Some x => negb (Qeq_bool x 0)
  | None => false
  end.

Definition process_payout (claim_id : string) (w : world P S)
  : result bool * world P S :=
  (* Get claim from database *)
  match claims (db w) !! claim_id with
  | None => (Raise (ValueError ("Claim " ++ claim_id ++ " not found")), w)
  | Some claim =>
      (* Verify claim is in approved status *)
      if negb (String.eqb (Claim.status claim) "auto_approved") then (Ok false, w)
      else
        (* Get farm to retrieve farmer phone number *)
        match Claim.farm_id claim ≫= (fun fid => farms (db w) !! fid) with
        | None =>
            (Raise (ValueError ("Farm not found for claim " ++ claim_id)), w)
        | Some farm =>
            let farmer_phone := Farm.phone_number farm in
            let payout_amount :=
              if truthy_amount (Claim.payout_amount claim)
              then default DEFAULT_PAYOUT_AMOUNT (Claim.payout_amount claim)
              else DEFAULT_PAYOUT_AMOUNT in
            (* Update claim with payout amount if not set *)
            let w :=
              if negb (truthy_amount (Claim.payout_amount claim)) then
                update_claim claim_id
                  (fun c => Claim.mk (Claim.id c) (Claim.farm_id c)
                              (Claim.status c) (Some payout_amount)
                              (Some "pending") (Claim.payout_reference c)) w
              else w in
            (* Attempt payment with retry logic *)
            match payout_loop claim_id farmer_phone payout_amount
                    (seq 0 MAX_RETRIES) w with
            | (Some b, w) => (Ok b, w)
            | (None, w) =>
                (* All retries failed - flag for manual processing *)
                let w :=
                  update_claim claim_id
                    (fun c => Claim.mk (Claim.id c) (Claim.farm_id c)
                                (Claim.status c) (Claim.payout_amount c)
                                (Some "failed_manual_review_required")
                                (Claim.payout_reference c)) w in
                (Ok false, w)
            end
        end
  end.

Definition retry_failed_payment (claim_id : string) (w : world P S)
  : result bool * world P S :=
  (* Get claim *)
  match claims (db w) !! claim_id with
  | None => (Raise (ValueError ("Claim " ++ claim_id ++ " not found")), w)
  | Some claim =>
      (* Verify claim has failed payment status *)
      if negb (bool_decide (Claim.payout_status claim
                            = Some "failed_manual_review_required"))
      then (Ok false, w)
      else
        (* Reset status and attempt payment *)
        let w :=
          update_claim claim_id
            (fun c => Claim.mk (Claim.id c) (Claim.farm_id c) (Claim.status c)
                        (Claim.payout_amount c) (Some "pending")
                        (Claim.payout_reference c)) w in
        process_payout claim_id w
  end.

End Payout.

(** The service that the module imports as [mobile_money_service]. *)
#[export] Instance mobile_money_service : MoneyService MobileMoneyService.t :=
  {| money_send_payment := MobileMoneyService.send_payment |}.

End PaymentService.

(* ===================================================================== *)
(** * app/services/sms_service.py *)
(* ===================================================================== *)

Module SMSService.

Import PaymentService.
Local Open Scope string_scope.

(** One entry of [Recipients] in the answer of the gateway; the service
    reads its [status] and logs the other two fields. *)
Record recipient : Type := mk_recipient
  { status : option string;
    messageId : option string;
    cost : option string }.

(** The answer of [africastalking.SMS.send]: the value under
    [SMSMessageData], if the key is there, holds the list under
    [Recipients], if that key is there. *)
Record response : Type := mk_response
  { SMSMessageData : option (option (list recipient)) }.

(** The gateway behind [self.sms]. *)
Class Gateway (S : Type) : Type :=
  { sms_send : string -> list string -> S -> result response * S }.

(** [response.get('SMSMessageData', {}).get('Recipients')] *)
Definition Recipients (r : response) : option (list recipient) :=
  match SMSMessageData r with
  | Some recipients => recipients
  | None => None
  end.

(** The check that follows the call of the gateway: the list is there
    and not empty, and its first entry has the status [Success]. *)
Definition delivered (r : response) : bool :=
  match Recipients r with
  | Some (first :: _) => bool_decide (status first = Some "Success")
  | _ => false
  end.

Section Service.

Context {S : Type} `{Gateway S}.

(** [send_message]: every exception is caught and answered with
    [False]. *)
Definition send_message (phone_number message : string) (s : S) : bool * S :=
  match sms_send message [phone_number] s with
  | (Ok response, s) => (delivered response, s)
  | (Raise _, s) => (false, s)
  end.

Definition send_payment_notification (phone_number : string) (amount : Q)
    (claim_id : string) (s : S) : bool * S :=
  (* Format message with amount in KES *)
  let message :=
    "MavunoSure: Your claim for KES " ++ format_comma_2f amount
      ++ " has been approved and payment sent." in
  send_message phone_number message s.

End Service.

(** The service that the payout stage imports as [sms_service]. *)
#[export] Instance sms_service {S : Type} `{Gateway S} : SmsService S :=
  {| sms_send_payment_notification := fun phone_number amount claim_id s =>
       let '(success, s) :=
         send_payment_notification phone_number amount claim_id s in
       (Ok success, s) |}.

End SMSService.

(* ===================================================================== *)
(** * Properties *)
(* ===================================================================== *)

Module PyFacts.

Lemma Qltb_lt (x y : Q) : Qltb x y = true <-> (x < y)%Q.
Proof.
  unfold Qltb. rewrite negb_true_iff. split.
  - intros E. apply Qnot_le_lt. intros Hle.
    apply Qle_bool_iff in Hle. congruence.
  - intros Hlt. destruct (Qle_bool y x) eqn:E; [|reflexivity].
    apply Qle_bool_iff in E. exfalso. revert E. apply Qlt_not_le, Hlt.
Qed.

Lemma Qltb_ge (x y : Q) : Qltb x y = false <-> (y <= x)%Q.
Proof. unfold Qltb. rewrite negb_false_iff. apply Qle_bool_iff. Qed.

Lemma Qgeb_ge (x y : Q) : Qgeb x y = true <-> (y <= x)%Q.
Proof. apply Qle_bool_iff. Qed.

Lemma Qgeb_lt (x y : Q) : Qgeb x y = false <-> (x < y)%Q.
Proof.
  rewrite <- (Qltb_lt x y). unfold Qgeb, Qltb.
  destruct (Qle_bool y x); simpl; split; congruence.
Qed.

Lemma Qleb_le (x y : Q) : Qleb x y = true <-> (x <= y)%Q.
Proof. apply Qle_bool_iff. Qed.

Lemma Qgtb_gt (x y : Q) : Qgtb x y = true <-> (y < x)%Q.
Proof. apply (Qltb_lt y x). Qed.

Lemma Qgtb_le (x y : Q) : Qgtb x y = false <-> (x <= y)%Q.
Proof. apply (Qltb_ge y x). Qed.

Lemma Qltb_spec (x y : Q) : reflect (x < y)%Q (Qltb x y).
Proof.
  destruct (Qltb x y) eqn:E; constructor.
  - now apply Qltb_lt.
  - apply Qltb_ge in E. now apply Qle_not_lt.
Qed.

Lemma Qgeb_spec (x y : Q) : reflect (y <= x)%Q (Qgeb x y).
Proof.
  destruct (Qgeb x y) eqn:E; constructor.
  - now apply Qgeb_ge.
  - apply Qgeb_lt in E. now apply Qlt_not_le.
Qed.

Lemma Qgtb_spec (x y : Q) : reflect (y < x)%Q (Qgtb x y).
Proof. apply (Qltb_spec y x). Qed.

Lemma ge0_le1_iff (x : Q) : Schemas.ge0_le1 x = true <-> (0 <= x <= 1)%Q.
Proof.
  unfold Schemas.ge0_le1. rewrite andb_true_iff, Qgeb_ge, Qleb_le. tauto.
Qed.

End PyFacts.

(** Case analysis on one float comparison of the goal. *)
Ltac case_cmp :=
  match goal with
  | |- context [Qltb ?x ?y] => destruct (PyFacts.Qltb_spec x y)
  | |- context [Qgeb ?x ?y] => destruct (PyFacts.Qgeb_spec x y)
  | |- context [Qgtb ?x ?y] => destruct (PyFacts.Qgtb_spec x y)
  end.

Module SatelliteVerdictFacts.

Import SatelliteService.
Local Open Scope Q_scope.

Lemma generate_verdict_severe (v : Q) :
  _generate_verdict v = SEVERE_STRESS <-> v < -0.2.
Proof.
  unfold _generate_verdict. repeat case_cmp; split; intros; try discriminate;
    try reflexivity; lra.
Qed.

Lemma generate_verdict_moderate (v : Q) :
  _generate_verdict v = MODERATE_STRESS <-> -0.2 <= v /\ v < -0.1.
Proof.
  unfold _generate_verdict. repeat case_cmp; split; intros; try discriminate;
    try reflexivity; lra.
Qed.

Lemma generate_verdict_normal (v : Q) :
  _generate_verdict v = NORMAL <-> -0.1 <= v.
Proof.
  unfold _generate_verdict. repeat case_cmp; split; intros; try discriminate;
    try reflexivity; lra.
Qed.

(** The verdict does not depend on how the rational is written. *)
Lemma generate_verdict_Qeq (v v' : Q) :
  v == v' -> _generate_verdict v = _generate_verdict v'.
Proof.
  intros E. destruct (_generate_verdict v') eqn:E'.
  - apply generate_verdict_severe. apply generate_verdict_severe in E'. lra.
  - apply generate_verdict_moderate. apply generate_verdict_moderate in E'. lra.
  - apply generate_verdict_normal. apply generate_verdict_normal in E'. lra.
Qed.

(** C1. [_generate_verdict] is a total function of the moisture index
    alone with the thresholds of the data model: an index below -0.2 is
    severe stress, an index from -0.2 up to but excluding -0.1 is
    moderate stress, an index of -0.1 or above is normal.  Each verdict
    is returned exactly on its interval, equal indices get equal
    verdicts, and the two boundary values fall on the upper side:
    -0.2 is moderate stress and -0.1 is normal. *)
Theorem generate_verdict_thresholds :
  forall v : Q,
    (_generate_verdict v = SEVERE_STRESS <-> v < -0.2)
    /\ (_generate_verdict v = MODERATE_STRESS <-> -0.2 <= v /\ v < -0.1)
    /\ (_generate_verdict v = NORMAL <-> -0.1 <= v)
    /\ (forall v', v == v' -> _generate_verdict v = _generate_verdict v')
    /\ _generate_verdict (-0.2) = MODERATE_STRESS
    /\ _generate_verdict (-0.1) = NORMAL.
Proof.
  intros v.
  split; [apply generate_verdict_severe|].
  split; [apply generate_verdict_moderate|].
  split; [apply generate_verdict_normal|].
  split; [apply generate_verdict_Qeq|].
  split; reflexivity.
Qed.

End SatelliteVerdictFacts.

Module WeightedVerificationFacts.

Import Schemas SatelliteService WeightedVerificationService.
Local Open Scope Q_scope.

(** "No contextual rule and no seasonality rule matches": both rule
    functions return [None]; the seasonality function only runs when a
    claim date is given. *)
Definition no_rule_matches (ground_truth : GroundTruth) (space_truth : SpaceTruth)
    (claim_date : option datetime) : Prop :=
  _apply_contextual_rules ground_truth space_truth = Ok None
  /\ forall d, claim_date = Some d ->
       _apply_seasonality_validation ground_truth space_truth d = Ok None.

(** The verdict stored in the evidence is the one derived from its index. *)
Definition verdict_derived (space_truth : SpaceTruth) : Prop :=
  verdict space_truth = _generate_verdict (ndmi_value space_truth).

Definition seasonality_label : string := "seasonality_dry_harvest_rejection".

Lemma new_result_ok (sc : Q) (stt : ClaimStatus) (expl : string) (g s : Q)
    (rule : string) :
  0 <= sc <= 1 -> 0 <= g <= 1 -> 0 <= s <= 1 ->
  WeightedVerificationResult_new sc stt expl g s rule
  = Ok (mk_WeightedVerificationResult sc stt expl g s (Some rule)).
Proof.
  intros Hsc Hg Hs. unfold WeightedVerificationResult_new.
  apply PyFacts.ge0_le1_iff in Hsc, Hg, Hs. now rewrite Hsc, Hg, Hs.
Qed.

Lemma new_result_inv (sc : Q) (stt : ClaimStatus) (expl : string) (g s : Q)
    (rule : string) (r : WeightedVerificationResult) :
  WeightedVerificationResult_new sc stt expl g s rule = Ok r ->
  r = mk_WeightedVerificationResult sc stt expl g s (Some rule).
Proof.
  unfold WeightedVerificationResult_new.
  destruct (_ && _ && _); [|discriminate]. now intros [= <-].
Qed.

Lemma rule_result_ok gt st (sc : Q) (stt : ClaimStatus) (g s : Q)
    (rule base : string) :
  0 <= sc <= 1 -> 0 <= g <= 1 -> 0 <= s <= 1 ->
  rule_result gt st sc stt g s rule base
  = Ok (Some (mk_WeightedVerificationResult sc stt
                (_build_detailed_explanation stt sc gt st rule base)
                g s (Some rule))).
Proof.
  intros Hsc Hg Hs. unfold rule_result.
  now rewrite new_result_ok.
Qed.

Lemma rule_result_inv gt st (sc : Q) (stt : ClaimStatus) (g s : Q)
    (rule base : string) (o : option WeightedVerificationResult) :
  rule_result gt st sc stt g s rule base = Ok o ->
  exists r, o = Some r /\ score r = sc /\ status r = stt
            /\ ground_truth_confidence r = g /\ space_truth_confidence r = s
            /\ rule_applied r = Some rule.
Proof.
  unfold rule_result.
  destruct (WeightedVerificationResult_new _ _ _ _ _ _) as [r|e] eqn:E;
    simpl; [|discriminate].
  intros [= <-]. apply new_result_inv in E. subst r. eauto 10.
Qed.

Lemma valid_confidence (gt : GroundTruth) :
  GroundTruth_valid gt = true -> 0 <= ml_confidence gt <= 1.
Proof. apply PyFacts.ge0_le1_iff. Qed.

(** A contextual rule never carries the seasonality label. *)
Lemma contextual_not_seasonality gt st r :
  _apply_contextual_rules gt st = Ok (Some r) ->
  rule_applied r <> Some seasonality_label.
Proof.
  unfold _apply_contextual_rules.
  repeat match goal with
         | |- context [if ?b then _ else _] => destruct b
         end;
    intros E; try discriminate E;
    apply rule_result_inv in E; destruct E as (r' & [= <-] & _ & _ & _ & _ & ->);
    discriminate.
Qed.

(** When no contextual rule fires on a drought claim, the index is at
    least -0.2 and the stored verdict is not normal. *)
Lemma contextual_none_drought gt st :
  _apply_contextual_rules gt st = Ok None ->
  ml_class gt = DROUGHT ->
  -0.2 <= ndmi_value st /\ verdict st <> NORMAL.
Proof.
  unfold _apply_contextual_rules. intros E Hd. rewrite Hd in E.
  rewrite bool_decide_eq_true_2 in E by reflexivity. simpl in E.
  destruct (PyFacts.Qltb_spec (ndmi_value st) (-0.2)) as [Hlt|Hge].
  { apply rule_result_inv in E. destruct E as (? & [=] & _). }
  destruct (bool_decide (verdict st = NORMAL)) eqn:Hv.
  { apply rule_result_inv in E. destruct E as (? & [=] & _). }
  apply bool_decide_eq_false in Hv. split; [lra | exact Hv].
Qed.

Lemma seasonality_some gt st d r :
  _apply_seasonality_validation gt st d = Ok (Some r) ->
  ml_class gt = DROUGHT /\ -0.1 <= ndmi_value st
  /\ rule_applied r = Some seasonality_label.
Proof.
  unfold _apply_seasonality_validation.
  destruct (bool_decide (ml_class gt = DROUGHT)) eqn:Hd; simpl; [|discriminate].
  apply bool_decide_eq_true in Hd.
  destruct (_ || _); [|discriminate].
  destruct (PyFacts.Qgeb_spec (ndmi_value st) (-0.1)); [|discriminate].
  intros E. apply rule_result_inv in E.
  destruct E as (r' & [= <-] & _ & _ & _ & _ & ->). auto.
Qed.

(** The result of [verify] comes from exactly one of its three stages. *)
Lemma verify_cases gt st claim_date r :
  verify gt st claim_date = Ok r ->
  _apply_contextual_rules gt st = Ok (Some r)
  \/ (_apply_contextual_rules gt st = Ok None
      /\ exists d, claim_date = Some d
                   /\ _apply_seasonality_validation gt st d = Ok (Some r))
  \/ (no_rule_matches gt st claim_date
      /\ rule_applied r = Some "weighted_score"%string).
Proof.
  unfold verify, no_rule_matches. intros H.
  destruct (_apply_contextual_rules gt st) as [[c|]|e]; simpl in H;
    try discriminate H.
  { injection H as <-. now left. }
  right.
  destruct claim_date as [d|]; simpl in H.
  - destruct (_apply_seasonality_validation gt st d) as [[s|]|e] eqn:Es;
      simpl in H; try discriminate H.
    + injection H as <-. left. eauto.
    + right. split; [split; [reflexivity|now intros ? [= <-]]|].
      destruct (if Qgtb _ _ then _ else _) as [stt base].
      apply new_result_inv in H. now subst r.
  - right. split; [split; [reflexivity|discriminate]|].
    destruct (if Qgtb _ _ then _ else _) as [stt base].
    apply new_result_inv in H. now subst r.
Qed.

Lemma armyworm_no_rule_matches gt st claim_date :
  ml_class gt = PEST_ARMYWORM -> no_rule_matches gt st claim_date.
Proof.
  intros Hc. split.
  - unfold _apply_contextual_rules. now rewrite Hc.
  - intros d _. unfold _apply_seasonality_validation. now rewrite Hc.
Qed.

Definition sample_date : datetime := mk_datetime 2024 1 15 10 30 0 0.

Definition sample_ground_truth (c : CropCondition) (conf : Q) : GroundTruth :=
  mk_GroundTruth "https://storage.example.com/claim123.jpg" c conf
    [(c, conf); (HEALTHY, 0.08); (OTHER, 0.05)] 60 180 (-1.2921) 36.8219
    sample_date.

Definition sample_space_truth (ndmi : Q) (v : SatelliteVerdict) : SpaceTruth :=
  mk_SpaceTruth ndmi (-0.03) sample_date 12.5 v.

(** C2. A drought observation against evidence whose verdict is normal
    (with an index of at least -0.2, so that rule 1 stays silent) is
    flagged for review by rule 2 with score 0.65 and satellite confidence
    0.3, whatever the claim date, given or not: rule 2 is reached before
    the seasonality check and before the weighted score. *)
Theorem drought_normal_flagged gt st (claim_date : option datetime) :
  GroundTruth_valid gt = true ->
  ml_class gt = DROUGHT ->
  verdict st = NORMAL ->
  -0.2 <= ndmi_value st ->
  exists r,
    verify gt st claim_date = Ok r
    /\ status r = FLAGGED_FOR_REVIEW
    /\ score r = 0.65
    /\ space_truth_confidence r = 0.3
    /\ ground_truth_confidence r = ml_confidence gt
    /\ rule_applied r = Some "rule_2_drought_normal_moisture"%string.
Proof.
  intros Hvalid Hd Hv Hn. apply valid_confidence in Hvalid.
  unfold verify, _apply_contextual_rules. rewrite Hd, Hv.
  rewrite !bool_decide_eq_true_2 by reflexivity.
  destruct (PyFacts.Qltb_spec (ndmi_value st) (-0.2)) as [Hlt|_]; [lra|].
  cbn [andb]. eexists. split.
  { rewrite (rule_result_ok gt st) by (try assumption; lra). reflexivity. }
  cbn. tauto.
Qed.

Lemma drought_normal_flagged_witness :
  GroundTruth_valid (sample_ground_truth DROUGHT 0.92) = true
  /\ verdict (sample_space_truth 0.05 NORMAL) = NORMAL
  /\ exists r,
       verify (sample_ground_truth DROUGHT 0.92) (sample_space_truth 0.05 NORMAL)
         (Some sample_date) = Ok r
       /\ status r = FLAGGED_FOR_REVIEW
       /\ score r = 0.65
       /\ space_truth_confidence r = 0.3
       /\ ground_truth_confidence r = 0.92
       /\ rule_applied r = Some "rule_2_drought_normal_moisture"%string.
Proof.
  split; [reflexivity|]. split; [reflexivity|].
  apply (drought_normal_flagged (sample_ground_truth DROUGHT 0.92)
           (sample_space_truth 0.05 NORMAL) (Some sample_date)).
  - reflexivity.
  - reflexivity.
  - reflexivity.
  - vm_compute. discriminate.
Defined.



(** C4. When the verdict of the evidence is the one derived from its
    index, the seasonality rejection cannot happen: no result of [verify]
    carries the label [seasonality_dry_harvest_rejection], and whenever
    the contextual rules pass a claim on, the seasonality check passes it
    on as well.  Its guard (drought, index at least -0.1) makes the verdict
    normal, and rule 2 has then already answered. *)
Theorem seasonality_branch_unreachable gt st (claim_date : option datetime) :
  verdict_derived st ->
  (forall r, verify gt st claim_date = Ok r ->
             rule_applied r <> Some "seasonality_dry_harvest_rejection"%string)
  /\ (_apply_contextual_rules gt st = Ok None ->
      forall d, _apply_seasonality_validation gt st d = Ok None).
Proof.
  intros Hinv.
  assert (Hdead : _apply_contextual_rules gt st = Ok None ->
                  ml_class gt = DROUGHT -> -0.1 <= ndmi_value st -> False).
  { intros Hctx Hd Hn.
    destruct (contextual_none_drought gt st Hctx Hd) as [_ Hv].
    apply Hv. rewrite Hinv.
    now apply SatelliteVerdictFacts.generate_verdict_normal. }
  split.
  - intros r Hr. destruct (verify_cases gt st claim_date r Hr)
      as [Hc | [(Hc & d & _ & Hs) | (_ & Hw)]].
    + exact (contextual_not_seasonality gt st r Hc).
    + apply seasonality_some in Hs. destruct Hs as (Hd & Hn & _).
      exfalso. now apply Hdead.
    + rewrite Hw. discriminate.
  - intros Hctx d. unfold _apply_seasonality_validation.
    destruct (bool_decide (ml_class gt = DROUGHT)) eqn:Hd; [|reflexivity].
    apply bool_decide_eq_true in Hd.
    destruct (PyFacts.Qgeb_spec (ndmi_value st) (-0.1)) as [Hn|Hn].
    + exfalso. now apply Hdead.
    + now destruct (_ || _).
Qed.

Lemma seasonality_branch_unreachable_witness :
  verdict_derived (sample_space_truth 0.05 NORMAL)
  /\ forall r,
       verify (sample_ground_truth DROUGHT 0.92) (sample_space_truth 0.05 NORMAL)
         (Some sample_date) = Ok r ->
       rule_applied r <> Some "seasonality_dry_harvest_rejection"%string.
Proof.
  split; [reflexivity|].
  apply (seasonality_branch_unreachable (sample_ground_truth DROUGHT 0.92)
           (sample_space_truth 0.05 NORMAL) (Some sample_date)).
  reflexivity.
Defined.

(** Without that invariant the branch is live: a record that pairs a
    moist index with a moderate verdict is rejected by it in January. *)
Example seasonality_reachable_without_invariant :
  exists r,
    verify (sample_ground_truth DROUGHT 0.92)
      (sample_space_truth 0.05 MODERATE_STRESS) (Some sample_date) = Ok r
    /\ rule_applied r = Some "seasonality_dry_harvest_rejection"%string
    /\ status r = REJECTED /\ score r = 0.45.
Proof. eexists. split; [vm_compute; reflexivity|]. cbn. tauto. Qed.

End WeightedVerificationFacts.

Module RetryFacts.

Import SatelliteService.
Local Open Scope Z_scope.

(** The provider state after [k] calls of [f], and what call number [k]
    (counted from 0) answers. *)
Fixpoint state_after {G A : Type} (f : G -> result A * G) (g : G) (k : nat) : G :=
  match k with
  | O => g
  | S k' => snd (f (state_after f g k'))
  end.

Definition outcome_at {G A : Type} (f : G -> result A * G) (g : G) (k : nat)
  : result A :=
  fst (f (state_after f g k)).

(** A transient failure is a raise of the provider's own exception. *)
Definition transient {A : Type} (r : result A) : bool :=
  match r with
  | Raise e => is_EEException e
  | Ok _ => false
  end.



(** A provider that answers from a script, for examples. *)
Definition scripted {A : Type} (default : result A)
  : list (result A) -> result A * list (result A) :=
  fun script =>
    match script with
    | [] => (default, [])
    | r :: rest => (r, rest)
    end.

Definition quiet_world {G : Type} (g : G) : world G := mk_world g 0 [] None.

Lemma lift_gee_eq {G A : Type} (f : G -> result A * G) (w : world G) :
  lift_gee f w
  = (fst (f (gee w)), mk_world (snd (f (gee w))) (now w) (slept w) (redis w)).
Proof. unfold lift_gee. now destruct (f (gee w)). Qed.

Lemma transient_false_final {G A : Type} (self : GEEClient) (func : io G A)
    (attempt : nat) (rest : list nat) (last : option exn) (w w1 : world G)
    (r : result A) :
  func w = (r, w1) -> transient r = false ->
  retry_loop self func (attempt :: rest) last w = (r, w1).
Proof.
  intros E Ht. cbn [retry_loop]. rewrite E.
  destruct r as [a|e]; [reflexivity|]. cbn in Ht. now rewrite Ht.
Qed.


Definition sum_Z (l : list Z) : Z := fold_right Z.add 0 l.

Lemma world_eta {G : Type} (g : G) (n n' : Z) (s s' : list Z)
    (r : option (gmap string redis_entry)) :
  n = n' -> s = s' -> mk_world g n s r = mk_world g n' s' r.
Proof. now intros -> ->. Qed.






(** The cases of the service's own tests, on a scripted provider. *)
Example retry_two_failures_then_success :
  execute_with_retry GEEClient_init
    (lift_gee (scripted (Raise (PyException "end of script"))))
    (quiet_world [Raise (EEException "Temporary error");
                  Raise (EEException "Another error"); Ok 7%nat])
  = (Ok 7%nat, mk_world [] 6 [2; 4] None).
Proof. reflexivity. Qed.

Example retry_all_attempts_fail :
  execute_with_retry GEEClient_init
    (lift_gee (scripted (A := nat) (Raise (EEException "Persistent error"))))
    (quiet_world [])
  = (Raise (EEException "Persistent error"), mk_world [] 6 [2; 4] None).
Proof. reflexivity. Qed.

Example retry_unexpected_error :
  execute_with_retry GEEClient_init
    (lift_gee (scripted (A := nat) (Raise (ValueError "Unexpected error"))))
    (quiet_world [Raise (ValueError "Unexpected error"); Ok 7%nat])
  = (Raise (ValueError "Unexpected error"), mk_world [Ok 7%nat] 0 [] None).
Proof. reflexivity. Qed.

End RetryFacts.

Module DatetimeFacts.

Local Open Scope string_scope.

Lemma string_app_cons (x : ascii) (a b : string) :
  String x a ++ b = String x (a ++ b).
Proof. reflexivity. Qed.

Lemma string_app_nil_l (a : string) : "" ++ a = a.
Proof. reflexivity. Qed.

Lemma string_app_assoc (a b c : string) : (a ++ b) ++ c = a ++ (b ++ c).
Proof.
  induction a as [|x a IH]; [reflexivity|].
  rewrite !string_app_cons. now f_equal.
Qed.

Lemma string_app_nil_r (a : string) : a ++ "" = a.
Proof.
  induction a as [|x a IH]; [reflexivity|].
  rewrite string_app_cons. now f_equal.
Qed.

Lemma digit_of_digit_char (d : N) :
  (d < 10)%N -> digit_of (digit_char d) = Some d.
Proof.
  intros Hd. unfold digit_of, digit_char.
  rewrite N_ascii_embedding by lia.
  replace ((48 <=? 48 + d)%N) with true by (symmetry; apply N.leb_le; lia).
  replace ((48 + d <=? 57)%N) with true by (symmetry; apply N.leb_le; lia).
  cbn [andb]. f_equal. lia.
Qed.

(** Reading [w] digits off the front of a padded number gives the number
    back (its last [w] digits) and leaves the rest of the string. *)
Lemma take_digits_pad0_app (w : nat) :
  forall (k : nat) (n : N) (s : string) (acc : N),
    take_digits (w + k) (pad0 w n ++ s) acc
    = take_digits k s (acc * 10 ^ N.of_nat w + n mod 10 ^ N.of_nat w)%N.
Proof.
  induction w as [|w IH]; intros k n s acc.
  - cbn [pad0 Nat.add]. rewrite string_app_nil_l. f_equal.
    cbn. rewrite N.mod_1_r. lia.
  - cbn [pad0]. rewrite string_app_assoc, string_app_cons, string_app_nil_l.
    replace (S w + k)%nat with (w + S k)%nat by lia.
    rewrite IH. cbn [take_digits].
    rewrite digit_of_digit_char by (apply N.mod_lt; lia).
    f_equal.
    rewrite Nat2N.inj_succ, N.pow_succ_r'.
    rewrite (N.Div0.mod_mul_r n 10 (10 ^ N.of_nat w)). lia.
Qed.

Lemma take_digits_pad0 (w : nat) (n : N) (s : string) :
  (n < 10 ^ N.of_nat w)%N ->
  take_digits w (pad0 w n ++ s) 0 = Some (n, s).
Proof.
  intros Hn. replace w with (w + 0)%nat at 1 by lia.
  rewrite take_digits_pad0_app. cbn [take_digits].
  rewrite N.mod_small by exact Hn. reflexivity.
Qed.

Lemma days_in_month_le (y m : N) : (days_in_month y m <= 31)%N.
Proof.
  unfold days_in_month.
  repeat match goal with
         | |- context [match ?x with _ => _ end] => destruct x
         end; lia.
Qed.

(** One field and the separator after it. *)
Ltac read_field :=
  rewrite take_digits_pad0 by (cbn; lia);
  cbn [mbind option_bind];
  rewrite string_app_cons, string_app_nil_l;
  cbn [expect Ascii.eqb Bool.eqb mbind option_bind].

(** [fromisoformat] reads back what [isoformat] wrote. *)
Lemma fromisoformat_isoformat (d : datetime) :
  datetime_valid d = true -> fromisoformat (isoformat d) = Ok d.
Proof.
  intros Hv. unfold fromisoformat.
  assert (Hp : parse_isoformat (isoformat d) = Some d).
  { unfold datetime_valid in Hv.
    repeat (apply andb_true_iff in Hv; destruct Hv as [Hv ?]).
    repeat match goal with
           | H : (_ <=? _)%N = true |- _ => apply N.leb_le in H
           | H : (_ <? _)%N = true |- _ => apply N.ltb_lt in H
           end.
    pose proof (days_in_month_le (year d) (month d)).
    destruct d as [y m dd hh mi ss us]; cbn [year month day hour minute second
      microsecond] in *.
    unfold isoformat, parse_isoformat;
      cbn [year month day hour minute second microsecond].
    read_field.
    read_field.
    read_field.
    read_field.
    read_field.
    rewrite take_digits_pad0 by (cbn; lia). cbn [mbind option_bind].
    destruct (N.eqb_spec us 0) as [->|Hus]; [reflexivity|].
    rewrite string_app_cons, string_app_nil_l.
    cbn [expect Ascii.eqb Bool.eqb mbind option_bind].
    rewrite <- (string_app_nil_r (pad0 6 us)).
    rewrite take_digits_pad0 by (cbn; lia). reflexivity. }
  rewrite Hp. now rewrite Hv.
Qed.

Example isoformat_sample :
  isoformat (mk_datetime 2024 1 15 10 30 0 0) = "2024-01-15T10:30:00"
  /\ isoformat (mk_datetime 2024 1 15 10 30 0 5) = "2024-01-15T10:30:00.000005".
Proof. split; reflexivity. Qed.

End DatetimeFacts.

Module CacheFacts.

Import SatelliteService.
Local Open Scope string_scope.

(** The JSON object that [_cache_result] stores for a record, [s] being
    the ISO string of its observation date. *)
Definition stored_json (r : SpaceTruth) (s : string) : gmap string jvalue :=
  <["ndmi_value" := JNum (ndmi_value r)]>
    (<["ndmi_14day_avg" := JNum (ndmi_14day_avg r)]>
      (<["observation_date" := JStr s]>
        (<["cloud_cover_pct" := JNum (cloud_cover_pct r)]>
          (<["verdict" := JStr (SatelliteVerdict_value (verdict r))]> ∅)))).

(** [x * 10^4] lies strictly within one half of the integer [k]: [k] ten
    thousandths is the value with four decimals nearest to [x]. *)
Definition rounds_to (x : Q) (k : Z) : Prop :=
  (inject_Z k - (1 # 2) < x * 10000 /\ x * 10000 < inject_Z k + (1 # 2))%Q.

Definition same_sign (x y : Q) : Prop := (x < 0 <-> y < 0)%Q.

(** Two coordinates share their first four decimals. *)
Definition same_first_4_decimals (x y : Q) : Prop :=
  Qfloor (Qabs x * 10000) = Qfloor (Qabs y * 10000) /\ same_sign x y.

Lemma model_dump_observation_date (r : SpaceTruth) :
  model_dump r !! "observation_date" = Some (VDatetime (observation_date r)).
Proof. reflexivity. Qed.

Lemma json_dumps_model_dump (r : SpaceTruth) (s : string) :
  json_dumps (<["observation_date" := VStr s]> (model_dump r))
  = Ok (stored_json r s).
Proof. vm_compute. reflexivity. Qed.

Lemma json_loads_observation_date (r : SpaceTruth) (s : string) :
  json_loads (stored_json r s) !! "observation_date" = Some (VStr s).
Proof. reflexivity. Qed.

Lemma SatelliteVerdict_of_value_value (v : SatelliteVerdict) :
  SatelliteVerdict_of_value (SatelliteVerdict_value v) = Some v.
Proof. now destruct v. Qed.

Lemma SpaceTruth_new_loaded (r : SpaceTruth) (s : string) :
  SpaceTruth_new
    (<["observation_date" := VDatetime (observation_date r)]>
       (json_loads (stored_json r s)))
  = Ok r.
Proof.
  destruct r as [n a d c v]. unfold SpaceTruth_new.
  replace (as_verdict _) with (Some v)
    by (now destruct v).
  reflexivity.
Qed.

(** ** Rounding *)

Lemma round_half_even_near (X K : N) (b : positive) :
  (Z.abs (2 * Z.of_N X - 2 * Z.of_N K * Zpos b) < Zpos b)%Z ->
  round_half_even X b = K.
Proof.
  intros Hnear. unfold round_half_even.
  pose proof (N.div_mod X (Npos b) ltac:(discriminate)) as Hdm.
  pose proof (N.mod_lt X (Npos b) ltac:(discriminate)) as Hlt.
  set (q := (X / Npos b)%N) in *. set (r := (X mod Npos b)%N) in *.
  assert (HX : Z.of_N X = (Zpos b * Z.of_N q + Z.of_N r)%Z) by lia.
  rewrite HX in Hnear. clear HX Hdm.
  set (D := (Z.of_N q - Z.of_N K)%Z).
  replace (2 * (Z.pos b * Z.of_N q + Z.of_N r) - 2 * Z.of_N K * Z.pos b)%Z
    with (2 * (Z.pos b * D) + 2 * Z.of_N r)%Z in Hnear by (unfold D; ring).
  assert (HD : (D <= -2 \/ D = -1 \/ D = 0 \/ 1 <= D)%Z) by lia.
  assert (Hpos : (D <= -2 -> Z.pos b * D <= -2 * Z.pos b)%Z) by nia.
  assert (Hneg : (1 <= D -> Z.pos b <= Z.pos b * D)%Z) by nia.
  destruct (N.compare_spec (2 * r) (Npos b)) as [He|Hl|Hg];
    destruct HD as [HD|[HD|[HD|HD]]];
    try specialize (Hpos HD); try specialize (Hneg HD);
    try (rewrite HD in Hnear); lia.
Qed.

Lemma rounds_to_round (x : Q) (k : Z) :
  rounds_to x k ->
  round x 4 = mk_decimal (Qltb x 0) (Z.to_N (Z.abs k)) 4.
Proof.
  intros [Hlo Hhi]. unfold round. f_equal.
  apply round_half_even_near.
  destruct x as [a b]. unfold Qlt in Hlo, Hhi. cbn in Hlo, Hhi.
  cbn [Qnum Qden].
  rewrite N2Z.inj_mul, !Z2N.id by lia.
  change (Z.of_N (10 ^ N.of_nat 4)) with 10000%Z.
  rewrite Pos.mul_1_r in Hlo, Hhi.
  lia.
Qed.

Lemma same_sign_Qltb (x y : Q) : same_sign x y -> Qltb x 0 = Qltb y 0.
Proof.
  unfold same_sign. intros Hs.
  destruct (PyFacts.Qltb_spec x 0), (PyFacts.Qltb_spec y 0); tauto.
Qed.

Lemma cache_key_collision (lat1 lng1 lat2 lng2 : Q) (claim_date : datetime)
    (k_lat k_lng : Z) :
  rounds_to lat1 k_lat -> rounds_to lat2 k_lat -> same_sign lat1 lat2 ->
  rounds_to lng1 k_lng -> rounds_to lng2 k_lng -> same_sign lng1 lng2 ->
  _generate_cache_key lat1 lng1 claim_date
  = _generate_cache_key lat2 lng2 claim_date.
Proof.
  intros Ha1 Ha2 Has Hn1 Hn2 Hns. unfold _generate_cache_key.
  rewrite (rounds_to_round lat1 k_lat Ha1), (rounds_to_round lat2 k_lat Ha2),
    (rounds_to_round lng1 k_lng Hn1), (rounds_to_round lng2 k_lng Hn2).
  now rewrite (same_sign_Qltb lat1 lat2 Has), (same_sign_Qltb lng1 lng2 Hns).
Qed.

(** ** Store, then retrieve *)

(** With Redis reachable, [_cache_result] writes the JSON object under
    the key, to expire [CACHE_TTL] seconds later. *)
Lemma cache_result_stores {G : Type} (self : SatelliteService) (key : string)
    (r : SpaceTruth) (w : world G) (db : gmap string redis_entry) :
  redis w = Some db ->
  (_cache_result self key r w).2
  = mk_world (gee w) (now w) (slept w)
      (Some (<[key := mk_redis_entry (now w + CACHE_TTL)
                        (stored_json r (isoformat (observation_date r)))]> db)).
Proof.
  intros Hdb. unfold _cache_result, _get_redis_client, redis_ping.
  rewrite Hdb.
  destruct (redis_client self); cbn [negb];
    rewrite model_dump_observation_date, json_dumps_model_dump;
    unfold try_except, redis_setex; rewrite Hdb; reflexivity.
Qed.

Lemma get_cached_result_hit {G : Type} (self : SatelliteService) (key : string)
    (r : SpaceTruth) (w : world G) (db : gmap string redis_entry) (e : redis_entry) :
  redis w = Some db ->
  db !! key = Some e ->
  (now w < expires_at e)%Z ->
  payload e = stored_json r (isoformat (observation_date r)) ->
  datetime_valid (observation_date r) = true ->
  (_get_cached_result self key w).1.1 = Some r.
Proof.
  intros Hdb He Hfresh Hp Hvalid.
  apply Z.ltb_lt in Hfresh.
  unfold _get_cached_result, _get_redis_client, redis_ping.
  rewrite Hdb.
  destruct (redis_client self); cbn [negb];
    unfold try_except, bind_io, redis_get; rewrite Hdb, He, Hfresh, Hp;
    rewrite json_loads_observation_date,
      (DatetimeFacts.fromisoformat_isoformat _ Hvalid), SpaceTruth_new_loaded;
    reflexivity.
Qed.

Lemma cache_round_trip {G : Type} (self : SatelliteService) (key : string)
    (r : SpaceTruth) (w : world G) (dt : Z) :
  is_Some (redis w) ->
  datetime_valid (observation_date r) = true ->
  (0 <= dt < CACHE_TTL)%Z ->
  (_get_cached_result (_cache_result self key r w).1 key
     (elapse dt (_cache_result self key r w).2)).1.1 = Some r.
Proof.
  intros [db Hdb] Hvalid Hdt.
  rewrite (cache_result_stores self key r w db Hdb).
  eapply get_cached_result_hit.
  - reflexivity.
  - apply lookup_insert_eq.
  - cbn. lia.
  - reflexivity.
  - exact Hvalid.
Qed.

Definition sample_record : SpaceTruth :=
  mk_SpaceTruth (-0.15) (-0.12) (mk_datetime 2024 1 14 8 12 41 0) 12.5
    MODERATE_STRESS.

Definition sample_world : world unit := mk_world tt 1705314600 [] (Some ∅).

Definition sample_service : SatelliteService := SatelliteService_init true.

Definition sample_claim_date : datetime := mk_datetime 2024 1 15 10 30 0 0.

(** C10, as the code has it.  With Redis reachable, a record stored
    under a key is read back unchanged under that key for the next 24
    hours, for every key and so for the key of every (lat, lng, claim
    date).  Two coordinate pairs get the same key, and so share the entry,
    when lat and lng each lie strictly within half a ten-thousandth of
    the same four-decimal value and have the same sign: the key rounds to
    the nearest four-decimal value, it does not cut the later decimals
    off. *)
Theorem cache_round_trip_and_key_rounding {G : Type} (self : SatelliteService)
    (r : SpaceTruth) (w : world G) (dt : Z) :
  is_Some (redis w) ->
  datetime_valid (observation_date r) = true ->
  (0 <= dt < CACHE_TTL)%Z ->
  (forall key : string,
      (_get_cached_result (_cache_result self key r w).1 key
         (elapse dt (_cache_result self key r w).2)).1.1 = Some r)
  /\ (forall (lat1 lng1 lat2 lng2 : Q) (claim_date : datetime) (k_lat k_lng : Z),
        rounds_to lat1 k_lat -> rounds_to lat2 k_lat -> same_sign lat1 lat2 ->
        rounds_to lng1 k_lng -> rounds_to lng2 k_lng -> same_sign lng1 lng2 ->
        _generate_cache_key lat1 lng1 claim_date
        = _generate_cache_key lat2 lng2 claim_date
        /\ (_get_cached_result
              (_cache_result self (_generate_cache_key lat1 lng1 claim_date) r w).1
              (_generate_cache_key lat2 lng2 claim_date)
              (elapse dt
                 (_cache_result self (_generate_cache_key lat1 lng1 claim_date)
                    r w).2)).1.1 = Some r).
Proof.
  intros Hup Hvalid Hdt. split.
  - intros key. now apply cache_round_trip.
  - intros lat1 lng1 lat2 lng2 claim_date k_lat k_lng Ha1 Ha2 Has Hn1 Hn2 Hns.
    pose proof (cache_key_collision lat1 lng1 lat2 lng2 claim_date k_lat k_lng
                  Ha1 Ha2 Has Hn1 Hn2 Hns) as Hkey.
    split; [exact Hkey|]. rewrite <- Hkey. now apply cache_round_trip.
Qed.

Lemma cache_round_trip_and_key_rounding_witness :
  is_Some (redis sample_world)
  /\ datetime_valid (observation_date sample_record) = true
  /\ (0 <= 3600 < CACHE_TTL)%Z
  /\ _generate_cache_key (-1.286389) 36.817223 sample_claim_date
     = "satellite:-1.2864:36.8172:2024-01-15"
  /\ _generate_cache_key (-1.28638912345) 36.81722387654 sample_claim_date
     = "satellite:-1.2864:36.8172:2024-01-15"
  /\ (_get_cached_result
        (_cache_result sample_service
           (_generate_cache_key (-1.286389) 36.817223 sample_claim_date)
           sample_record sample_world).1
        (_generate_cache_key (-1.28638912345) 36.81722387654 sample_claim_date)
        (elapse 3600
           (_cache_result sample_service
              (_generate_cache_key (-1.286389) 36.817223 sample_claim_date)
              sample_record sample_world).2)).1.1 = Some sample_record.
Proof.
  assert (Hup : is_Some (redis sample_world)) by (eexists; reflexivity).
  assert (Hdt : (0 <= 3600 < CACHE_TTL)%Z) by (unfold CACHE_TTL; lia).
  split; [exact Hup|]. split; [reflexivity|]. split; [exact Hdt|].
  split; [reflexivity|]. split; [reflexivity|].
  apply (proj2 (cache_round_trip_and_key_rounding sample_service sample_record
                  sample_world 3600 Hup eq_refl Hdt)
           (-1.286389)%Q 36.817223%Q (-1.28638912345)%Q 36.81722387654%Q
           sample_claim_date (-12864)%Z 368172%Z);
    unfold rounds_to, same_sign, Qlt; cbn; lia.
Defined.

(** C10 as stated fails: 1.00004 and 1.00006 differ only after the fourth
    decimal, yet they get different keys, and a record stored for the
    first is not found for the second. *)
Lemma cache_key_splits_shared_decimals :
  same_first_4_decimals 1.00004 1.00006
  /\ _generate_cache_key 1.00004 36.8219 sample_claim_date
     = "satellite:1.0:36.8219:2024-01-15"
  /\ _generate_cache_key 1.00006 36.8219 sample_claim_date
     = "satellite:1.0001:36.8219:2024-01-15"
  /\ _generate_cache_key 1.00004 36.8219 sample_claim_date
     <> _generate_cache_key 1.00006 36.8219 sample_claim_date
  /\ (_get_cached_result
        (_cache_result sample_service
           (_generate_cache_key 1.00004 36.8219 sample_claim_date)
           sample_record sample_world).1
        (_generate_cache_key 1.00006 36.8219 sample_claim_date)
        (elapse 3600
           (_cache_result sample_service
              (_generate_cache_key 1.00004 36.8219 sample_claim_date)
              sample_record sample_world).2)).1.1 = None.
Proof.
  split.
  { split; [reflexivity|]. unfold same_sign, Qlt. cbn. lia. }
  split; [reflexivity|]. split; [reflexivity|].
  split; [vm_compute; discriminate | vm_compute; reflexivity].
Qed.

(** Python keeps the sign of a negative number that rounds to zero. *)
Example cache_key_negative_zero :
  _generate_cache_key (-0.00001) 36.8219 sample_claim_date
  = "satellite:-0.0:36.8219:2024-01-15"
  /\ _generate_cache_key 0.00001 36.8219 sample_claim_date
     = "satellite:0.0:36.8219:2024-01-15".
Proof. split; reflexivity. Qed.

(** Once the 24 hours are over, the entry is gone. *)
Example cache_entry_expires :
  (_get_cached_result
     (_cache_result sample_service "satellite:-1.2864:36.8172:2024-01-15"
        sample_record sample_world).1
     "satellite:-1.2864:36.8172:2024-01-15"
     (elapse CACHE_TTL
        (_cache_result sample_service "satellite:-1.2864:36.8172:2024-01-15"
           sample_record sample_world).2)).1.1 = None.
Proof. vm_compute. reflexivity. Qed.

(** With Redis down, nothing is stored and nothing is found. *)
Example cache_unavailable :
  (_get_cached_result
     (_cache_result sample_service "k" sample_record
        (mk_world tt 0 [] None)).1
     "k"
     (_cache_result sample_service "k" sample_record
        (mk_world tt 0 [] None)).2).1.1 = None.
Proof. reflexivity. Qed.

(** ** Evidence fresh from the provider *)

(** Every record that [_query_satellite_data] returns carries the verdict
    of its own index. *)
Lemma query_satellite_data_verdict {G : Type} `{EarthEngine G} `{PyLib}
    (gee_client : GEEClient) (lat lng : Q) (claim_date : datetime)
    (w w' : world G) (r : SpaceTruth) :
  _query_satellite_data gee_client lat lng claim_date w = (Ok r, w') ->
  verdict r = _generate_verdict (ndmi_value r).
Proof.
  unfold _query_satellite_data, bind_io, ret_io, raise_io.
  repeat match goal with
         | |- context [match ?x with _ => _ end] => destruct x
         end;
    intros E; try discriminate E.
  now injection E as <- _.
Qed.

(** Looking into the cache leaves the world as it is. *)
Lemma get_cached_result_world {G : Type} (self : SatelliteService)
    (key : string) (w : world G) :
  (_get_cached_result self key w).2 = w.
Proof.
  unfold _get_cached_result, _get_redis_client, redis_ping, try_except,
    bind_io, redis_get, ret_io, raise_io.
  destruct (redis_client self), (redis w) as [db|]; cbn [negb fst snd];
    try reflexivity;
    repeat (match goal with
            | |- context [match ?x with _ => _ end] =>
                lazymatch x with
                | context [match _ with _ => _ end] => fail
                | _ => destruct x
                end
            end; cbn [fst snd]);
    reflexivity.
Qed.

(** A cache hit is returned as it is, without a call to the provider. *)
Lemma verify_claim_cache_hit {G : Type} `{EarthEngine G} `{PyLib}
    (self : SatelliteService) (lat lng : Q) (claim_date : datetime)
    (w : world G) (r : SpaceTruth) :
  (_get_cached_result self (_generate_cache_key lat lng claim_date) w).1.1
  = Some r ->
  (verify_claim self lat lng claim_date w).1.1 = Ok r
  /\ (verify_claim self lat lng claim_date w).2 = w.
Proof.
  unfold verify_claim.
  pose proof (get_cached_result_world self
                (_generate_cache_key lat lng claim_date) w) as Hw.
  destruct (_get_cached_result self _ w) as [[cached self'] w1].
  cbn [fst snd] in Hw |- *. intros ->. cbn [fst snd]. now split.
Qed.

End CacheFacts.

Module PaymentFacts.

Import MobileMoneyService PaymentService.
Local Open Scope string_scope.

(** ** Collaborators for examples *)

(** A money service that answers from a script and fails once the script
    is used up; an SMS service likewise, answering [True]. *)
Definition failed_transaction : PaymentTransaction :=
  mk_PaymentTransaction false "" "Payment failed" 0 "" 0.

#[export] Instance scripted_money : MoneyService (list (result PaymentTransaction)) :=
  {| money_send_payment := fun _ _ _ '(script, table) =>
       match script with
       | [] => (Ok failed_transaction, ([], table))
       | r :: rest => (r, (rest, table))
       end |}.

#[export] Instance scripted_sms : SmsService (list (result bool)) :=
  {| sms_send_payment_notification := fun _ _ _ script =>
       match script with
       | [] => (Ok true, [])
       | r :: rest => (r, rest)
       end |}.

Definition sample_uuid4_hex (n : nat) : string :=
  pad0 12 (N.of_nat n) ++ "4a7b8c9d0e1f2a3b4c5d".

(** The service as deployed in production, where the transfer API is not
    implemented, and as run in development, where it simulates success. *)
Definition production_service : MobileMoneyService.t :=
  MobileMoneyService.mk "https://api.example.com" "key" true sample_uuid4_hex 0
    1705314600 true.

Definition development_service : MobileMoneyService.t :=
  MobileMoneyService.mk "" "" false sample_uuid4_hex 0 1705314600 true.

Definition sample_claim (status : string) (payout_status : option string) : Claim.t :=
  Claim.mk "claim-1" (Some "farm-1") status (Some 5000.00%Q) payout_status None.

Definition sample_farm : Farm.t := Farm.mk "farm-1" "+254712345678".

Definition sample_session (status : string) (payout_status : option string) : Session :=
  mk_Session {["claim-1" := sample_claim status payout_status]}
    {["farm-1" := sample_farm]} [].

Definition sample_world {P : Type} (money : P) (sms : list (result bool))
    (status : string) (payout_status : option string)
  : world P (list (result bool)) :=
  mk_world (sample_session status payout_status) money sms [] [] [].

(** ** Vocabulary of the statements *)

(** The request passes the input validation of [send_payment]. *)
Definition valid_request (phone_number : string) (amount : Q) : Prop :=
  startswith "+254" phone_number = true /\ (0 < amount)%Q.

(** The identifier that the next call of [send_payment] will generate. *)
Definition next_transaction_id (self : MobileMoneyService.t) : string :=
  "MM" ++ upper (String.substring 0 12 (uuid4_hex self (uuid4_drawn self))).

(** The database takes the row: it accepts commits and the identifier is
    new. *)
Definition log_write_succeeds (self : MobileMoneyService.t)
    (table : list PaymentTransactionModel.t) : Prop :=
  db_accepts self = true
  /\ transaction_id_taken (next_transaction_id self) table = false.

(** An attempt failed: the service answered without success, or raised. *)
Definition attempt_failed (r : result PaymentTransaction) : Prop :=
  match r with
  | Ok t => success t = false
  | Raise _ => True
  end.

(** The delay slept after a failed attempt. *)
Definition delay_after (attempt : nat) : list Z :=
  if (attempt <? MAX_RETRIES - 1)%nat
  then [(BASE_BACKOFF_SECONDS ^ (Z.of_nat attempt + 1))%Z]
  else [].

Definition mark_paid (txid : string) (c : Claim.t) : Claim.t :=
  Claim.mk (Claim.id c) (Claim.farm_id c) "paid" (Claim.payout_amount c)
    (Some "completed") (Some txid).

Definition set_payout_status (s : string) (c : Claim.t) : Claim.t :=
  Claim.mk (Claim.id c) (Claim.farm_id c) (Claim.status c)
    (Claim.payout_amount c) (Some s) (Claim.payout_reference c).

(** ** What each step leaves alone *)

Section Frames.

Context {P SMS : Type} `{MoneyService P} `{SmsService SMS}.

Lemma call_send_payment_frame (phone : string) (amt : Q) (ref : string)
    (w : world P SMS) :
  let run := call_send_payment phone amt ref w in
  run.1 = (money_send_payment phone amt ref
             (money w, payment_transactions (db w))).1
  /\ money run.2 = (money_send_payment phone amt ref
                      (money w, payment_transactions (db w))).2.1
  /\ claims (db run.2) = claims (db w)
  /\ farms (db run.2) = farms (db w)
  /\ slept run.2 = slept w
  /\ attempts run.2 = (attempts w ++ [(phone, amt, ref)])%list
  /\ notifications run.2 = notifications w.
Proof.
  unfold call_send_payment.
  destruct (money_send_payment _ _ _ _) as [r [p table]]. cbn. tauto.
Qed.

Lemma call_notification_frame (phone : string) (amt : Q) (cid : string)
    (w : world P SMS) :
  let run := call_send_payment_notification phone amt cid w in
  db run.2 = db w
  /\ money run.2 = money w
  /\ slept run.2 = slept w
  /\ attempts run.2 = attempts w
  /\ notifications run.2 = (notifications w ++ [(phone, amt, cid)])%list.
Proof.
  unfold call_send_payment_notification.
  destruct (sms_send_payment_notification _ _ _ _) as [r s]. cbn. tauto.
Qed.

Lemma backoff_frame (attempt : nat) (w : world P SMS) :
  db (backoff attempt w) = db w
  /\ money (backoff attempt w) = money w
  /\ slept (backoff attempt w) = (slept w ++ delay_after attempt)%list
  /\ attempts (backoff attempt w) = attempts w
  /\ notifications (backoff attempt w) = notifications w.
Proof.
  unfold backoff, delay_after. destruct (_ <? _)%nat; cbn;
    rewrite ?app_nil_r; tauto.
Qed.

(** The loop: it never returns [False]; it ends after the first
    successful attempt, having marked the claim paid and dispatched one
    notification, or runs through all attempts, having touched neither the
    claim nor the notifications.  A delay follows every failed attempt but
    the last one allowed. *)
Lemma payout_loop_spec (cid phone : string) (amt : Q) (remaining : list nat) :
  forall w : world P SMS,
    let run := payout_loop cid phone amt remaining w in
    farms (db run.2) = farms (db w)
    /\ exists k : nat,
         (k <= length remaining)%nat
         /\ attempts run.2 = (attempts w ++ repeat (phone, amt, cid) k)%list
         /\ match run.1 with
            | None =>
                k = length remaining
                /\ slept run.2 = (slept w ++ flat_map delay_after remaining)%list
                /\ notifications run.2 = notifications w
                /\ claims (db run.2) = claims (db w)
            | Some b =>
                b = true
                /\ (1 <= k)%nat
                /\ slept run.2
                   = (slept w ++ flat_map delay_after (firstn (k - 1) remaining))%list
                /\ notifications run.2
                   = (notifications w ++ [(phone, amt, cid)])%list
                /\ exists txid,
                     claims (db run.2) = alter (mark_paid txid) cid (claims (db w))
            end.
Proof.
  induction remaining as [|attempt rest IH]; intros w; cbn zeta.
  - cbn. split; [reflexivity|]. exists 0%nat. cbn.
    rewrite !app_nil_r. repeat split; lia.
  - cbn [payout_loop].
    pose proof (call_send_payment_frame phone amt cid w) as Hf.
    cbn zeta in Hf.
    destruct (call_send_payment phone amt cid w) as [r w1].
    cbn [fst snd] in Hf. destruct Hf as (_ & _ & Hc & Hfa & Hs & Ha & Hn).
    assert (Hfail :
      let run := payout_loop cid phone amt rest (backoff attempt w1) in
      farms (db run.2) = farms (db w)
      /\ exists k : nat,
           (k <= length (attempt :: rest))%nat
           /\ attempts run.2 = (attempts w ++ repeat (phone, amt, cid) k)%list
           /\ match run.1 with
              | None =>
                  k = length (attempt :: rest)
                  /\ slept run.2
                     = (slept w ++ flat_map delay_after (attempt :: rest))%list
                  /\ notifications run.2 = notifications w
                  /\ claims (db run.2) = claims (db w)
              | Some b =>
                  b = true
                  /\ (1 <= k)%nat
                  /\ slept run.2
                     = (slept w
                        ++ flat_map delay_after
                             (firstn (k - 1) (attempt :: rest)))%list
                  /\ notifications run.2
                     = (notifications w ++ [(phone, amt, cid)])%list
                  /\ exists txid,
                       claims (db run.2)
                       = alter (mark_paid txid) cid (claims (db w))
              end).
    { cbn zeta. specialize (IH (backoff attempt w1)). cbn zeta in IH.
      destruct (backoff_frame attempt w1) as (Hbd & _ & Hbs & Hba & Hbn).
      destruct IH as (IHf & k & Hk & IHa & IHm).
      rewrite Hbd in IHf. rewrite Hba, Ha in IHa.
      split; [congruence|]. exists (S k). split; [cbn; lia|].
      split; [rewrite IHa, <- app_assoc; reflexivity|].
      destruct (payout_loop cid phone amt rest (backoff attempt w1)).1 as [b|].
      - destruct IHm as (Hb & Hk1 & IHs & IHn & txid & IHc).
        split; [exact Hb|]. split; [lia|].
        rewrite Hbs, Hs in IHs. rewrite Hbn, Hn in IHn. rewrite Hbd, Hc in IHc.
        split; [|split; [exact IHn | eauto]].
        destruct k as [|k]; [lia|].
        replace (S (S k) - 1)%nat with (S k) by lia.
        replace (S k - 1)%nat with k in IHs by lia.
        cbn [firstn flat_map]. now rewrite IHs, <- app_assoc.
      - destruct IHm as (-> & IHs & IHn & IHc).
        rewrite Hbs, Hs in IHs. rewrite Hbn, Hn in IHn. rewrite Hbd, Hc in IHc.
        split; [reflexivity|]. cbn [flat_map].
        rewrite IHs, <- app_assoc. now split. }
    destruct r as [t|e]; [|exact Hfail].
    destruct (success t); [|exact Hfail].
    clear Hfail IH.
    match goal with
    | |- context [call_send_payment_notification phone amt cid ?w2] =>
        pose proof (call_notification_frame phone amt cid w2) as Hnf;
        cbn zeta in Hnf;
        destruct (call_send_payment_notification phone amt cid w2) as [rn w3]
    end.
    cbn [fst snd] in Hnf |- *. destruct Hnf as (Hd3 & _ & Hs3 & Ha3 & Hn3).
    cbn in Hd3, Hs3, Ha3, Hn3.
    rewrite Hd3. cbn. split; [exact Hfa|].
    exists 1%nat. split; [lia|]. split; [now rewrite Ha3, Ha|].
    split; [reflexivity|]. split; [lia|].
    split; [now rewrite Hs3, Hs, app_nil_r|].
    split; [now rewrite Hn3, Hn|].
    exists (transaction_id t). now rewrite Hc.
Qed.

End Frames.

(** ** The payout stage *)

Section Payout.

Context {P SMS : Type} `{MoneyService P} `{SmsService SMS}.

(** The amount the stage pays for a claim, and the world after the stage
    has filled in a missing amount. *)
Definition payout_amount_of (claim : Claim.t) : Q :=
  if truthy_amount (Claim.payout_amount claim)
  then default DEFAULT_PAYOUT_AMOUNT (Claim.payout_amount claim)
  else DEFAULT_PAYOUT_AMOUNT.

Definition prepared (claim_id : string) (claim : Claim.t) (w : world P SMS)
  : world P SMS :=
  if negb (truthy_amount (Claim.payout_amount claim)) then
    update_claim claim_id
      (fun c => Claim.mk (Claim.id c) (Claim.farm_id c) (Claim.status c)
                  (Some (payout_amount_of claim)) (Some "pending")
                  (Claim.payout_reference c)) w
  else w.

(** The claim is there, approved, and its farm is on record. *)
Definition payable (claim_id : string) (w : world P SMS)
    (claim : Claim.t) (farm : Farm.t) : Prop :=
  claims (db w) !! claim_id = Some claim
  /\ Claim.status claim = "auto_approved"
  /\ Claim.farm_id claim ≫= (fun fid => farms (db w) !! fid) = Some farm.

Lemma update_claim_frame (cid : string) (f : Claim.t -> Claim.t) (w : world P SMS) :
  claims (db (update_claim cid f w)) = alter f cid (claims (db w))
  /\ farms (db (update_claim cid f w)) = farms (db w)
  /\ payment_transactions (db (update_claim cid f w)) = payment_transactions (db w)
  /\ money (update_claim cid f w) = money w
  /\ slept (update_claim cid f w) = slept w
  /\ attempts (update_claim cid f w) = attempts w
  /\ notifications (update_claim cid f w) = notifications w.
Proof. cbn. tauto. Qed.

Lemma prepared_frame (cid : string) (claim : Claim.t) (w : world P SMS) :
  claims (db w) !! cid = Some claim ->
  (exists c, claims (db (prepared cid claim w)) !! cid = Some c
             /\ Claim.status c = Claim.status claim)
  /\ farms (db (prepared cid claim w)) = farms (db w)
  /\ payment_transactions (db (prepared cid claim w)) = payment_transactions (db w)
  /\ money (prepared cid claim w) = money w
  /\ slept (prepared cid claim w) = slept w
  /\ attempts (prepared cid claim w) = attempts w
  /\ notifications (prepared cid claim w) = notifications w.
Proof.
  intros Hc. unfold prepared. destruct (negb _).
  - cbn. rewrite lookup_alter_eq, Hc. cbn. split; [eauto|tauto].
  - split; [eauto|tauto].
Qed.

Lemma process_payout_eq (claim_id : string) (w : world P SMS)
    (claim : Claim.t) (farm : Farm.t) :
  payable claim_id w claim farm ->
  process_payout claim_id w
  = match payout_loop claim_id (Farm.phone_number farm) (payout_amount_of claim)
            (seq 0 MAX_RETRIES) (prepared claim_id claim w) with
    | (Some b, w') => (Ok b, w')
    | (None, w') =>
        (Ok false,
         update_claim claim_id (set_payout_status "failed_manual_review_required") w')
    end.
Proof.
  intros (Hc & Hs & Hf). unfold process_payout. rewrite Hc, Hs, Hf.
  reflexivity.
Qed.

Lemma process_payout_skips (claim_id : string) (w : world P SMS) :
  (forall claim farm, ~ payable claim_id w claim farm) ->
  (process_payout claim_id w).2 = w
  /\ (process_payout claim_id w).1 <> Ok true.
Proof.
  intros Hno. unfold process_payout.
  destruct (claims (db w) !! claim_id) as [claim|] eqn:Hc;
    [|split; [reflexivity | discriminate]].
  destruct (String.eqb_spec (Claim.status claim) "auto_approved") as [Hs|Hs];
    [|split; [reflexivity | discriminate]].
  cbn [negb].
  destruct (Claim.farm_id claim ≫= _) as [farm|] eqn:Hf;
    [|split; [reflexivity | discriminate]].
  exfalso. apply (Hno claim farm). now repeat split.
Qed.

Lemma payable_dec (claim_id : string) (w : world P SMS) :
  (exists claim farm, payable claim_id w claim farm)
  \/ (forall claim farm, ~ payable claim_id w claim farm).
Proof.
  unfold payable.
  destruct (claims (db w) !! claim_id) as [claim|] eqn:Hc;
    [|right; intros ? ? (? & _); discriminate].
  destruct (String.eqb_spec (Claim.status claim) "auto_approved") as [Hs|Hs];
    [|right; intros ? ? ([= <-] & ? & _); contradiction].
  destruct (Claim.farm_id claim ≫= (fun fid => farms (db w) !! fid))
    as [farm|] eqn:Hf.
  - left. exists claim, farm. auto.
  - right. intros ? ? ([= <-] & _ & Hf'). congruence.
Qed.

Lemma delays_of_cycle (k : nat) :
  (1 <= k <= 3)%nat ->
  flat_map delay_after (firstn (k - 1) (seq 0 MAX_RETRIES))
  = firstn (k - 1) [2; 4]%Z.
Proof.
  intros Hk. destruct k as [|[|[|[|k]]]]; try lia; reflexivity.
Qed.

End Payout.

Section PayoutClaims.

Context {P SMS : Type} `{MoneyService P} `{SmsService SMS}.

(** Every attempt of the money service fails, in every state it can get
    into from one that satisfies [Inv]. *)
Definition always_fails (Inv : P -> Prop) : Prop :=
  forall (phone : string) (amt : Q) (ref : string) (p : P)
         (table : list PaymentTransactionModel.t),
    Inv p ->
    attempt_failed (money_send_payment phone amt ref (p, table)).1
    /\ Inv (money_send_payment phone amt ref (p, table)).2.1.

Lemma payout_loop_all_fail (Inv : P -> Prop) (cid phone : string) (amt : Q) :
  always_fails Inv ->
  forall (remaining : list nat) (w : world P SMS),
    Inv (money w) -> (payout_loop cid phone amt remaining w).1 = None.
Proof.
  intros Hfail. induction remaining as [|attempt rest IH]; intros w Hinv;
    [reflexivity|].
  cbn [payout_loop].
  pose proof (call_send_payment_frame phone amt cid w) as Hf. cbn zeta in Hf.
  destruct (call_send_payment phone amt cid w) as [r w1].
  cbn [fst snd] in Hf. destruct Hf as (Hr & Hm & _).
  destruct (Hfail phone amt cid (money w) (payment_transactions (db w)) Hinv)
    as [Hfailed Hinv'].
  rewrite <- Hr in Hfailed. rewrite <- Hm in Hinv'.
  assert (Hinv'' : Inv (money (backoff attempt w1))).
  { destruct (backoff_frame attempt w1) as (_ & -> & _). exact Hinv'. }
  destruct r as [t|e]; [|now apply IH].
  cbn in Hfailed. rewrite Hfailed. now apply IH.
Qed.

(** C6, as the code has it.  One run of the payout stage calls the money
    service at most 3 times, always with the same recipient, amount and
    claim reference, and sleeps only between two calls: 2 s after a failed
    first attempt and 4 s after a failed second one.  Nothing is slept
    after the third attempt, so the delays of a run form a prefix of
    2 s, 4 s. *)
Theorem payout_cycle_attempts_and_delays (claim_id : string) (w : world P SMS) :
  let run := process_payout claim_id w in
  exists (k : nat) (phone : string) (amt : Q),
    (k <= 3)%nat
    /\ attempts run.2 = (attempts w ++ repeat (phone, amt, claim_id) k)%list
    /\ slept run.2 = (slept w ++ firstn (k - 1) [2; 4]%Z)%list
    /\ (k < 3 -> k = 0%nat \/ run.1 = Ok true)%nat.
Proof.
  cbn zeta. destruct (payable_dec claim_id w) as [(claim & farm & Hp)|Hno].
  - rewrite (process_payout_eq claim_id w claim farm Hp).
    destruct Hp as (Hc & _ & _).
    destruct (prepared_frame claim_id claim w Hc) as (_ & _ & _ & _ & Hs & Ha & _).
    pose proof (payout_loop_spec claim_id (Farm.phone_number farm)
                  (payout_amount_of claim) (seq 0 MAX_RETRIES)
                  (prepared claim_id claim w)) as Hloop.
    cbn zeta in Hloop. destruct Hloop as (_ & k & Hk & Hatt & Hm).
    rewrite Ha in Hatt. rewrite Hs in Hm. cbn [length seq MAX_RETRIES] in Hk.
    destruct (payout_loop _ _ _ _ _) as [[b|] w']; cbn [fst snd] in *.
    + destruct Hm as (-> & Hk1 & Hsl & _).
      exists k, (Farm.phone_number farm), (payout_amount_of claim).
      split; [exact Hk|]. split; [exact Hatt|].
      split; [|now right].
      rewrite Hsl. f_equal. apply delays_of_cycle. lia.
    + destruct Hm as (-> & Hsl & _).
      exists 3%nat, (Farm.phone_number farm), (payout_amount_of claim).
      split; [lia|]. split; [exact Hatt|].
      split; [|lia]. exact Hsl.
  - destruct (process_payout_skips claim_id w Hno) as [-> _].
    exists 0%nat, "", 0%Q. cbn. rewrite !app_nil_r. repeat split; auto.
Qed.

(** C7. For a claim that is payable (present, auto-approved, farm on
    record): if every attempt of the money service fails, the stage makes
    its three attempts, sets the payout status to
    [failed_manual_review_required], returns [False] and dispatches no
    notification.  In every run the stage either returns [False] with that
    flag and no notification, or returns [True] with the claim paid and
    exactly one notification dispatched; so a notification goes out only
    after a successful attempt.  When the first attempt succeeds the stage
    returns [True] and the claim is paid whatever the SMS service answers,
    an exception included. *)
Theorem payout_exhaustion_and_notification (claim_id : string) (w : world P SMS)
    (claim : Claim.t) (farm : Farm.t) :
  payable claim_id w claim farm ->
  let run := process_payout claim_id w in
  let sent := (Farm.phone_number farm, payout_amount_of claim, claim_id) in
  (forall Inv : P -> Prop,
      Inv (money w) -> always_fails Inv ->
      run.1 = Ok false
      /\ (exists c, claims (db run.2) !! claim_id = Some c
                    /\ Claim.payout_status c = Some "failed_manual_review_required"
                    /\ Claim.status c = "auto_approved")
      /\ notifications run.2 = notifications w
      /\ attempts run.2 = (attempts w ++ repeat sent 3)%list)
  /\ ((run.1 = Ok false
       /\ notifications run.2 = notifications w
       /\ exists c, claims (db run.2) !! claim_id = Some c
                    /\ Claim.payout_status c = Some "failed_manual_review_required")
      \/ (run.1 = Ok true
          /\ notifications run.2 = (notifications w ++ [sent])%list
          /\ exists c, claims (db run.2) !! claim_id = Some c
                       /\ Claim.status c = "paid"
                       /\ Claim.payout_status c = Some "completed"))
  /\ (forall (t : PaymentTransaction) (sms_outcome : result bool),
        (money_send_payment (Farm.phone_number farm) (payout_amount_of claim)
           claim_id (money w, payment_transactions (db w))).1 = Ok t ->
        success t = true ->
        (sms_send_payment_notification (Farm.phone_number farm)
           (payout_amount_of claim) claim_id (sms w)).1 = sms_outcome ->
        run.1 = Ok true
        /\ exists c, claims (db run.2) !! claim_id = Some c
                     /\ Claim.status c = "paid"
                     /\ Claim.payout_status c = Some "completed"
                     /\ Claim.payout_reference c = Some (transaction_id t)).
Proof.
  intros Hp. cbn zeta.
  rewrite (process_payout_eq claim_id w claim farm Hp).
  destruct Hp as (Hc & Hst & _).
  destruct (prepared_frame claim_id claim w Hc)
    as ((c0 & Hc0 & Hst0) & _ & Htab & Hmon & _ & Ha & Hn).
  pose proof (payout_loop_spec claim_id (Farm.phone_number farm)
                (payout_amount_of claim) (seq 0 MAX_RETRIES)
                (prepared claim_id claim w)) as Hloop.
  cbn zeta in Hloop. destruct Hloop as (_ & k & Hk & Hatt & Hm).
  rewrite Ha in Hatt. rewrite Hn in Hm.
  split; [|split].
  - intros Inv Hinv Hfail.
    pose proof (payout_loop_all_fail Inv claim_id (Farm.phone_number farm)
                  (payout_amount_of claim) Hfail (seq 0 MAX_RETRIES)
                  (prepared claim_id claim w)) as Hnone.
    rewrite Hmon in Hnone. specialize (Hnone Hinv).
    destruct (payout_loop _ _ _ _ _) as [o w']; cbn [fst snd] in *.
    subst o. destruct Hm as (-> & _ & Hnot & Hcl).
    cbn [fst snd]. split; [reflexivity|]. split; [|split].
    + cbn. rewrite lookup_alter_eq, Hcl, Hc0. cbn.
      eexists. split; [reflexivity|]. cbn. split; [reflexivity|congruence].
    + exact Hnot.
    + exact Hatt.
  - destruct (payout_loop _ _ _ _ _) as [[b|] w']; cbn [fst snd] in *.
    + destruct Hm as (-> & _ & _ & Hnot & txid & Hcl).
      right. split; [reflexivity|]. split; [exact Hnot|].
      rewrite Hcl, lookup_alter_eq, Hc0. cbn. eauto.
    + destruct Hm as (_ & _ & Hnot & Hcl).
      left. split; [reflexivity|]. split; [exact Hnot|].
      cbn. rewrite lookup_alter_eq, Hcl, Hc0. cbn. eauto.
  - intros t sms_outcome Hfirst Hsucc _. clear Hm Hatt Hk k.
    cbn [seq MAX_RETRIES payout_loop].
    pose proof (call_send_payment_frame (Farm.phone_number farm)
                  (payout_amount_of claim) claim_id
                  (prepared claim_id claim w)) as Hf.
    cbn zeta in Hf. rewrite Hmon, Htab in Hf.
    destruct (call_send_payment _ _ _ (prepared claim_id claim w)) as [r w1].
    cbn [fst snd] in Hf. destruct Hf as (Hr & _ & Hcl & _).
    rewrite Hfirst in Hr. subst r. rewrite Hsucc.
    match goal with
    | |- context [call_send_payment_notification ?a ?b ?c ?w2] =>
        pose proof (call_notification_frame a b c w2) as Hnf;
        cbn zeta in Hnf;
        destruct (call_send_payment_notification a b c w2) as [rn w3]
    end.
    cbn [fst snd] in Hnf |- *. destruct Hnf as (Hd3 & _).
    split; [reflexivity|]. rewrite Hd3. cbn.
    rewrite lookup_alter_eq, Hcl, Hc0. cbn. eauto 10.
Qed.


End PayoutClaims.

(** ** The money service and its log *)

Ltac no_new_row :=
  exists []; rewrite app_nil_r; split; [reflexivity | cbn; lia].

Lemma startswith_nonempty (p s : string) :
  p <> "" -> startswith p s = true -> String.eqb s "" = false.
Proof.
  intros Hp Hs. destruct s; [|reflexivity].
  destruct p; [contradiction | discriminate].
Qed.

Lemma valid_request_checks (phone : string) (amount : Q) :
  valid_request phone amount ->
  String.eqb phone "" || negb (startswith "+254" phone) = false
  /\ Qleb amount 0 = false.
Proof.
  intros [Hs Ha]. split.
  - rewrite (startswith_nonempty "+254" phone) by (discriminate || exact Hs).
    now rewrite Hs.
  - destruct (Qleb amount 0) eqn:E; [|reflexivity].
    apply PyFacts.Qleb_le in E. exfalso. revert E. now apply Qlt_not_le.
Qed.

Lemma invalid_request_checks (phone : string) (amount : Q) :
  ~ valid_request phone amount ->
  String.eqb phone "" || negb (startswith "+254" phone) = true
  \/ Qleb amount 0 = true.
Proof.
  intros Hn. unfold valid_request in Hn.
  destruct (startswith "+254" phone) eqn:Hs.
  - right. destruct (Qleb amount 0) eqn:E; [reflexivity|].
    exfalso. apply Hn. split; [reflexivity|].
    apply Qnot_le_lt. intros Hle. apply PyFacts.Qleb_le in Hle. congruence.
  - left. apply orb_true_r.
Qed.

(** What [_log_transaction] does to the table. *)
Lemma log_transaction_cases (self : MobileMoneyService.t)
    (tid phone : string) (amount : Q) (reference : string) (ok : bool)
    (msg : string) (table : list PaymentTransactionModel.t) :
  let row := PaymentTransactionModel.mk tid reference phone amount
               (if ok then "completed" else "failed") msg (utcnow self) in
  let table' := _log_transaction self tid phone amount reference ok msg table in
  (db_accepts self = true /\ transaction_id_taken tid table = false ->
   table' = (table ++ [row])%list)
  /\ (~ (db_accepts self = true /\ transaction_id_taken tid table = false) ->
      table' = table)
  /\ exists rows, table' = (table ++ rows)%list /\ (length rows <= 1)%nat.
Proof.
  cbn zeta. unfold _log_transaction, add_and_commit.
  cbn [PaymentTransactionModel.transaction_id].
  destruct (db_accepts self); cbn [negb].
  - destruct (transaction_id_taken tid table).
    + split; [intros [_ ?]; discriminate|]. split; [reflexivity|]. no_new_row.
    + split; [reflexivity|]. split; [intros Hn; exfalso; now apply Hn|].
      eexists. split; [reflexivity | cbn; lia].
  - split; [intros [? _]; discriminate|]. split; [reflexivity|]. no_new_row.
Qed.

(** The simulated transfer: it fails in production, where the API is not
    implemented, and succeeds elsewhere. *)
Definition transfer_succeeds (self : MobileMoneyService.t) : bool :=
  negb (is_production self && negb (String.eqb (api_url self) "")).

Definition transfer_message (self : MobileMoneyService.t) (amount : Q) : string :=
  if transfer_succeeds self
  then "Payment of KES " ++ format_comma_2f amount ++ " sent successfully (simulated)"
  else "Mobile money API not configured".

Lemma send_payment_valid_eq (phone : string) (amount : Q) (reference : string)
    (self : MobileMoneyService.t) (table : list PaymentTransactionModel.t) :
  valid_request phone amount ->
  send_payment phone amount reference (self, table)
  = (Ok (mk_PaymentTransaction (transfer_succeeds self) (next_transaction_id self)
           (transfer_message self amount) amount phone (utcnow self)),
     ((draw_uuid4_hex self).2,
      _log_transaction (draw_uuid4_hex self).2 (next_transaction_id self) phone
        amount reference (transfer_succeeds self) (transfer_message self amount)
        table)).
Proof.
  intros Hv. unfold send_payment.
  destruct (valid_request_checks phone amount Hv) as [-> ->].
  unfold transfer_message, transfer_succeeds.
  cbn [draw_uuid4_hex fst snd is_production api_url utcnow].
  now destruct (is_production self && negb (String.eqb (api_url self) "")).
Qed.

Lemma send_payment_invalid_eq (phone : string) (amount : Q) (reference : string)
    (self : MobileMoneyService.t) (table : list PaymentTransactionModel.t) :
  ~ valid_request phone amount ->
  exists msg,
    send_payment phone amount reference (self, table)
    = (Ok (mk_PaymentTransaction false "" msg amount phone (utcnow self)),
       (self, table)).
Proof.
  intros Hn. unfold send_payment.
  destruct (invalid_request_checks phone amount Hn) as [->| Ha];
    [eexists; reflexivity|].
  destruct (_ || _); [eexists; reflexivity|].
  rewrite Ha. eexists; reflexivity.
Qed.

(** C5, as the code has it.  A call of [send_payment] whose input passes
    validation (number starting with +254, amount above 0) appends
    exactly one row to the payment log when the database takes the write,
    whether the transfer succeeded or not, and the row records that
    attempt; when the write is refused the error is swallowed and the log
    is unchanged.  A call that fails validation returns a failure with an
    empty transaction id and appends nothing.  In every case the log only
    grows at its end, by at most one row. *)
Theorem send_payment_log (phone : string) (amount : Q) (reference : string)
    (self : MobileMoneyService.t) (table : list PaymentTransactionModel.t) :
  let run := send_payment phone amount reference (self, table) in
  (valid_request phone amount -> log_write_succeeds self table ->
   exists t row,
     run.1 = Ok t
     /\ run.2.2 = (table ++ [row])%list
     /\ transaction_id t = next_transaction_id self
     /\ PaymentTransactionModel.transaction_id row = transaction_id t
     /\ PaymentTransactionModel.claim_id row = reference
     /\ PaymentTransactionModel.phone_number row = phone
     /\ PaymentTransactionModel.amount row = amount
     /\ PaymentTransactionModel.status row
        = (if success t then "completed" else "failed")
     /\ PaymentTransactionModel.message row = message t)
  /\ (valid_request phone amount -> ~ log_write_succeeds self table ->
      run.2.2 = table)
  /\ (~ valid_request phone amount ->
      run.2 = (self, table)
      /\ exists t, run.1 = Ok t /\ success t = false /\ transaction_id t = "")
  /\ (exists rows, run.2.2 = (table ++ rows)%list /\ (length rows <= 1)%nat).
Proof.
  cbn zeta.
  pose proof (log_transaction_cases (draw_uuid4_hex self).2
                (next_transaction_id self) phone amount reference
                (transfer_succeeds self) (transfer_message self amount) table)
    as Hlog.
  cbn zeta in Hlog. cbn [draw_uuid4_hex snd db_accepts utcnow] in Hlog.
  destruct Hlog as (Hok & Hno & Happ).
  split; [|split; [|split]].
  - intros Hv Hw. rewrite (send_payment_valid_eq _ _ _ _ _ Hv). cbn [fst snd].
    cbn [draw_uuid4_hex snd]. rewrite (Hok Hw).
    do 2 eexists. repeat split; reflexivity.
  - intros Hv Hw. rewrite (send_payment_valid_eq _ _ _ _ _ Hv). cbn [fst snd].
    cbn [draw_uuid4_hex snd]. exact (Hno Hw).
  - intros Hn.
    destruct (send_payment_invalid_eq phone amount reference self table Hn)
      as [msg ->].
    cbn [fst snd]. split; [reflexivity|]. eexists. repeat split; reflexivity.
  - assert (Hdec : valid_request phone amount \/ ~ valid_request phone amount).
    { unfold valid_request.
      destruct (startswith "+254" phone); [|right; intros [? _]; discriminate].
      destruct (Qlt_le_dec 0 amount) as [Hlt|Hle]; [left; now split|].
      right. intros [_ Hlt]. revert Hle. now apply Qlt_not_le. }
    destruct Hdec as [Hv|Hn].
    + rewrite (send_payment_valid_eq _ _ _ _ _ Hv). cbn [fst snd].
      cbn [draw_uuid4_hex snd]. exact Happ.
    + destruct (send_payment_invalid_eq phone amount reference self table Hn)
        as [msg ->].
      cbn [fst snd]. no_new_row.
Qed.

Lemma send_payment_log_witness :
  let run := send_payment "+254712345678" 5000.00 "claim-1"
               (development_service, []) in
  valid_request "+254712345678" 5000.00
  /\ log_write_succeeds development_service []
  /\ exists t row,
       run.1 = Ok t
       /\ run.2.2 = [row]
       /\ PaymentTransactionModel.transaction_id row = "MM000000000000"
       /\ PaymentTransactionModel.claim_id row = "claim-1"
       /\ PaymentTransactionModel.status row
          = (if success t then "completed" else "failed").
Proof.
  cbn zeta.
  assert (Hv : valid_request "+254712345678" 5000.00)
    by (split; reflexivity).
  assert (Hw : log_write_succeeds development_service [])
    by (split; reflexivity).
  split; [exact Hv|]. split; [exact Hw|].
  destruct (send_payment_log "+254712345678" 5000.00 "claim-1"
              development_service []) as (Hlogged & _).
  destruct (Hlogged Hv Hw) as (t & row & Hr & Ht & Hid & Hrow & Hc & _ & _ & Hs & _).
  exists t, row. split; [exact Hr|]. split; [exact Ht|].
  split; [now rewrite Hrow, Hid|]. split; [exact Hc | exact Hs].
Defined.

(** C5 as stated fails: a call rejected by the input validation returns
    before the log is written, so the log stays as it was. *)
Lemma send_payment_invalid_input_not_logged :
  let bad_phone := send_payment "0712345678" 5000.00 "claim-1"
                     (development_service, []) in
  let bad_amount := send_payment "+254712345678" 0 "claim-1"
                      (development_service, []) in
  (exists t, bad_phone.1 = Ok t /\ success t = false)
  /\ bad_phone.2.2 = []
  /\ length bad_phone.2.2 <> 1%nat
  /\ (exists t, bad_amount.1 = Ok t /\ success t = false)
  /\ bad_amount.2.2 = []
  /\ length bad_amount.2.2 <> 1%nat.
Proof.
  cbn zeta.
  split; [eexists; split; reflexivity|]. split; [reflexivity|].
  split; [discriminate|].
  split; [eexists; split; reflexivity|]. split; [reflexivity|].
  discriminate.
Qed.

(** A valid request is logged once, as a simulated success in development
    and as a failure in production. *)
Example send_payment_logged_once :
  map PaymentTransactionModel.status
    (send_payment "+254712345678" 5000.00 "claim-1" (development_service, [])).2.2
  = ["completed"]
  /\ map PaymentTransactionModel.status
       (send_payment "+254712345678" 5000.00 "claim-1" (production_service, [])).2.2
     = ["failed"].
Proof. split; reflexivity. Qed.

(** ** Runs on concrete worlds *)

(** In production the money service fails every attempt and stays in
    production. *)
Definition in_production (p : MobileMoneyService.t) : Prop :=
  is_production p = true /\ String.eqb (api_url p) "" = false.

Lemma production_always_fails : always_fails in_production.
Proof.
  intros phone amt ref p table [Hprod Hurl]. cbn [money_send_payment mobile_money_service].
  unfold send_payment.
  destruct (_ || _); [cbn; now split|].
  destruct (Qleb amt 0); [cbn; now split|].
  cbn [draw_uuid4_hex fst snd is_production api_url].
  rewrite Hprod, Hurl. cbn. now split.
Qed.

Definition exhausted_world : world MobileMoneyService.t (list (result bool)) :=
  sample_world production_service [] "auto_approved" (Some "pending").

(** C6 as stated fails: when all three attempts fail, the stage has slept
    2 s and 4 s and returns after the third attempt; no delay of 8 s
    occurs. *)
Lemma payout_cycle_never_sleeps_8s :
  let run := process_payout "claim-1" exhausted_world in
  run.1 = Ok false
  /\ length (attempts run.2) = 3%nat
  /\ slept run.2 = [2; 4]%Z
  /\ slept run.2 <> [2; 4; 8]%Z
  /\ ~ In 8%Z (slept run.2).
Proof.
  cbn zeta. split; [reflexivity|]. split; [reflexivity|]. split; [reflexivity|].
  split; [discriminate|]. vm_compute. intros [E|[E|[]]]; discriminate E.
Qed.

Lemma payout_exhaustion_and_notification_witness :
  let run := process_payout "claim-1" exhausted_world in
  payable "claim-1" exhausted_world
    (sample_claim "auto_approved" (Some "pending")) sample_farm
  /\ run.1 = Ok false
  /\ (exists c, claims (db run.2) !! "claim-1" = Some c
                /\ Claim.payout_status c = Some "failed_manual_review_required"
                /\ Claim.status c = "auto_approved")
  /\ notifications run.2 = []
  /\ length (attempts run.2) = 3%nat.
Proof.
  cbn zeta.
  assert (Hp : payable "claim-1" exhausted_world
                 (sample_claim "auto_approved" (Some "pending")) sample_farm)
    by (repeat split; reflexivity).
  split; [exact Hp|].
  destruct (payout_exhaustion_and_notification "claim-1" exhausted_world
              (sample_claim "auto_approved" (Some "pending")) sample_farm Hp)
    as (Hexhaust & _ & _).
  destruct (Hexhaust in_production (conj eq_refl eq_refl) production_always_fails)
    as (Hr & Hc & Hn & Ha).
  split; [exact Hr|]. split; [exact Hc|]. split; [exact Hn|].
  rewrite Ha. reflexivity.
Defined.


(** The cases of the service's own tests. *)
Definition succeeded_transaction : PaymentTransaction :=
  mk_PaymentTransaction true "MM123456789ABC" "Payment successful" 5000.00
    "+254712345678" 0.

Example payout_two_failures_then_success :
  let run := process_payout "claim-1"
               (sample_world [Ok failed_transaction; Ok failed_transaction;
                              Ok succeeded_transaction] []
                  "auto_approved" (Some "pending")) in
  run.1 = Ok true
  /\ length (attempts run.2) = 3%nat
  /\ length (notifications run.2) = 1%nat
  /\ slept run.2 = [2; 4]%Z
  /\ Claim.status <$> claims (db run.2) !! "claim-1" = Some "paid".
Proof. cbn zeta. repeat split; reflexivity. Qed.

Example payout_sms_failure_does_not_fail_payment :
  let run := process_payout "claim-1"
               (sample_world [Ok succeeded_transaction]
                  [Raise (PyException "SMS service unavailable")]
                  "auto_approved" (Some "pending")) in
  run.1 = Ok true
  /\ Claim.status <$> claims (db run.2) !! "claim-1" = Some "paid"
  /\ Claim.payout_reference <$> claims (db run.2) !! "claim-1"
     = Some (Some "MM123456789ABC").
Proof. cbn zeta. repeat split; reflexivity. Qed.

Example payout_claim_not_approved :
  process_payout "claim-1"
    (sample_world development_service ([] : list (result bool)) "pending" None)
  = (Ok false,
     sample_world development_service ([] : list (result bool)) "pending" None).
Proof. reflexivity. Qed.

Example retry_wrong_status :
  retry_failed_payment "claim-1"
    (sample_world development_service ([] : list (result bool)) "paid"
       (Some "completed"))
  = (Ok false,
     sample_world development_service ([] : list (result bool)) "paid"
       (Some "completed")).
Proof. reflexivity. Qed.

End PaymentFacts.

(* ===================================================================== *)
(** * Further properties of the verification engine *)
(* ===================================================================== *)

Module RuleFacts.

Import Schemas SatelliteService WeightedVerificationService.
Import WeightedVerificationFacts.
Local Open Scope Q_scope.

(** The labels that a decision can carry. *)
Definition rule_labels : list string :=
  ["rule_1_drought_low_moisture"; "rule_2_drought_normal_moisture";
   "rule_3_disease_normal_moisture"; "rule_4_healthy_low_moisture";
   "rule_5_invalid_subject"; "seasonality_dry_harvest_rejection";
   "weighted_score"]%string.

(** The status that the thresholds of the weighted score give to a score. *)
Definition status_of_score (s : Q) : ClaimStatus :=
  if Qgtb s AUTO_APPROVE_THRESHOLD then AUTO_APPROVED
  else if Qgeb s FLAG_THRESHOLD then FLAGGED_FOR_REVIEW
  else REJECTED.

(** A decision as one rule writes it. *)
Definition decided (r : WeightedVerificationResult) (gt : GroundTruth)
    (st : ClaimStatus) (sc stc : Q) (rule : string) : Prop :=
  status r = st /\ score r = sc /\ space_truth_confidence r = stc
  /\ ground_truth_confidence r = ml_confidence gt
  /\ rule_applied r = Some rule.

(** The outcomes that the contextual rules and the seasonality rule
    write: status, score, satellite confidence, label. *)
Definition rule_table : list (ClaimStatus * Q * Q * string) :=
  [(AUTO_APPROVED, 0.95, 0.9, "rule_1_drought_low_moisture");
   (FLAGGED_FOR_REVIEW, 0.65, 0.3, "rule_2_drought_normal_moisture");
   (AUTO_APPROVED, 0.85, 0.5, "rule_3_disease_normal_moisture");
   (REJECTED, 0.2, 0.9, "rule_4_healthy_low_moisture");
   (REJECTED, 0.0, 0.0, "rule_5_invalid_subject");
   (REJECTED, 0.45, 0.3, "seasonality_dry_harvest_rejection")]%string.

(** The score of the weighted path. *)
Definition weighted_score_of (gt : GroundTruth) (st : SpaceTruth) : Q :=
  ml_confidence gt * GROUND_TRUTH_WEIGHT
  + _satellite_confidence st * SPACE_TRUTH_WEIGHT.

(** The explanation of [r] is the detailed explanation of its own status,
    score and label. *)
Definition explained (r : WeightedVerificationResult) (gt : GroundTruth)
    (st : SpaceTruth) : Prop :=
  exists rule base,
    rule_applied r = Some rule
    /\ explanation r
       = _build_detailed_explanation (status r) (score r) gt st rule base.

(** The decision of the weighted path. *)
Definition weighted_decision (r : WeightedVerificationResult)
    (gt : GroundTruth) (st : SpaceTruth) : Prop :=
  decided r gt (status_of_score (weighted_score_of gt st))
    (weighted_score_of gt st) (_satellite_confidence st) "weighted_score".

(** A decision written by a rule of the table, or by the weighted path. *)
Definition well_formed_decision (r : WeightedVerificationResult)
    (gt : GroundTruth) (st : SpaceTruth) : Prop :=
  explained r gt st
  /\ ((exists stt sc stc rule,
          In (stt, sc, stc, rule) rule_table /\ decided r gt stt sc stc rule)
      \/ weighted_decision r gt st).

Definition is_disease (c : CropCondition) : Prop :=
  c = DISEASE_BLIGHT \/ c = DISEASE_RUST.

Lemma decision_weaken {A : Type} (P Q : A -> Prop) (m : result A) :
  (exists r, m = Ok r /\ P r) -> (forall r, P r -> Q r) ->
  exists r, m = Ok r /\ Q r.
Proof. intros (r & Hr & Hp) Hpq. exists r. auto. Qed.

Lemma status_of_score_iff (s : Q) :
  (status_of_score s = AUTO_APPROVED <-> 0.8 < s)
  /\ (status_of_score s = FLAGGED_FOR_REVIEW <-> 0.5 <= s /\ s <= 0.8)
  /\ (status_of_score s = REJECTED <-> s < 0.5).
Proof.
  unfold status_of_score, AUTO_APPROVE_THRESHOLD, FLAG_THRESHOLD.
  destruct (PyFacts.Qgtb_spec s 0.8); [|destruct (PyFacts.Qgeb_spec s 0.5)];
    repeat split; intros; try discriminate; try reflexivity; lra.
Qed.

Lemma rule_table_row stt sc stc rule :
  In (stt, sc, stc, rule) rule_table ->
  stt = status_of_score sc /\ 0 <= sc <= 1 /\ 0 <= stc <= 0.9
  /\ In rule rule_labels.
Proof.
  cbn. intros Hin.
  repeat (destruct Hin as [[= <- <- <- <-]|Hin];
          [split; [reflexivity|]; split; [lra|]; split; [lra|]; cbn; tauto|]).
  contradiction.
Qed.

Lemma satellite_confidence_range (st : SpaceTruth) :
  0.3 <= _satellite_confidence st <= 0.9.
Proof. unfold _satellite_confidence. destruct (verdict st); lra. Qed.

Lemma weighted_score_range (gt : GroundTruth) (st : SpaceTruth) :
  0 <= ml_confidence gt <= 1 ->
  0.12 <= weighted_score_of gt st <= 0.96.
Proof.
  intros Hc. pose proof (satellite_confidence_range st).
  unfold weighted_score_of, GROUND_TRUTH_WEIGHT, SPACE_TRUTH_WEIGHT. lra.
Qed.

Lemma rule_result_decided gt st (sc : Q) (stt : ClaimStatus) (s : Q)
    (rule base : string) (k : option WeightedVerificationResult
                              -> result WeightedVerificationResult) :
  0 <= sc <= 1 -> 0 <= ml_confidence gt <= 1 -> 0 <= s <= 1 ->
  (forall r, k (Some r) = Ok r) ->
  exists r,
    bind_result (rule_result gt st sc stt (ml_confidence gt) s rule base) k = Ok r
    /\ decided r gt stt sc s rule.
Proof.
  intros Hsc Hg Hs Hk. rewrite (rule_result_ok gt st) by assumption.
  cbn [bind_result]. rewrite Hk. eexists. split; [reflexivity|].
  repeat split; reflexivity.
Qed.

Lemma rule_result_well_formed gt st (sc : Q) (stt : ClaimStatus) (s : Q)
    (rule base : string) (k : option WeightedVerificationResult
                              -> result WeightedVerificationResult) :
  In (stt, sc, s, rule) rule_table ->
  0 <= ml_confidence gt <= 1 ->
  (forall r, k (Some r) = Ok r) ->
  exists r,
    bind_result (rule_result gt st sc stt (ml_confidence gt) s rule base) k = Ok r
    /\ well_formed_decision r gt st.
Proof.
  intros Hin Hg Hk.
  destruct (rule_table_row _ _ _ _ Hin) as (_ & Hsc & Hs & _).
  rewrite (rule_result_ok gt st) by (try assumption; lra).
  cbn [bind_result]. rewrite Hk. eexists. split; [reflexivity|]. split.
  - exists rule, base. split; reflexivity.
  - left. exists stt, sc, s, rule. split; [exact Hin|].
    repeat split; reflexivity.
Qed.

(** The weighted path, when it is reached. *)
Lemma weighted_result_decided gt st :
  0 <= ml_confidence gt <= 1 ->
  exists r,
    (let gt_confidence := ml_confidence gt in
     let st_confidence := _satellite_confidence st in
     let score := (gt_confidence * GROUND_TRUTH_WEIGHT
                   + st_confidence * SPACE_TRUTH_WEIGHT)%Q in
     let '(status, base_explanation) :=
       if Qgtb score AUTO_APPROVE_THRESHOLD then
         (AUTO_APPROVED,
          "High confidence from both Ground Truth and Space Truth. "
          ++ "The claim meets the auto-approval threshold.")%string
       else if Qgeb score FLAG_THRESHOLD then
         (FLAGGED_FOR_REVIEW,
          "Moderate confidence detected. The weighted score falls in the review range, "
          ++ "indicating uncertainty that requires human judgment.")%string
       else
         (REJECTED,
          "Low confidence score. The combined assessment from visual and satellite data "
          ++ "does not meet the minimum threshold for claim approval.")%string in
     let detailed_explanation :=
       _build_detailed_explanation status score gt st
         "weighted_score" base_explanation in
     WeightedVerificationResult_new score status detailed_explanation
       gt_confidence st_confidence "weighted_score") = Ok r
    /\ explained r gt st /\ weighted_decision r gt st.
Proof.
  intros Hc. cbn zeta.
  pose proof (weighted_score_range gt st Hc) as Hsc.
  pose proof (satellite_confidence_range st) as Hst.
  fold (weighted_score_of gt st).
  unfold weighted_decision, status_of_score.
  destruct (Qgtb (weighted_score_of gt st) AUTO_APPROVE_THRESHOLD);
    [|destruct (Qgeb (weighted_score_of gt st) FLAG_THRESHOLD)];
    (rewrite new_result_ok by (try assumption; lra));
    (eexists; split; [reflexivity|]);
    (split; [do 2 eexists; split; reflexivity
            | repeat split; reflexivity]).
Qed.

(** When no rule matches, [verify] returns the weighted decision. *)
Lemma verify_weighted gt st (claim_date : option datetime) :
  GroundTruth_valid gt = true ->
  no_rule_matches gt st claim_date ->
  exists r, verify gt st claim_date = Ok r /\ weighted_decision r gt st.
Proof.
  intros Hvalid [Hctx Hseason]. apply valid_confidence in Hvalid.
  unfold verify. rewrite Hctx. cbn [bind_result].
  assert (Hs : match claim_date with
               | Some d => _apply_seasonality_validation gt st d
               | None => Ok None
               end = Ok None).
  { destruct claim_date as [d|]; [now apply Hseason | reflexivity]. }
  rewrite Hs. cbn [bind_result].
  destruct (weighted_result_decided gt st Hvalid) as (r & Hr & _ & Hw).
  now exists r.
Qed.

(** Every stage of [verify] writes a well-formed decision, and [verify]
    returns one for every valid observation. *)
Lemma verify_well_formed gt st (claim_date : option datetime) :
  GroundTruth_valid gt = true ->
  exists r, verify gt st claim_date = Ok r /\ well_formed_decision r gt st.
Proof.
  intros Hvalid. apply valid_confidence in Hvalid.
  unfold verify, _apply_contextual_rules.
  repeat match goal with
         | |- context [if ?b then rule_result _ _ _ _ _ _ _ _ else _] =>
             destruct b;
             [apply rule_result_well_formed;
              [cbn; tauto | assumption | intros r0; reflexivity]|]
         end.
  cbn [bind_result].
  assert (Hweighted := weighted_result_decided gt st Hvalid).
  cbn zeta in Hweighted |- *.
  destruct claim_date as [d|]; cbn [bind_result];
    [unfold _apply_seasonality_validation;
     destruct (_ && _); cbn [bind_result];
     [destruct (Qgeb (ndmi_value st) _);
      [apply rule_result_well_formed;
       [cbn; tauto | assumption | intros r0; reflexivity]|]|]|];
    cbn [bind_result];
    destruct Hweighted as (r & Hr & He & Hw);
    (exists r; split; [exact Hr|]; split; [exact He | now right]).
Qed.

Lemma well_formed_status r gt st :
  0 <= ml_confidence gt <= 1 ->
  well_formed_decision r gt st ->
  status r = status_of_score (score r)
  /\ 0 <= score r <= 1
  /\ 0 <= space_truth_confidence r <= 0.9
  /\ ground_truth_confidence r = ml_confidence gt
  /\ exists rule, rule_applied r = Some rule /\ In rule rule_labels.
Proof.
  intros Hc [_ [(stt & sc & stc & rule & Hin & Hd)|Hd]];
    destruct Hd as (Hst & Hsc & Hstc & Hg & Hr);
    rewrite Hst, Hsc, Hstc, Hg, Hr.
  - destruct (rule_table_row _ _ _ _ Hin) as (H1 & H2 & H3 & H4).
    repeat split; try assumption; try lra. now exists rule.
  - pose proof (weighted_score_range gt st Hc).
    pose proof (satellite_confidence_range st).
    repeat split; try lra. eexists. split; [reflexivity|]. cbn. tauto.
Qed.

Lemma healthy_no_rule_matches gt st claim_date :
  ml_class gt = HEALTHY -> -0.1 <= ndmi_value st ->
  no_rule_matches gt st claim_date.
Proof.
  intros Hc Hn. split.
  - unfold _apply_contextual_rules. rewrite Hc.
    cbn [bool_decide decide_rel andb orb].
    destruct (PyFacts.Qltb_spec (ndmi_value st) (-0.1)); [lra|].
    reflexivity.
  - intros d _. unfold _apply_seasonality_validation. now rewrite Hc.
Qed.

(** X1. Rule 1: a drought observation with a moisture index below -0.2 is
    auto-approved with score 0.95 and satellite confidence 0.9, whatever
    verdict the evidence stores and whatever the claim date. *)
Theorem drought_low_moisture_auto_approved gt st (claim_date : option datetime) :
  GroundTruth_valid gt = true ->
  ml_class gt = DROUGHT ->
  ndmi_value st < -0.2 ->
  exists r,
    verify gt st claim_date = Ok r
    /\ decided r gt AUTO_APPROVED 0.95 0.9 "rule_1_drought_low_moisture".
Proof.
  intros Hvalid Hd Hn. apply valid_confidence in Hvalid.
  unfold verify, _apply_contextual_rules. rewrite Hd.
  rewrite bool_decide_eq_true_2 by reflexivity.
  destruct (PyFacts.Qltb_spec (ndmi_value st) (-0.2)) as [_|Hge]; [|lra].
  cbn [andb]. apply rule_result_decided; try assumption; try lra.
  intros r0; reflexivity.
Qed.

Lemma drought_low_moisture_auto_approved_witness :
  GroundTruth_valid (sample_ground_truth DROUGHT 0.92) = true
  /\ exists r,
       verify (sample_ground_truth DROUGHT 0.92)
         (sample_space_truth (-0.25) NORMAL) (Some sample_date) = Ok r
       /\ decided r (sample_ground_truth DROUGHT 0.92) AUTO_APPROVED 0.95 0.9
            "rule_1_drought_low_moisture".
Proof.
  split; [reflexivity|].
  apply (drought_low_moisture_auto_approved (sample_ground_truth DROUGHT 0.92)
           (sample_space_truth (-0.25) NORMAL) (Some sample_date));
    [reflexivity | reflexivity | vm_compute; reflexivity].
Defined.

(** X2. Rule 3: a disease observation (northern leaf blight or common
    rust) is auto-approved with score 0.85 and satellite confidence 0.5,
    whatever the satellite evidence and the claim date. *)
Theorem disease_auto_approved gt st (claim_date : option datetime) :
  GroundTruth_valid gt = true ->
  ml_class gt = DISEASE_BLIGHT \/ ml_class gt = DISEASE_RUST ->
  exists r,
    verify gt st claim_date = Ok r
    /\ decided r gt AUTO_APPROVED 0.85 0.5 "rule_3_disease_normal_moisture".
Proof.
  intros Hvalid Hc. apply valid_confidence in Hvalid.
  unfold verify, _apply_contextual_rules.
  destruct Hc as [Hc|Hc]; rewrite Hc; cbn [bool_decide decide_rel andb orb];
    (apply rule_result_decided;
     [lra | assumption | lra | intros r0; reflexivity]).
Qed.

Lemma disease_auto_approved_witness :
  GroundTruth_valid (sample_ground_truth DISEASE_BLIGHT 0.4) = true
  /\ exists r,
       verify (sample_ground_truth DISEASE_BLIGHT 0.4)
         (sample_space_truth (-0.3) SEVERE_STRESS) None = Ok r
       /\ decided r (sample_ground_truth DISEASE_BLIGHT 0.4) AUTO_APPROVED 0.85
            0.5 "rule_3_disease_normal_moisture".
Proof.
  split; [reflexivity|].
  apply (disease_auto_approved (sample_ground_truth DISEASE_BLIGHT 0.4)
           (sample_space_truth (-0.3) SEVERE_STRESS) None);
    [reflexivity | left; reflexivity].
Defined.

(** X3. Rule 4: a healthy observation with a moisture index below -0.1 is
    rejected with score 0.2 and satellite confidence 0.9, whatever verdict
    the evidence stores and whatever the claim date. *)
Theorem healthy_low_moisture_rejected gt st (claim_date : option datetime) :
  GroundTruth_valid gt = true ->
  ml_class gt = HEALTHY ->
  ndmi_value st < -0.1 ->
  exists r,
    verify gt st claim_date = Ok r
    /\ decided r gt REJECTED 0.2 0.9 "rule_4_healthy_low_moisture".
Proof.
  intros Hvalid Hc Hn. apply valid_confidence in Hvalid.
  unfold verify, _apply_contextual_rules. rewrite Hc.
  cbn [bool_decide decide_rel andb orb].
  destruct (PyFacts.Qltb_spec (ndmi_value st) (-0.1)) as [_|Hge]; [|lra].
  apply rule_result_decided; try assumption; try lra.
  intros r0; reflexivity.
Qed.

Lemma healthy_low_moisture_rejected_witness :
  GroundTruth_valid (sample_ground_truth HEALTHY 0.9) = true
  /\ exists r,
       verify (sample_ground_truth HEALTHY 0.9)
         (sample_space_truth (-0.15) MODERATE_STRESS) (Some sample_date) = Ok r
       /\ decided r (sample_ground_truth HEALTHY 0.9) REJECTED 0.2 0.9
            "rule_4_healthy_low_moisture".
Proof.
  split; [reflexivity|].
  apply (healthy_low_moisture_rejected (sample_ground_truth HEALTHY 0.9)
           (sample_space_truth (-0.15) MODERATE_STRESS) (Some sample_date));
    [reflexivity | reflexivity | vm_compute; reflexivity].
Defined.



(** X5. Rule 5: an observation classified as [other] is rejected with
    score 0.0 and satellite confidence 0.0, whatever the satellite
    evidence and the claim date. *)
Theorem other_subject_rejected gt st (claim_date : option datetime) :
  GroundTruth_valid gt = true ->
  ml_class gt = OTHER ->
  exists r,
    verify gt st claim_date = Ok r
    /\ decided r gt REJECTED 0.0 0.0 "rule_5_invalid_subject".
Proof.
  intros Hvalid Hc. apply valid_confidence in Hvalid.
  unfold verify, _apply_contextual_rules. rewrite Hc.
  cbn [bool_decide decide_rel andb orb].
  apply rule_result_decided; try assumption; try lra.
  intros r0; reflexivity.
Qed.

Lemma other_subject_rejected_witness :
  GroundTruth_valid (sample_ground_truth OTHER 0.7) = true
  /\ exists r,
       verify (sample_ground_truth OTHER 0.7)
         (sample_space_truth (-0.3) SEVERE_STRESS) None = Ok r
       /\ decided r (sample_ground_truth OTHER 0.7) REJECTED 0.0 0.0
            "rule_5_invalid_subject".
Proof.
  split; [reflexivity|].
  apply (other_subject_rejected (sample_ground_truth OTHER 0.7)
           (sample_space_truth (-0.3) SEVERE_STRESS) None);
    reflexivity.
Defined.

(** X6. [verify] never raises on a valid observation: it returns a
    decision whose score lies in [0, 1], whose satellite confidence lies
    in [0, 0.9], whose ground confidence is the confidence of the
    observation, whose status is auto-approved, flagged for review or
    rejected, and whose label is one of the seven labels of the engine. *)
Theorem verify_returns_decision gt st (claim_date : option datetime) :
  GroundTruth_valid gt = true ->
  exists r,
    verify gt st claim_date = Ok r
    /\ 0 <= score r <= 1
    /\ 0 <= space_truth_confidence r <= 0.9
    /\ ground_truth_confidence r = ml_confidence gt
    /\ (status r = AUTO_APPROVED \/ status r = FLAGGED_FOR_REVIEW
        \/ status r = REJECTED)
    /\ exists rule, rule_applied r = Some rule /\ In rule rule_labels.
Proof.
  intros Hvalid.
  destruct (verify_well_formed gt st claim_date Hvalid) as (r & Hr & Hw).
  apply valid_confidence in Hvalid.
  destruct (well_formed_status r gt st Hvalid Hw) as (Hs & Hsc & Hstc & Hg & Hl).
  exists r. repeat (split; [assumption|]). split; [|exact Hl].
  rewrite Hs. unfold status_of_score.
  destruct (Qgtb _ _); [tauto|]. destruct (Qgeb _ _); tauto.
Qed.

Lemma verify_returns_decision_witness :
  GroundTruth_valid (sample_ground_truth DROUGHT 0.92) = true
  /\ exists r,
       verify (sample_ground_truth DROUGHT 0.92)
         (sample_space_truth (-0.15) MODERATE_STRESS) (Some sample_date) = Ok r
       /\ 0 <= score r <= 1.
Proof.
  split; [reflexivity|].
  destruct (verify_returns_decision (sample_ground_truth DROUGHT 0.92)
              (sample_space_truth (-0.15) MODERATE_STRESS) (Some sample_date)
              eq_refl) as (r & Hr & Hsc & _).
  exists r. split; assumption.
Defined.

(** X7. On every path of [verify], rule or weighted score, the status
    agrees with the thresholds applied to the score of the decision:
    auto-approved exactly when the score exceeds 0.8, flagged for review
    exactly when it lies in [0.5, 0.8], rejected exactly when it is below
    0.5. *)
Theorem status_agrees_with_score gt st (claim_date : option datetime) :
  GroundTruth_valid gt = true ->
  exists r,
    verify gt st claim_date = Ok r
    /\ (status r = AUTO_APPROVED <-> 0.8 < score r)
    /\ (status r = FLAGGED_FOR_REVIEW <-> 0.5 <= score r /\ score r <= 0.8)
    /\ (status r = REJECTED <-> score r < 0.5).
Proof.
  intros Hvalid.
  destruct (verify_well_formed gt st claim_date Hvalid) as (r & Hr & Hw).
  apply valid_confidence in Hvalid.
  destruct (well_formed_status r gt st Hvalid Hw) as (Hs & _).
  exists r. split; [exact Hr|]. rewrite Hs. apply status_of_score_iff.
Qed.

Lemma status_agrees_with_score_witness :
  GroundTruth_valid (sample_ground_truth DISEASE_RUST 0.3) = true
  /\ exists r,
       verify (sample_ground_truth DISEASE_RUST 0.3)
         (sample_space_truth 0.2 NORMAL) (Some sample_date) = Ok r
       /\ (status r = AUTO_APPROVED <-> 0.8 < score r).
Proof.
  split; [reflexivity|].
  destruct (status_agrees_with_score (sample_ground_truth DISEASE_RUST 0.3)
              (sample_space_truth 0.2 NORMAL) (Some sample_date) eq_refl)
    as (r & Hr & Ha & _).
  exists r. split; assumption.
Defined.



(** X9. When the stored verdict is the one derived from the index and
    [_check_disagreement] holds, the claim is never auto-approved: a
    drought observation is flagged for review by rule 2 and a healthy one
    is rejected by rule 4. *)
Theorem disagreement_never_auto_approved gt st (claim_date : option datetime) :
  GroundTruth_valid gt = true ->
  verdict_derived st ->
  _check_disagreement gt st = true ->
  exists r,
    verify gt st claim_date = Ok r
    /\ ((ml_class gt = DROUGHT
         /\ decided r gt FLAGGED_FOR_REVIEW 0.65 0.3
              "rule_2_drought_normal_moisture")
        \/ (ml_class gt = HEALTHY
            /\ decided r gt REJECTED 0.2 0.9 "rule_4_healthy_low_moisture")).
Proof.
  intros Hvalid Hv Hdis. apply valid_confidence in Hvalid.
  unfold _check_disagreement in Hdis.
  unfold verify, _apply_contextual_rules.
  destruct (bool_decide (ml_class gt = DROUGHT)) eqn:Hd.
  - apply bool_decide_eq_true in Hd.
    destruct (bool_decide (verdict st = NORMAL)) eqn:Hn.
    + apply bool_decide_eq_true in Hn. rewrite Hv in Hn.
      apply SatelliteVerdictFacts.generate_verdict_normal in Hn.
      destruct (PyFacts.Qltb_spec (ndmi_value st) (-0.2)); [lra|].
      cbn [andb].
      apply (decision_weaken (fun r => decided r gt FLAGGED_FOR_REVIEW 0.65 0.3
                                        "rule_2_drought_normal_moisture"));
        [|intros r Hdec; left; now split].
      apply rule_result_decided; [lra | assumption | lra | intros r0; reflexivity].
    + cbn [andb] in Hdis. rewrite Hd in Hdis. discriminate Hdis.
  - cbn [andb] in Hdis |- *.
    destruct (bool_decide (ml_class gt = HEALTHY)) eqn:Hh; [|discriminate].
    apply bool_decide_eq_true in Hh.
    destruct (bool_decide (verdict st = SEVERE_STRESS)) eqn:Hs; [|discriminate].
    apply bool_decide_eq_true in Hs. rewrite Hv in Hs.
    apply SatelliteVerdictFacts.generate_verdict_severe in Hs.
    rewrite Hh. cbn [bool_decide decide_rel andb orb].
    destruct (PyFacts.Qltb_spec (ndmi_value st) (-0.1)); [|lra].
    apply (decision_weaken (fun r => decided r gt REJECTED 0.2 0.9
                                      "rule_4_healthy_low_moisture"));
      [|intros r Hdec; right; now split].
    apply rule_result_decided; [lra | assumption | lra | intros r0; reflexivity].
Qed.


Lemma disagreement_never_auto_approved_witness :
  GroundTruth_valid (sample_ground_truth DROUGHT 0.92) = true
  /\ verdict_derived (sample_space_truth 0.05 NORMAL)
  /\ _check_disagreement (sample_ground_truth DROUGHT 0.92)
       (sample_space_truth 0.05 NORMAL) = true
  /\ exists r,
       verify (sample_ground_truth DROUGHT 0.92)
         (sample_space_truth 0.05 NORMAL) None = Ok r
       /\ status r = FLAGGED_FOR_REVIEW.
Proof.
  split; [reflexivity|]. split; [reflexivity|]. split; [reflexivity|].
  destruct (disagreement_never_auto_approved (sample_ground_truth DROUGHT 0.92)
              (sample_space_truth 0.05 NORMAL) None eq_refl eq_refl eq_refl)
    as (r & Hr & [(_ & Hst & _)|(Hc & _)]).
  - exists r. split; assumption.
  - discriminate Hc.
Defined.

(** X10. When the stored verdict is normal and is the one derived from
    the index, a claim is auto-approved exactly when the observation is a
    disease (northern leaf blight or common rust): drought is flagged by
    rule 2, [other] is rejected by rule 5, and the weighted score of a
    healthy or armyworm observation is at most 0.72. *)
Theorem normal_moisture_approves_only_disease gt st
    (claim_date : option datetime) :
  GroundTruth_valid gt = true ->
  verdict_derived st ->
  verdict st = NORMAL ->
  exists r,
    verify gt st claim_date = Ok r
    /\ (status r = AUTO_APPROVED <-> is_disease (ml_class gt)).
Proof.
  intros Hvalid Hv Hn.
  assert (Hndmi : -0.1 <= ndmi_value st).
  { apply SatelliteVerdictFacts.generate_verdict_normal. now rewrite <- Hv. }
  assert (Hweighted :
    no_rule_matches gt st claim_date ->
    exists r, verify gt st claim_date = Ok r /\ status r <> AUTO_APPROVED).
  { intros Hno.
    destruct (verify_weighted gt st claim_date Hvalid Hno) as (r & Hr & Hst & _).
    exists r. split; [exact Hr|]. rewrite Hst.
    destruct (status_of_score_iff (weighted_score_of gt st)) as (Ha & _).
    rewrite Ha. apply valid_confidence in Hvalid.
    unfold weighted_score_of, _satellite_confidence, GROUND_TRUTH_WEIGHT,
      SPACE_TRUTH_WEIGHT. rewrite Hn. lra. }
  apply valid_confidence in Hvalid.
  unfold is_disease.
  destruct (ml_class gt) eqn:Hc;
    try (destruct Hweighted as (r & Hr & Hst);
         [first [now apply healthy_no_rule_matches
                | now apply armyworm_no_rule_matches]|];
         exists r; split; [exact Hr|];
         split; [tauto | intros [?|?]; discriminate]);
    unfold verify, _apply_contextual_rules; rewrite Hc, ?Hn;
    cbn [bool_decide decide_rel andb orb];
    try (destruct (PyFacts.Qltb_spec (ndmi_value st) (-0.2)); [lra|]);
    (eapply decision_weaken;
     [apply rule_result_decided;
      [lra | assumption | lra | intros r0; reflexivity]|]);
    cbn beta; intros r (Hst & _); rewrite Hst;
    (split; [try discriminate; auto | intros [?|?]; try discriminate; reflexivity]).
Qed.

Lemma normal_moisture_approves_only_disease_witness :
  GroundTruth_valid (sample_ground_truth HEALTHY 0.99) = true
  /\ verdict_derived (sample_space_truth 0.05 NORMAL)
  /\ exists r,
       verify (sample_ground_truth HEALTHY 0.99)
         (sample_space_truth 0.05 NORMAL) (Some sample_date) = Ok r
       /\ status r <> AUTO_APPROVED.
Proof.
  split; [reflexivity|]. split; [reflexivity|].
  destruct (normal_moisture_approves_only_disease
              (sample_ground_truth HEALTHY 0.99)
              (sample_space_truth 0.05 NORMAL) (Some sample_date)
              eq_refl eq_refl eq_refl) as (r & Hr & Ha).
  exists r. split; [exact Hr|].
  intros E. apply Ha in E. destruct E as [E|E]; discriminate E.
Defined.


(** X29. When the stored verdict is the one derived from the index, the
    claim date has no influence on the decision: [verify] returns the
    same result, explanation included, with any date and with none. *)
Theorem claim_date_irrelevant gt st (claim_date : option datetime) :
  verdict_derived st ->
  verify gt st claim_date = verify gt st None.
Proof.
  intros Hv. unfold verify.
  destruct (_apply_contextual_rules gt st) as [[r|]|e] eqn:Hctx;
    cbn [bind_result]; try reflexivity.
  destruct claim_date as [d|]; [|reflexivity].
  assert (Hs : _apply_seasonality_validation gt st d = Ok None).
  { unfold _apply_seasonality_validation.
    destruct (bool_decide (ml_class gt = DROUGHT)) eqn:Hd; [|reflexivity].
    apply bool_decide_eq_true in Hd.
    destruct (PyFacts.Qgeb_spec (ndmi_value st) (-0.1)) as [Hn|Hn];
      [|now destruct (_ || _)].
    destruct (contextual_none_drought gt st Hctx Hd) as [_ Hnot].
    exfalso. apply Hnot. rewrite Hv.
    now apply SatelliteVerdictFacts.generate_verdict_normal. }
  now rewrite Hs.
Qed.

Lemma claim_date_irrelevant_witness :
  verdict_derived (sample_space_truth (-0.15) MODERATE_STRESS)
  /\ verify (sample_ground_truth DROUGHT 0.92)
       (sample_space_truth (-0.15) MODERATE_STRESS) (Some sample_date)
     = verify (sample_ground_truth DROUGHT 0.92)
         (sample_space_truth (-0.15) MODERATE_STRESS) None.
Proof.
  split; [reflexivity|].
  apply (claim_date_irrelevant (sample_ground_truth DROUGHT 0.92)
           (sample_space_truth (-0.15) MODERATE_STRESS) (Some sample_date)).
  reflexivity.
Defined.

End RuleFacts.

Module EvidenceFacts.

Import SatelliteService RetryFacts CacheFacts.
Local Open Scope Z_scope.

(** The delays that [execute_with_retry] sleeps after the attempts
    [a], [a + 1], ..., [a + k - 1]. *)
Definition backoff_delays (self : GEEClient) (a k : nat) : list Z :=
  map (fun attempt => _retry_delay self * 2 ^ Z.of_nat attempt) (seq a k).

(** A call that leaves the Redis server as it is. *)
Definition keeps_redis {G A : Type} (m : io G A) : Prop :=
  forall w, redis (m w).2 = redis w.

(** A provider that answers every region mean with its state and every
    image request with the same metadata, for examples. *)
#[export] Instance constant_engine : EarthEngine (option Q) :=
  { image_getInfo := fun _ g =>
      (Ok (Some (mk_image_info 1705219961000 12.5)), g);
    number_getInfo := fun _ g => (Ok g, g) }.

(** Stand-ins for the library functions, for examples: dates that do not
    move and one text for every float. *)
#[export] Instance constant_pylib : PyLib :=
  { add_days := fun d _ => d;
    str_float := fun _ => "0.0"%string;
    fromtimestamp := fun _ => mk_datetime 2024 1 14 8 12 41 0 }.

Lemma state_after_shift {G A : Type} (f : G -> result A * G) (g : G) (k : nat) :
  state_after f (snd (f g)) k = state_after f g (S k).
Proof.
  induction k as [|k IH]; [reflexivity|].
  cbn [state_after] in IH |- *. now rewrite IH.
Qed.

Lemma outcome_at_shift {G A : Type} (f : G -> result A * G) (g : G) (k : nat) :
  outcome_at f (snd (f g)) k = outcome_at f g (S k).
Proof. unfold outcome_at. now rewrite state_after_shift. Qed.

(** One failed attempt: the loop goes on with the remaining attempts,
    after the sleep of this attempt if it is not the last one. *)
Lemma retry_loop_transient {G A : Type} (self : GEEClient)
    (f : G -> result A * G) (a : nat) (rest : list nat) (last : option exn)
    (w : world G) :
  transient (outcome_at f (gee w) 0) = true ->
  exists e,
    outcome_at f (gee w) 0 = Raise e
    /\ retry_loop self (lift_gee f) (a :: rest) last w
       = retry_loop self (lift_gee f) rest (Some e)
           (let w1 := mk_world (snd (f (gee w))) (now w) (slept w) (redis w) in
            if (a <? _max_retries self - 1)%nat
            then sleep (_retry_delay self * 2 ^ Z.of_nat a) w1 else w1).
Proof.
  unfold outcome_at. cbn [state_after retry_loop]. rewrite lift_gee_eq.
  destruct (fst (f (gee w))) as [x|e]; [discriminate|].
  cbn [transient]. intros ->. now exists e.
Qed.

(** The loop stops at the first answer that is not a provider error. *)
Lemma retry_loop_stops {G A : Type} (self : GEEClient) (f : G -> result A * G)
    (rest : list nat) :
  forall (k a : nat) (last : option exn) (w : world G),
    (forall j, (j < k)%nat -> transient (outcome_at f (gee w) j) = true) ->
    transient (outcome_at f (gee w) k) = false ->
    (a + k <= _max_retries self - 1)%nat ->
    retry_loop self (lift_gee f) (seq a (S k) ++ rest) last w
    = (outcome_at f (gee w) k,
       mk_world (state_after f (gee w) (S k))
         (now w + sum_Z (backoff_delays self a k))
         (slept w ++ backoff_delays self a k) (redis w)).
Proof.
  induction k as [|k IH]; intros a last w Hbefore Hk Hle.
  - cbn [seq app]. erewrite transient_false_final;
      [|apply lift_gee_eq | exact Hk].
    f_equal. apply world_eta; [cbn; lia | cbn; now rewrite app_nil_r].
  - change (seq a (S (S k)) ++ rest)%list
      with (a :: (seq (S a) (S k) ++ rest))%list.
    destruct (retry_loop_transient self f a (seq (S a) (S k) ++ rest) last w)
      as (e & _ & ->); [apply Hbefore; lia|].
    assert (Hlt : (a <? _max_retries self - 1)%nat = true)
      by (apply Nat.ltb_lt; lia).
    cbn zeta. rewrite Hlt.
    rewrite IH.
    + cbn [gee now slept redis sleep].
      rewrite outcome_at_shift, state_after_shift. f_equal.
      unfold backoff_delays. cbn [seq map sum_Z fold_right].
      apply world_eta; [unfold sum_Z; lia | now rewrite <- app_assoc].
    + intros j Hj. cbn [gee sleep]. rewrite outcome_at_shift.
      apply Hbefore. lia.
    + cbn [gee sleep]. now rewrite outcome_at_shift.
    + lia.
Qed.

(** When every attempt fails with a provider error, the last error is
    raised after the last attempt, with no sleep after it. *)
Lemma retry_loop_exhausted {G A : Type} (self : GEEClient)
    (f : G -> result A * G) :
  forall (k a : nat) (last : option exn) (w : world G),
    (forall j, (j <= k)%nat -> transient (outcome_at f (gee w) j) = true) ->
    (a + k = _max_retries self - 1)%nat ->
    retry_loop self (lift_gee f) (seq a (S k)) last w
    = (outcome_at f (gee w) k,
       mk_world (state_after f (gee w) (S k))
         (now w + sum_Z (backoff_delays self a k))
         (slept w ++ backoff_delays self a k) (redis w)).
Proof.
  induction k as [|k IH]; intros a last w Hall Hle.
  - cbn [seq].
    destruct (retry_loop_transient self f a [] last w)
      as (e & He & ->); [apply Hall; lia|].
    assert (Hlt : (a <? _max_retries self - 1)%nat = false)
      by (apply Nat.ltb_ge; lia).
    cbn zeta. rewrite Hlt. cbn [retry_loop]. rewrite He.
    f_equal. apply world_eta; [cbn; lia | cbn; now rewrite app_nil_r].
  - change (seq a (S (S k))) with (a :: seq (S a) (S k)).
    destruct (retry_loop_transient self f a (seq (S a) (S k)) last w)
      as (e & _ & ->); [apply Hall; lia|].
    assert (Hlt : (a <? _max_retries self - 1)%nat = true)
      by (apply Nat.ltb_lt; lia).
    cbn zeta. rewrite Hlt.
    rewrite IH.
    + cbn [gee now slept redis sleep].
      rewrite outcome_at_shift, state_after_shift. f_equal.
      unfold backoff_delays. cbn [seq map sum_Z fold_right].
      apply world_eta; [unfold sum_Z; lia | now rewrite <- app_assoc].
    + intros j Hj. cbn [gee sleep]. rewrite outcome_at_shift.
      apply Hall. lia.
    + lia.
Qed.

(** X11. [execute_with_retry] for any number of retries and any base
    delay: when the first [k] answers of the provider are its own
    exception and answer [k] is the first that is not (or is the answer
    of the last attempt allowed), the function is called [k + 1] times,
    the sleeps are delay, 2 * delay, ..., 2^(k-1) * delay, one before
    each repeated call and none after the last attempt, and answer [k] is
    passed to the caller. *)
Theorem execute_with_retry_backoff {G A : Type} (self : GEEClient)
    (f : G -> result A * G) (w : world G) (k : nat) :
  (k < _max_retries self)%nat ->
  (forall j, (j < k)%nat -> transient (outcome_at f (gee w) j) = true) ->
  ((k < _max_retries self - 1)%nat ->
   transient (outcome_at f (gee w) k) = false) ->
  execute_with_retry self (lift_gee f) w
  = (outcome_at f (gee w) k,
     mk_world (state_after f (gee w) (S k))
       (now w + sum_Z (backoff_delays self 0 k))
       (slept w ++ backoff_delays self 0 k) (redis w)).
Proof.
  intros Hk Hbefore Hstop. unfold execute_with_retry.
  destruct (transient (outcome_at f (gee w) k)) eqn:Hlast.
  - assert (Hmax : _max_retries self = S k).
    { destruct (Nat.lt_ge_cases k (_max_retries self - 1)) as [Hlt|Hge];
        [specialize (Hstop Hlt); discriminate | lia]. }
    rewrite Hmax. apply retry_loop_exhausted; [|lia].
    intros j Hj. destruct (Nat.eq_dec j k) as [->|Hne];
      [exact Hlast | apply Hbefore; lia].
  - replace (_max_retries self) with (S k + (_max_retries self - S k))%nat
      at 1 by lia.
    rewrite seq_app. apply retry_loop_stops; [assumption | assumption | lia].
Qed.

Lemma execute_with_retry_backoff_witness :
  execute_with_retry (mk_GEEClient true 5 3)
    (lift_gee (scripted (A := nat) (Raise (PyException "end of script"))))
    (quiet_world [Raise (EEException "a"); Raise (EEException "b");
                  Raise (EEException "c"); Ok 7%nat])
  = (Ok 7%nat, mk_world [] 21 [3; 6; 12] None).
Proof.
  rewrite (execute_with_retry_backoff (mk_GEEClient true 5 3)
             (scripted (A := nat) (Raise (PyException "end of script")))
             (quiet_world [Raise (EEException "a"); Raise (EEException "b");
                           Raise (EEException "c"); Ok 7%nat]) 3).
  - reflexivity.
  - cbn. lia.
  - intros j Hj. destruct j as [|[|[|j]]]; [reflexivity.. | lia].
  - intros _. reflexivity.
Defined.


(** ** What a query leaves of the cache *)

Lemma lift_gee_keeps {G A : Type} (f : G -> result A * G) :
  keeps_redis (lift_gee f).
Proof. intros w. now rewrite lift_gee_eq. Qed.

Lemma ret_io_keeps {G A : Type} (a : A) : keeps_redis (ret_io (G := G) a).
Proof. intros w. reflexivity. Qed.

Lemma raise_io_keeps {G A : Type} (e : exn) :
  keeps_redis (raise_io (G := G) (A := A) e).
Proof. intros w. reflexivity. Qed.

Lemma bind_io_keeps {G A B : Type} (m : io G A) (k : A -> io G B) :
  keeps_redis m -> (forall a, keeps_redis (k a)) -> keeps_redis (bind_io m k).
Proof.
  intros Hm Hk w. unfold bind_io. specialize (Hm w).
  destruct (m w) as [[a|e] w1]; cbn [snd] in Hm |- *; [|exact Hm].
  now rewrite Hk.
Qed.

Lemma retry_loop_keeps {G A : Type} (self : GEEClient) (func : io G A)
    (attempts : list nat) :
  keeps_redis func ->
  forall last, keeps_redis (retry_loop self func attempts last).
Proof.
  intros Hf. induction attempts as [|attempt rest IH]; intros last w;
    cbn [retry_loop].
  - now destruct last.
  - specialize (Hf w). destruct (func w) as [[x|e] w1]; cbn [snd] in Hf |- *;
      [exact Hf|].
    destruct (is_EEException e); [|exact Hf].
    rewrite IH. now destruct (_ <? _)%nat.
Qed.

Lemma execute_with_retry_keeps {G A : Type} (self : GEEClient) (func : io G A) :
  keeps_redis func -> keeps_redis (execute_with_retry self func).
Proof. intros Hf. now apply retry_loop_keeps. Qed.

Ltac keeps :=
  repeat first
    [ apply bind_io_keeps
    | apply execute_with_retry_keeps
    | apply lift_gee_keeps
    | apply ret_io_keeps
    | apply raise_io_keeps
    | match goal with
      | |- forall _, _ => intro
      | |- keeps_redis (match ?x with _ => _ end) => destruct x
      end ].

Lemma query_satellite_data_keeps {G : Type} `{EarthEngine G} `{PyLib}
    (gee_client : GEEClient) (lat lng : Q) (claim_date : datetime) :
  keeps_redis (_query_satellite_data gee_client lat lng claim_date).
Proof.
  unfold _query_satellite_data, _calculate_ndmi, _calculate_baseline_ndmi,
    get_recent_image.
  keeps.
Qed.

(** ** The parts of [verify_claim] *)

Lemma get_redis_client_cases {G : Type} (self : SatelliteService) (w : world G) :
  _get_redis_client self w
  = (redis_client self || bool_decide (is_Some (redis w)),
     mk_SatelliteService (gee_client self) true, w).
Proof.
  unfold _get_redis_client, redis_ping.
  destruct self as [gc [|]]; cbn [redis_client SatelliteService.gee_client orb];
    [reflexivity|].
  now destruct (redis w).
Qed.

Lemma get_cached_result_self {G : Type} (self : SatelliteService)
    (key : string) (w : world G) :
  (_get_cached_result self key w).1.2
  = mk_SatelliteService (gee_client self) true.
Proof.
  unfold _get_cached_result. rewrite get_redis_client_cases.
  destruct (negb _); [reflexivity|].
  now destruct (try_except _ _ w).
Qed.

Lemma cache_result_self {G : Type} (self : SatelliteService)
    (key : string) (r : SpaceTruth) (w : world G) :
  (_cache_result self key r w).1 = mk_SatelliteService (gee_client self) true.
Proof.
  unfold _cache_result. rewrite get_redis_client_cases.
  destruct (negb _); [reflexivity|].
  now destruct (try_except _ _ w).
Qed.

Lemma get_cached_result_down {G : Type} (self : SatelliteService)
    (key : string) (w : world G) :
  redis w = None -> (_get_cached_result self key w).1.1 = None.
Proof.
  intros Hdown. unfold _get_cached_result. rewrite get_redis_client_cases.
  rewrite Hdown. destruct (redis_client self); [|reflexivity].
  cbn [orb negb]. unfold try_except, bind_io, redis_get. now rewrite Hdown.
Qed.

Lemma cache_result_down {G : Type} (self : SatelliteService)
    (key : string) (r : SpaceTruth) (w : world G) :
  redis w = None -> (_cache_result self key r w).2 = w.
Proof.
  intros Hdown. unfold _cache_result. rewrite get_redis_client_cases.
  rewrite Hdown. destruct (redis_client self); [|reflexivity].
  cbn [orb negb].
  rewrite model_dump_observation_date, json_dumps_model_dump.
  unfold try_except, redis_setex. now rewrite Hdown.
Qed.

(** [verify_claim] after a cache miss. *)
Lemma verify_claim_miss {G : Type} `{EarthEngine G} `{PyLib}
    (self : SatelliteService) (lat lng : Q) (claim_date : datetime)
    (w : world G) :
  let key := _generate_cache_key lat lng claim_date in
  let self1 := mk_SatelliteService (gee_client self) true in
  (_get_cached_result self key w).1.1 = None ->
  verify_claim self lat lng claim_date w
  = match _query_satellite_data (gee_client self) lat lng claim_date w with
    | (Ok r, w1) => (Ok r, self1, (_cache_result self1 key r w1).2)
    | (Raise e, w1) => (Raise e, self1, w1)
    end.
Proof.
  cbn zeta. unfold verify_claim.
  pose proof (get_cached_result_world self
                (_generate_cache_key lat lng claim_date) w) as Hw.
  pose proof (get_cached_result_self self
                (_generate_cache_key lat lng claim_date) w) as Hs.
  destruct (_get_cached_result self _ w) as [[cached self1] w0].
  cbn [fst snd] in Hw, Hs |- *. subst w0 self1. intros ->.
  cbn [SatelliteService.gee_client].
  destruct (_query_satellite_data _ lat lng claim_date w) as [[r|e] w1];
    [|reflexivity].
  pose proof (cache_result_self (mk_SatelliteService (gee_client self) true)
                (_generate_cache_key lat lng claim_date) r w1) as Hc.
  destruct (_cache_result _ _ r w1) as [self2 w2].
  cbn [fst snd SatelliteService.gee_client] in Hc |- *. now subst self2.
Qed.

(** X12. [_get_redis_client] keeps the client it has built even when the
    ping fails: the call leaves the world as it is, reports no client
    exactly when the service had none and the server is unreachable, and
    sets the attribute in every case, so that every later call returns
    the client without pinging, reachable server or not. *)
Theorem redis_client_kept_after_first_call {G : Type}
    (self : SatelliteService) (w w' : world G) :
  let first := _get_redis_client self w in
  redis_client first.1.2 = true
  /\ gee_client first.1.2 = gee_client self
  /\ first.2 = w
  /\ (first.1.1 = false <-> redis_client self = false /\ redis w = None)
  /\ _get_redis_client first.1.2 w' = (true, first.1.2, w').
Proof.
  cbn zeta. rewrite get_redis_client_cases. cbn [fst snd].
  repeat split; try reflexivity.
  - now destruct (redis_client self).
  - destruct (redis_client self); [discriminate|].
    destruct (redis w); [discriminate | reflexivity].
  - now intros [-> ->].
Qed.

(** X13. Every record that [_query_satellite_data] returns carries the
    verdict derived from its own moisture index, and the query leaves
    the Redis server as it was. *)
Theorem fresh_evidence_verdict_derived {G : Type} `{EarthEngine G} `{PyLib}
    (gee_client : GEEClient) (lat lng : Q) (claim_date : datetime)
    (w w' : world G) (r : SpaceTruth) :
  _query_satellite_data gee_client lat lng claim_date w = (Ok r, w') ->
  verdict r = _generate_verdict (ndmi_value r) /\ redis w' = redis w.
Proof.
  intros Hq. split.
  - exact (query_satellite_data_verdict gee_client lat lng claim_date w w' r Hq).
  - pose proof (query_satellite_data_keeps gee_client lat lng claim_date w) as Hk.
    now rewrite Hq in Hk.
Qed.

Definition fresh_world : world (option Q) :=
  mk_world (Some (-0.25)%Q) 1705314600 [] (Some ∅).

Definition fresh_record : SpaceTruth :=
  mk_SpaceTruth (-0.25) (-0.25) (mk_datetime 2024 1 14 8 12 41 0) 12.5
    SEVERE_STRESS.

Lemma fresh_evidence_verdict_derived_witness :
  _query_satellite_data GEEClient_init (-1.2921) 36.8219 sample_claim_date
    fresh_world = (Ok fresh_record, fresh_world)
  /\ verdict fresh_record = _generate_verdict (ndmi_value fresh_record)
  /\ redis fresh_world = redis fresh_world.
Proof.
  split; [reflexivity|].
  apply (fresh_evidence_verdict_derived GEEClient_init (-1.2921) 36.8219
           sample_claim_date fresh_world fresh_world fresh_record).
  reflexivity.
Defined.


(** X14. When the provider has no valid pixel for the index of the recent
    image (the region mean is [None]), [_calculate_ndmi] raises at the
    first call: the exception is not the provider's own, so it is not
    retried and nothing is slept. *)
Theorem calculate_ndmi_no_pixels_raises {G : Type} `{EarthEngine G}
    (gee_client : GEEClient) (image : ee_image) (lat lng : Q)
    (w : world G) (g1 : G) :
  (0 < _max_retries gee_client)%nat ->
  number_getInfo
    (mk_ee_region_mean (Ndmi image) lng lat SAMPLE_BUFFER SPATIAL_SCALE)
    (gee w) = (Ok None, g1) ->
  _calculate_ndmi gee_client image lat lng w
  = (Raise (PyException "Failed to calculate NDMI - no valid pixels in region"),
     mk_world g1 (now w) (slept w) (redis w)).
Proof.
  intros Hmax Hinfo. unfold _calculate_ndmi, execute_with_retry.
  destruct (_max_retries gee_client) as [|n]; [lia|]. cbn [seq].
  apply transient_false_final; [|reflexivity].
  unfold bind_io, lift_gee. now rewrite Hinfo.
Qed.

Lemma calculate_ndmi_no_pixels_raises_witness :
  _calculate_ndmi GEEClient_init
    (LeastCloudyFirst
       (mk_ee_collection SENTINEL2_COLLECTION 36.8219 (-1.2921)
          sample_claim_date sample_claim_date MAX_CLOUD_COVER))
    (-1.2921) 36.8219 (mk_world (@None Q) 0 [] None)
  = (Raise (PyException "Failed to calculate NDMI - no valid pixels in region"),
     mk_world None 0 [] None).
Proof.
  apply (calculate_ndmi_no_pixels_raises GEEClient_init _ (-1.2921) 36.8219
           (mk_world (@None Q) 0 [] None) None).
  - cbn. lia.
  - reflexivity.
Defined.

(** X15. When the provider has no image for the baseline period (the
    region mean is [None]), [_calculate_baseline_ndmi] does not fail: it
    returns 0.0 after one call. *)
Theorem baseline_ndmi_missing_is_zero {G : Type} `{EarthEngine G}
    (gee_client : GEEClient) (lat lng : Q) (start_date end_date : datetime)
    (w : world G) (g1 : G) :
  (0 < _max_retries gee_client)%nat ->
  number_getInfo
    (mk_ee_region_mean
       (MeanNdmi (mk_ee_collection SENTINEL2_COLLECTION lng lat start_date
                    end_date MAX_CLOUD_COVER))
       lng lat SAMPLE_BUFFER SPATIAL_SCALE)
    (gee w) = (Ok None, g1) ->
  _calculate_baseline_ndmi gee_client lat lng start_date end_date w
  = (Ok 0.0%Q, mk_world g1 (now w) (slept w) (redis w)).
Proof.
  intros Hmax Hinfo. unfold _calculate_baseline_ndmi, execute_with_retry.
  destruct (_max_retries gee_client) as [|n]; [lia|]. cbn [seq].
  apply transient_false_final; [|reflexivity].
  unfold bind_io, lift_gee. now rewrite Hinfo.
Qed.

Lemma baseline_ndmi_missing_is_zero_witness :
  _calculate_baseline_ndmi GEEClient_init (-1.2921) 36.8219
    sample_claim_date sample_claim_date (mk_world (@None Q) 0 [] None)
  = (Ok 0.0%Q, mk_world None 0 [] None).
Proof.
  apply (baseline_ndmi_missing_is_zero GEEClient_init (-1.2921) 36.8219
           sample_claim_date sample_claim_date
           (mk_world (@None Q) 0 [] None) None).
  - cbn. lia.
  - reflexivity.
Defined.

(** X16. With the Redis server unreachable, [verify_claim] is the query
    alone: it returns what [_query_satellite_data] returns or raises, and
    leaves the world as the query leaves it. *)
Theorem verify_claim_without_redis {G : Type} `{EarthEngine G} `{PyLib}
    (self : SatelliteService) (lat lng : Q) (claim_date : datetime)
    (w : world G) :
  redis w = None ->
  (verify_claim self lat lng claim_date w).1.1
  = (_query_satellite_data (gee_client self) lat lng claim_date w).1
  /\ (verify_claim self lat lng claim_date w).2
     = (_query_satellite_data (gee_client self) lat lng claim_date w).2.
Proof.
  intros Hdown.
  rewrite verify_claim_miss by now apply get_cached_result_down.
  pose proof (query_satellite_data_keeps (gee_client self) lat lng claim_date w)
    as Hk.
  destruct (_query_satellite_data _ lat lng claim_date w) as [[r|e] w1];
    cbn [fst snd] in Hk |- *; [|now split].
  split; [reflexivity|]. apply cache_result_down. now rewrite Hk.
Qed.

Lemma verify_claim_without_redis_witness :
  (verify_claim sample_service (-1.2921) 36.8219 sample_claim_date
     (mk_world (Some (-0.25)%Q) 0 [] None)).1.1 = Ok fresh_record
  /\ (verify_claim sample_service (-1.2921) 36.8219 sample_claim_date
        (mk_world (Some (-0.25)%Q) 0 [] None)).2
     = mk_world (Some (-0.25)%Q) 0 [] None.
Proof.
  destruct (verify_claim_without_redis sample_service (-1.2921) 36.8219
              sample_claim_date (mk_world (Some (-0.25)%Q) 0 [] None) eq_refl)
    as [Hr Hw].
  split; [rewrite Hr | rewrite Hw]; reflexivity.
Defined.

(** X17. Miss, then hit: when the cache has no entry and the query
    succeeds with Redis reachable, [verify_claim] returns the record of
    the query, and a second call for the same place and date within the
    next 24 hours returns the same record from the cache, leaving the
    whole world, the provider included, as it was. *)
Theorem verify_claim_second_call_cached {G : Type} `{EarthEngine G} `{PyLib}
    (self : SatelliteService) (lat lng : Q) (claim_date : datetime)
    (w w1 : world G) (r : SpaceTruth) (dt : Z) :
  is_Some (redis w) ->
  (_get_cached_result self (_generate_cache_key lat lng claim_date) w).1.1
  = None ->
  _query_satellite_data (gee_client self) lat lng claim_date w = (Ok r, w1) ->
  datetime_valid (observation_date r) = true ->
  0 <= dt < CACHE_TTL ->
  let first := verify_claim self lat lng claim_date w in
  let second := verify_claim first.1.2 lat lng claim_date (elapse dt first.2) in
  first.1.1 = Ok r
  /\ second.1.1 = Ok r
  /\ second.2 = elapse dt first.2.
Proof.
  intros Hup Hmiss Hq Hvalid Hdt. cbn zeta.
  rewrite (verify_claim_miss self lat lng claim_date w Hmiss), Hq.
  cbn [fst snd]. split; [reflexivity|].
  apply verify_claim_cache_hit.
  pose proof (query_satellite_data_keeps (gee_client self) lat lng claim_date w)
    as Hk.
  rewrite Hq in Hk. cbn [snd] in Hk.
  pose proof (cache_round_trip (mk_SatelliteService (gee_client self) true)
                (_generate_cache_key lat lng claim_date) r w1 dt) as Hrt.
  rewrite cache_result_self in Hrt. cbn [SatelliteService.gee_client] in Hrt.
  apply Hrt; [now rewrite Hk | exact Hvalid | exact Hdt].
Qed.

Lemma verify_claim_second_call_cached_witness :
  (verify_claim sample_service (-1.2921) 36.8219 sample_claim_date
     fresh_world).1.1 = Ok fresh_record
  /\ (verify_claim sample_service (-1.2921) 36.8219 sample_claim_date
        (elapse 3600
           (verify_claim sample_service (-1.2921) 36.8219 sample_claim_date
              fresh_world).2)).1.1 = Ok fresh_record.
Proof.
  assert (Hup : is_Some (redis fresh_world)) by (eexists; reflexivity).
  assert (Hdt : 0 <= 3600 < CACHE_TTL) by (unfold CACHE_TTL; lia).
  assert (Hmiss :
    (_get_cached_result sample_service
       (_generate_cache_key (-1.2921) 36.8219 sample_claim_date)
       fresh_world).1.1 = None) by reflexivity.
  assert (Hq :
    _query_satellite_data (gee_client sample_service) (-1.2921) 36.8219
      sample_claim_date fresh_world = (Ok fresh_record, fresh_world))
    by reflexivity.
  destruct (verify_claim_second_call_cached sample_service (-1.2921) 36.8219
              sample_claim_date fresh_world fresh_world fresh_record 3600
              Hup Hmiss Hq eq_refl Hdt) as (Hfirst & Hsecond & _).
  split; [exact Hfirst | exact Hsecond].
Defined.

(** X18. A failed query caches nothing: after a cache miss, when
    [_query_satellite_data] raises, [verify_claim] raises the same
    exception and the Redis server holds what it held before. *)
Theorem verify_claim_failure_caches_nothing {G : Type} `{EarthEngine G} `{PyLib}
    (self : SatelliteService) (lat lng : Q) (claim_date : datetime)
    (w w1 : world G) (e : exn) :
  (_get_cached_result self (_generate_cache_key lat lng claim_date) w).1.1
  = None ->
  _query_satellite_data (gee_client self) lat lng claim_date w = (Raise e, w1) ->
  (verify_claim self lat lng claim_date w).1.1 = Raise e
  /\ (verify_claim self lat lng claim_date w).2 = w1
  /\ redis w1 = redis w.
Proof.
  intros Hmiss Hq.
  rewrite (verify_claim_miss self lat lng claim_date w Hmiss), Hq.
  cbn [fst snd]. split; [reflexivity|]. split; [reflexivity|].
  pose proof (query_satellite_data_keeps (gee_client self) lat lng claim_date w)
    as Hk.
  now rewrite Hq in Hk.
Qed.

Lemma verify_claim_failure_caches_nothing_witness :
  (verify_claim sample_service (-1.2921) 36.8219 sample_claim_date
     (mk_world (@None Q) 0 [] (Some ∅))).1.1
  = Raise (PyException "Failed to calculate NDMI - no valid pixels in region")
  /\ redis (verify_claim sample_service (-1.2921) 36.8219 sample_claim_date
              (mk_world (@None Q) 0 [] (Some ∅))).2 = Some ∅.
Proof.
  assert (Hmiss :
    (_get_cached_result sample_service
       (_generate_cache_key (-1.2921) 36.8219 sample_claim_date)
       (mk_world (@None Q) 0 [] (Some ∅))).1.1 = None) by reflexivity.
  assert (Hq :
    _query_satellite_data (gee_client sample_service) (-1.2921) 36.8219
      sample_claim_date (mk_world (@None Q) 0 [] (Some ∅))
    = (Raise (PyException "Failed to calculate NDMI - no valid pixels in region"),
       mk_world (@None Q) 0 [] (Some ∅))) by reflexivity.
  destruct (verify_claim_failure_caches_nothing sample_service (-1.2921)
              36.8219 sample_claim_date (mk_world (@None Q) 0 [] (Some ∅))
              (mk_world (@None Q) 0 [] (Some ∅))
              (PyException "Failed to calculate NDMI - no valid pixels in region")
              Hmiss Hq) as (Hr & Hw & _).
  split; [exact Hr | now rewrite Hw].
Defined.



End EvidenceFacts.

(* ===================================================================== *)
(** * Further properties of the payout stage *)
(* ===================================================================== *)

Module PayoutFacts.

Import MobileMoneyService PaymentService PaymentFacts.
Local Open Scope string_scope.

(** What a run of the stage sends to the money service at each attempt. *)
Definition sent_for (claim_id : string) (claim : Claim.t) (farm : Farm.t)
  : string * Q * string :=
  (Farm.phone_number farm, payout_amount_of claim, claim_id).

(** The rows of [rows] are log entries of the claim. *)
Definition rows_of_claim (claim_id : string)
    (rows : list PaymentTransactionModel.t) : Prop :=
  Forall (fun r => PaymentTransactionModel.claim_id r = claim_id) rows.

Lemma session_eta (d : Session) :
  mk_Session (claims d) (farms d) (payment_transactions d) = d.
Proof. now destruct d. Qed.

Section AnyServices.

Context {P SMS : Type} `{MoneyService P} `{SmsService SMS}.

(** X20. The guards of [process_payout]: a missing claim raises
    [ValueError], a claim whose status is not [auto_approved] makes it
    return [False], an approved claim whose farm is missing raises
    [ValueError]; in all three cases the world is left as it was: no
    attempt, no sleep, no notification, no change to the claim. *)
Theorem process_payout_guards (claim_id : string) (w : world P SMS) :
  (claims (db w) !! claim_id = None ->
   process_payout claim_id w
   = (Raise (ValueError ("Claim " ++ claim_id ++ " not found")), w))
  /\ (forall claim,
        claims (db w) !! claim_id = Some claim ->
        Claim.status claim <> "auto_approved" ->
        process_payout claim_id w = (Ok false, w))
  /\ (forall claim,
        claims (db w) !! claim_id = Some claim ->
        Claim.status claim = "auto_approved" ->
        Claim.farm_id claim ≫= (fun fid => farms (db w) !! fid) = None ->
        process_payout claim_id w
        = (Raise (ValueError ("Farm not found for claim " ++ claim_id)), w)).
Proof.
  unfold process_payout. split; [|split].
  - now intros ->.
  - intros claim -> Hs.
    destruct (String.eqb_spec (Claim.status claim) "auto_approved");
      [contradiction | reflexivity].
  - intros claim -> -> Hf. cbn [String.eqb negb]. now rewrite Hf.
Qed.

(** X21. No claim is paid twice: when [process_payout] has returned
    [True], a second run on the world it left returns [False] and changes
    nothing, so no further transfer is attempted. *)
Theorem process_payout_not_repeated (claim_id : string) (w w' : world P SMS) :
  process_payout claim_id w = (Ok true, w') ->
  process_payout claim_id w' = (Ok false, w').
Proof.
  intros Hrun.
  destruct (payable_dec claim_id w) as [(claim & farm & Hp)|Hno].
  - rewrite (process_payout_eq claim_id w claim farm Hp) in Hrun.
    destruct Hp as (Hc & _ & _).
    destruct (prepared_frame claim_id claim w Hc) as ((c0 & Hc0 & _) & _).
    pose proof (payout_loop_spec claim_id (Farm.phone_number farm)
                  (payout_amount_of claim) (seq 0 MAX_RETRIES)
                  (prepared claim_id claim w)) as Hloop.
    cbn zeta in Hloop. destruct Hloop as (_ & k & _ & _ & Hm).
    destruct (payout_loop _ _ _ _ _) as [[b|] w1]; cbn [fst snd] in *;
      [|discriminate Hrun].
    injection Hrun as _ <-.
    destruct Hm as (_ & _ & _ & _ & txid & Hcl).
    unfold process_payout. rewrite Hcl, lookup_alter_eq, Hc0. reflexivity.
  - destruct (process_payout_skips claim_id w Hno) as [_ Hne].
    rewrite Hrun in Hne. now contradiction Hne.
Qed.

(** X22. The amount paid: a payable claim without an amount ([None] or
    zero) is paid the default of 5000.00 KES, and that amount is written
    to the claim; a claim with an amount is paid that amount.  Every
    attempt of the run carries the same amount, and after the run the
    claim holds it, whether the payment succeeded or not. *)
Theorem payout_amount_default (claim_id : string) (w : world P SMS)
    (claim : Claim.t) (farm : Farm.t) :
  payable claim_id w claim farm ->
  let run := process_payout claim_id w in
  let amount := payout_amount_of claim in
  (truthy_amount (Claim.payout_amount claim) = false ->
   amount = DEFAULT_PAYOUT_AMOUNT)
  /\ (truthy_amount (Claim.payout_amount claim) = true ->
      Claim.payout_amount claim = Some amount)
  /\ (exists k, attempts run.2
                = (attempts w ++ repeat (sent_for claim_id claim farm) k)%list)
  /\ (exists c, claims (db run.2) !! claim_id = Some c
                /\ Claim.payout_amount c = Some amount).
Proof.
  intros Hp. cbn zeta.
  rewrite (process_payout_eq claim_id w claim farm Hp).
  destruct Hp as (Hc & _ & _).
  assert (Hprep : exists c0,
             claims (db (prepared claim_id claim w)) !! claim_id = Some c0
             /\ Claim.payout_amount c0 = Some (payout_amount_of claim)
             /\ attempts (prepared claim_id claim w) = attempts w).
  { unfold prepared, payout_amount_of.
    destruct (truthy_amount (Claim.payout_amount claim)) eqn:Ht; cbn [negb].
    - exists claim. split; [exact Hc|]. split; [|reflexivity].
      destruct (Claim.payout_amount claim); [reflexivity | discriminate Ht].
    - cbn. rewrite lookup_alter_eq, Hc. cbn. eauto. }
  destruct Hprep as (c0 & Hc0 & Hamt & Ha).
  pose proof (payout_loop_spec claim_id (Farm.phone_number farm)
                (payout_amount_of claim) (seq 0 MAX_RETRIES)
                (prepared claim_id claim w)) as Hloop.
  cbn zeta in Hloop. destruct Hloop as (_ & k & _ & Hatt & Hm).
  rewrite Ha in Hatt.
  split; [|split; [|split]].
  - unfold payout_amount_of. now intros ->.
  - unfold payout_amount_of. intros Ht. rewrite Ht.
    destruct (Claim.payout_amount claim); [reflexivity | discriminate Ht].
  - exists k. destruct (payout_loop _ _ _ _ _) as [[b|] w1]; exact Hatt.
  - destruct (payout_loop _ _ _ _ _) as [[b|] w1]; cbn [fst snd] in *.
    + destruct Hm as (_ & _ & _ & _ & txid & Hcl).
      rewrite Hcl, lookup_alter_eq, Hc0. cbn. eauto.
    + destruct Hm as (_ & _ & _ & Hcl).
      cbn. rewrite lookup_alter_eq, Hcl, Hc0. cbn. eauto.
Qed.

(** X23. The manual retry of a payable claim never leaves it pending: on
    a claim flagged [failed_manual_review_required] that is auto-approved
    and has its farm on record, [retry_failed_payment] either returns
    [True] with the claim paid and its payout completed, or returns
    [False] with the claim flagged [failed_manual_review_required]
    again. *)
Theorem retry_failed_payment_settles (claim_id : string) (w : world P SMS)
    (claim : Claim.t) (farm : Farm.t) :
  payable claim_id w claim farm ->
  Claim.payout_status claim = Some "failed_manual_review_required" ->
  let run := retry_failed_payment claim_id w in
  (run.1 = Ok true
   /\ exists c, claims (db run.2) !! claim_id = Some c
                /\ Claim.status c = "paid"
                /\ Claim.payout_status c = Some "completed")
  \/ (run.1 = Ok false
      /\ exists c, claims (db run.2) !! claim_id = Some c
                   /\ Claim.status c = "auto_approved"
                   /\ Claim.payout_status c
                      = Some "failed_manual_review_required").
Proof.
  intros (Hc & Hst & Hf) Hps. cbn zeta.
  unfold retry_failed_payment. rewrite Hc.
  rewrite bool_decide_eq_true_2 by exact Hps. cbn [negb].
  change (fun c : Claim.t =>
            Claim.mk (Claim.id c) (Claim.farm_id c) (Claim.status c)
              (Claim.payout_amount c) (Some "pending")
              (Claim.payout_reference c))
    with (set_payout_status "pending").
  set (w0 := update_claim claim_id (set_payout_status "pending") w).
  assert (Hp0 : payable claim_id w0 (set_payout_status "pending" claim) farm).
  { split; [|split].
    - unfold w0. cbn. now rewrite lookup_alter_eq, Hc.
    - exact Hst.
    - exact Hf. }
  rewrite (process_payout_eq claim_id w0 _ farm Hp0).
  destruct Hp0 as (Hc0 & _ & _).
  destruct (prepared_frame claim_id _ w0 Hc0) as ((c1 & Hc1 & Hst1) & _).
  cbn [set_payout_status Claim.status] in Hst1.
  pose proof (payout_loop_spec claim_id (Farm.phone_number farm)
                (payout_amount_of (set_payout_status "pending" claim))
                (seq 0 MAX_RETRIES)
                (prepared claim_id (set_payout_status "pending" claim) w0))
    as Hloop.
  cbn zeta in Hloop. destruct Hloop as (_ & k & _ & _ & Hm).
  destruct (payout_loop _ _ _ _ _) as [[b|] w1]; cbn [fst snd] in *.
  - destruct Hm as (-> & _ & _ & _ & txid & Hcl).
    left. split; [reflexivity|].
    rewrite Hcl, lookup_alter_eq, Hc1. cbn. eauto.
  - destruct Hm as (_ & _ & _ & Hcl).
    right. split; [reflexivity|].
    cbn. rewrite lookup_alter_eq, Hcl, Hc1. cbn.
    eexists. split; [reflexivity|]. cbn. split; [congruence | reflexivity].
Qed.

End AnyServices.

Lemma process_payout_not_repeated_witness :
  let w := sample_world development_service ([] : list (result bool))
             "auto_approved" (Some "pending") in
  (process_payout "claim-1" w).1 = Ok true
  /\ process_payout "claim-1" (process_payout "claim-1" w).2
     = (Ok false, (process_payout "claim-1" w).2).
Proof.
  cbn zeta. split; [reflexivity|].
  apply (process_payout_not_repeated "claim-1"
           (sample_world development_service ([] : list (result bool))
              "auto_approved" (Some "pending"))).
  reflexivity.
Defined.

Definition unpriced_claim : Claim.t :=
  Claim.mk "claim-1" (Some "farm-1") "auto_approved" None None None.

Definition unpriced_world
  : world MobileMoneyService.t (list (result bool)) :=
  mk_world (mk_Session {["claim-1" := unpriced_claim]}
              {["farm-1" := sample_farm]} [])
    development_service [] [] [] [].

Lemma payout_amount_default_witness :
  payable "claim-1" unpriced_world unpriced_claim sample_farm
  /\ payout_amount_of unpriced_claim = 5000.00%Q
  /\ attempts (process_payout "claim-1" unpriced_world).2
     = [("+254712345678", 5000.00%Q, "claim-1")]
  /\ exists c,
       claims (db (process_payout "claim-1" unpriced_world).2) !! "claim-1"
       = Some c
       /\ Claim.payout_amount c = Some 5000.00%Q.
Proof.
  assert (Hp : payable "claim-1" unpriced_world unpriced_claim sample_farm)
    by (repeat split; reflexivity).
  split; [exact Hp|].
  destruct (payout_amount_default "claim-1" unpriced_world unpriced_claim
              sample_farm Hp) as (Hdef & _ & _ & Hc).
  split; [exact (Hdef eq_refl)|]. split; [reflexivity | exact Hc].
Defined.

Lemma retry_failed_payment_settles_witness :
  let w := sample_world development_service ([] : list (result bool))
             "auto_approved" (Some "failed_manual_review_required") in
  payable "claim-1" w
    (sample_claim "auto_approved" (Some "failed_manual_review_required"))
    sample_farm
  /\ (retry_failed_payment "claim-1" w).1 = Ok true
  /\ exists c,
       claims (db (retry_failed_payment "claim-1" w).2) !! "claim-1" = Some c
       /\ Claim.status c = "paid"
       /\ Claim.payout_status c = Some "completed".
Proof.
  cbn zeta.
  assert (Hp : payable "claim-1"
                 (sample_world development_service ([] : list (result bool))
                    "auto_approved" (Some "failed_manual_review_required"))
                 (sample_claim "auto_approved"
                    (Some "failed_manual_review_required")) sample_farm)
    by (repeat split; reflexivity).
  split; [exact Hp|]. split; [reflexivity|].
  destruct (retry_failed_payment_settles "claim-1" _ _ _ Hp eq_refl)
    as [(_ & Hc)|(Hr & _)]; [exact Hc | discriminate Hr].
Defined.

(** ** The stage with the money service of the repository *)

Lemma valid_request_dec (phone : string) (amount : Q) :
  valid_request phone amount \/ ~ valid_request phone amount.
Proof.
  unfold valid_request.
  destruct (startswith "+254" phone); [|right; intros [? _]; discriminate].
  destruct (Qlt_le_dec 0 amount) as [Hlt|Hle]; [left; now split|].
  right. intros [_ Hlt]. revert Hle. now apply Qlt_not_le.
Qed.

(** [send_payment] adds at most one row, and the row is filed under the
    reference of the call. *)
Lemma send_payment_appends (phone : string) (amount : Q) (reference : string)
    (self : MobileMoneyService.t) (table : list PaymentTransactionModel.t) :
  exists rows,
    (send_payment phone amount reference (self, table)).2.2
    = (table ++ rows)%list
    /\ (length rows <= 1)%nat
    /\ rows_of_claim reference rows.
Proof.
  destruct (valid_request_dec phone amount) as [Hv|Hn].
  - rewrite (send_payment_valid_eq _ _ _ _ _ Hv). cbn [fst snd].
    unfold _log_transaction, add_and_commit.
    destruct (negb _);
      [exists []; rewrite app_nil_r; repeat split; [cbn; lia | constructor]|].
    destruct (transaction_id_taken _ _);
      [exists []; rewrite app_nil_r; repeat split; [cbn; lia | constructor]|].
    eexists. split; [reflexivity|]. split; [cbn; lia|].
    constructor; [reflexivity | constructor].
  - destruct (send_payment_invalid_eq phone amount reference self table Hn)
      as [msg ->].
    exists []. cbn [fst snd]. rewrite app_nil_r.
    repeat split; [cbn; lia | constructor].
Qed.

Section MobileMoney.

Context {SMS : Type} `{SmsService SMS}.

Lemma call_send_payment_valid (phone : string) (amount : Q) (reference : string)
    (w : world MobileMoneyService.t SMS) :
  valid_request phone amount ->
  call_send_payment phone amount reference w
  = (Ok (mk_PaymentTransaction (transfer_succeeds (money w))
           (next_transaction_id (money w))
           (transfer_message (money w) amount) amount phone
           (utcnow (money w))),
     mk_world
       (mk_Session (claims (db w)) (farms (db w))
          (_log_transaction (draw_uuid4_hex (money w)).2
             (next_transaction_id (money w)) phone amount reference
             (transfer_succeeds (money w)) (transfer_message (money w) amount)
             (payment_transactions (db w))))
       (draw_uuid4_hex (money w)).2 (sms w) (slept w)
       (attempts w ++ [(phone, amount, reference)])%list (notifications w)).
Proof.
  intros Hv. unfold call_send_payment.
  cbn [money_send_payment mobile_money_service].
  now rewrite (send_payment_valid_eq _ _ _ _ _ Hv).
Qed.

Lemma call_send_payment_invalid (phone : string) (amount : Q)
    (reference : string) (w : world MobileMoneyService.t SMS) :
  ~ valid_request phone amount ->
  exists msg,
    call_send_payment phone amount reference w
    = (Ok (mk_PaymentTransaction false "" msg amount phone (utcnow (money w))),
       mk_world (db w) (money w) (sms w) (slept w)
         (attempts w ++ [(phone, amount, reference)])%list (notifications w)).
Proof.
  intros Hn. unfold call_send_payment.
  cbn [money_send_payment mobile_money_service].
  destruct (send_payment_invalid_eq phone amount reference (money w)
              (payment_transactions (db w)) Hn) as [msg ->].
  exists msg. now rewrite session_eta.
Qed.

(** A request that fails validation fails at every attempt: the loop runs
    to its end and changes only the record of attempts and delays. *)
Lemma payout_loop_invalid (cid phone : string) (amount : Q) :
  ~ valid_request phone amount ->
  forall (remaining : list nat) (w : world MobileMoneyService.t SMS),
    payout_loop cid phone amount remaining w
    = (None,
       mk_world (db w) (money w) (sms w)
         (slept w ++ flat_map delay_after remaining)%list
         (attempts w ++ repeat (phone, amount, cid) (length remaining))%list
         (notifications w)).
Proof.
  intros Hn. induction remaining as [|attempt rest IH]; intros w.
  - cbn. rewrite !app_nil_r. now destruct w.
  - cbn [payout_loop].
    destruct (call_send_payment_invalid phone amount cid w Hn) as [msg ->].
    cbn [success]. rewrite IH. cbn [flat_map length repeat].
    unfold backoff, delay_after.
    destruct (attempt <? MAX_RETRIES - 1)%nat;
      cbn [sleep db money sms slept attempts notifications];
      rewrite <- ?app_assoc; reflexivity.
Qed.

(** The log during the loop. *)
Lemma payout_loop_log (cid phone : string) (amount : Q) :
  forall (remaining : list nat) (w : world MobileMoneyService.t SMS),
    exists rows,
      payment_transactions (db (payout_loop cid phone amount remaining w).2)
      = (payment_transactions (db w) ++ rows)%list
      /\ (length rows <= length remaining)%nat
      /\ rows_of_claim cid rows.
Proof.
  induction remaining as [|attempt rest IH]; intros w.
  - exists []. cbn. rewrite app_nil_r. repeat split; [lia | constructor].
  - cbn [payout_loop].
    destruct (send_payment_appends phone amount cid (money w)
                (payment_transactions (db w))) as (rows1 & Hrows1 & Hlen1 & Hof1).
    unfold call_send_payment. cbn [money_send_payment mobile_money_service].
    destruct (send_payment phone amount cid (money w, payment_transactions (db w)))
      as [r [p table]].
    cbn [fst snd] in Hrows1. subst table.
    assert (Hfail :
      exists rows,
        payment_transactions
          (db (payout_loop cid phone amount rest
                 (backoff attempt
                    (mk_world
                       (mk_Session (claims (db w)) (farms (db w))
                          (payment_transactions (db w) ++ rows1)%list)
                       p (sms w) (slept w)
                       (attempts w ++ [(phone, amount, cid)])%list
                       (notifications w)))).2)
        = (payment_transactions (db w) ++ rows)%list
        /\ (length rows <= length (attempt :: rest))%nat
        /\ rows_of_claim cid rows).
    { match goal with
      | |- context [payout_loop cid phone amount rest ?w1] =>
          destruct (IH w1) as (rows & Hrows & Hlen & Hof);
          destruct (backoff_frame attempt
                      (mk_world
                         (mk_Session (claims (db w)) (farms (db w))
                            (payment_transactions (db w) ++ rows1)%list)
                         p (sms w) (slept w)
                         (attempts w ++ [(phone, amount, cid)])%list
                         (notifications w))) as (Hbd & _)
      end.
      rewrite Hbd in Hrows. cbn [db payment_transactions] in Hrows.
      exists (rows1 ++ rows)%list. rewrite Hrows, <- app_assoc.
      split; [reflexivity|]. split; [rewrite length_app; cbn; lia|].
      now apply Forall_app. }
    destruct r as [t|e]; [|exact Hfail].
    destruct (success t); [|exact Hfail].
    match goal with
    | |- context [call_send_payment_notification phone amount cid ?w2] =>
        destruct (call_notification_frame phone amount cid w2) as (Hd3 & _);
        destruct (call_send_payment_notification phone amount cid w2)
          as [rn w3]
    end.
    cbn [fst snd] in Hd3 |- *. rewrite Hd3. cbn.
    exists rows1. split; [reflexivity|]. split; [lia | exact Hof1].
Qed.

(** X24. Outside production (or with no API address configured) the
    transfer is simulated: a payable claim whose farm has a +254 number
    and whose amount is positive is paid at the first attempt.  The stage
    returns [True] after one call of [send_payment] and no sleep, the
    claim is [paid] with payout status [completed] and the generated
    transaction id as its reference, and one notification is
    dispatched. *)
Theorem simulated_payout_succeeds_at_once (claim_id : string)
    (w : world MobileMoneyService.t SMS) (claim : Claim.t) (farm : Farm.t) :
  payable claim_id w claim farm ->
  transfer_succeeds (money w) = true ->
  valid_request (Farm.phone_number farm) (payout_amount_of claim) ->
  let run := process_payout claim_id w in
  run.1 = Ok true
  /\ attempts run.2 = (attempts w ++ [sent_for claim_id claim farm])%list
  /\ slept run.2 = slept w
  /\ notifications run.2
     = (notifications w ++ [sent_for claim_id claim farm])%list
  /\ exists c, claims (db run.2) !! claim_id = Some c
               /\ Claim.status c = "paid"
               /\ Claim.payout_status c = Some "completed"
               /\ Claim.payout_reference c
                  = Some (next_transaction_id (money w)).
Proof.
  intros Hp Hsim Hv. cbn zeta.
  rewrite (process_payout_eq claim_id w claim farm Hp).
  destruct Hp as (Hc & _ & _).
  destruct (prepared_frame claim_id claim w Hc)
    as ((c0 & Hc0 & _) & _ & _ & Hmon & Hs & Ha & Hn).
  cbn [seq MAX_RETRIES payout_loop].
  rewrite (call_send_payment_valid _ _ _ _ Hv). rewrite Hmon.
  cbn [success]. rewrite Hsim.
  match goal with
  | |- context [call_send_payment_notification ?a ?b ?c ?w2] =>
      destruct (call_notification_frame a b c w2) as (Hd3 & _ & Hs3 & Ha3 & Hn3);
      destruct (call_send_payment_notification a b c w2) as [rn w3]
  end.
  cbn [fst snd] in *. cbn in Hd3, Hs3, Ha3, Hn3.
  split; [reflexivity|]. split; [now rewrite Ha3, Ha|].
  split; [now rewrite Hs3, Hs|]. split; [now rewrite Hn3, Hn|].
  rewrite Hd3. cbn. rewrite lookup_alter_eq, Hc0. cbn. eauto 10.
Qed.

(** X25. A request that fails the validation of [send_payment] (a number
    that does not start with +254, or an amount that is not positive) is
    retried like any other failure: for a payable claim the stage makes
    its three attempts and sleeps 2 s and 4 s, although no attempt can
    succeed; no attempt is written to the payment log, the claim is
    flagged [failed_manual_review_required], no notification goes out and
    the stage returns [False]. *)
Theorem invalid_request_retried_unlogged (claim_id : string)
    (w : world MobileMoneyService.t SMS) (claim : Claim.t) (farm : Farm.t) :
  payable claim_id w claim farm ->
  ~ valid_request (Farm.phone_number farm) (payout_amount_of claim) ->
  let run := process_payout claim_id w in
  run.1 = Ok false
  /\ attempts run.2 = (attempts w ++ repeat (sent_for claim_id claim farm) 3)%list
  /\ slept run.2 = (slept w ++ [2; 4]%Z)%list
  /\ payment_transactions (db run.2) = payment_transactions (db w)
  /\ money run.2 = money w
  /\ notifications run.2 = notifications w
  /\ exists c, claims (db run.2) !! claim_id = Some c
               /\ Claim.payout_status c = Some "failed_manual_review_required".
Proof.
  intros Hp Hn. cbn zeta.
  rewrite (process_payout_eq claim_id w claim farm Hp).
  destruct Hp as (Hc & _ & _).
  destruct (prepared_frame claim_id claim w Hc)
    as ((c0 & Hc0 & _) & _ & Htab & Hmon & Hs & Ha & Hnot).
  rewrite (payout_loop_invalid claim_id _ _ Hn).
  cbn [fst snd]. split; [reflexivity|]. cbn.
  rewrite Ha, Hs, Htab, Hmon, Hnot.
  repeat (split; [reflexivity|]).
  rewrite lookup_alter_eq, Hc0. cbn. eauto.
Qed.

(** X26. The payment log only grows, and by at most three rows per run:
    [process_payout] keeps every earlier row in place and appends at most
    one row per attempt, each filed under the id of the claim. *)
Theorem payout_log_grows_by_attempts (claim_id : string)
    (w : world MobileMoneyService.t SMS) :
  exists rows,
    payment_transactions (db (process_payout claim_id w).2)
    = (payment_transactions (db w) ++ rows)%list
    /\ (length rows <= 3)%nat
    /\ rows_of_claim claim_id rows.
Proof.
  destruct (payable_dec claim_id w) as [(claim & farm & Hp)|Hno].
  - rewrite (process_payout_eq claim_id w claim farm Hp).
    destruct Hp as (Hc & _ & _).
    destruct (prepared_frame claim_id claim w Hc) as (_ & _ & Htab & _).
    destruct (payout_loop_log claim_id (Farm.phone_number farm)
                (payout_amount_of claim) (seq 0 MAX_RETRIES)
                (prepared claim_id claim w)) as (rows & Hrows & Hlen & Hof).
    rewrite Htab in Hrows. cbn [length seq MAX_RETRIES] in Hlen.
    exists rows.
    destruct (payout_loop _ _ _ _ _) as [[b|] w1]; cbn [fst snd] in *;
      (split; [exact Hrows|]; split; [exact Hlen | exact Hof]).
  - destruct (process_payout_skips claim_id w Hno) as [-> _].
    exists []. rewrite app_nil_r. repeat split; [cbn; lia | constructor].
Qed.

End MobileMoney.

Lemma simulated_payout_succeeds_at_once_witness :
  let w := sample_world development_service ([] : list (result bool))
             "auto_approved" (Some "pending") in
  payable "claim-1" w (sample_claim "auto_approved" (Some "pending")) sample_farm
  /\ valid_request "+254712345678" 5000.00
  /\ (process_payout "claim-1" w).1 = Ok true
  /\ slept (process_payout "claim-1" w).2 = []
  /\ exists c,
       claims (db (process_payout "claim-1" w).2) !! "claim-1" = Some c
       /\ Claim.status c = "paid"
       /\ Claim.payout_reference c = Some "MM000000000000".
Proof.
  cbn zeta.
  assert (Hp : payable "claim-1"
                 (sample_world development_service ([] : list (result bool))
                    "auto_approved" (Some "pending"))
                 (sample_claim "auto_approved" (Some "pending")) sample_farm)
    by (repeat split; reflexivity).
  assert (Hv : valid_request "+254712345678" 5000.00) by (split; reflexivity).
  split; [exact Hp|]. split; [exact Hv|].
  destruct (simulated_payout_succeeds_at_once "claim-1" _ _ _ Hp eq_refl Hv)
    as (Hr & _ & Hs & _ & c & Hc & Hst & _ & Href).
  split; [exact Hr|]. split; [exact Hs|].
  exists c. split; [exact Hc|]. split; [exact Hst | exact Href].
Defined.

Definition landline_world
  : world MobileMoneyService.t (list (result bool)) :=
  mk_world (mk_Session {["claim-1" := sample_claim "auto_approved" (Some "pending")]}
              {["farm-1" := Farm.mk "farm-1" "0712345678"]} [])
    development_service [] [] [] [].

Lemma invalid_request_retried_unlogged_witness :
  payable "claim-1" landline_world
    (sample_claim "auto_approved" (Some "pending")) (Farm.mk "farm-1" "0712345678")
  /\ ~ valid_request "0712345678" 5000.00
  /\ (process_payout "claim-1" landline_world).1 = Ok false
  /\ slept (process_payout "claim-1" landline_world).2 = [2; 4]%Z
  /\ length (attempts (process_payout "claim-1" landline_world).2) = 3%nat
  /\ payment_transactions (db (process_payout "claim-1" landline_world).2) = [].
Proof.
  assert (Hp : payable "claim-1" landline_world
                 (sample_claim "auto_approved" (Some "pending"))
                 (Farm.mk "farm-1" "0712345678"))
    by (repeat split; reflexivity).
  assert (Hn : ~ valid_request "0712345678" 5000.00)
    by (intros [Hs _]; discriminate Hs).
  split; [exact Hp|]. split; [exact Hn|].
  destruct (invalid_request_retried_unlogged "claim-1" landline_world _ _ Hp Hn)
    as (Hr & Ha & Hs & Ht & _).
  split; [exact Hr|]. split; [exact Hs|].
  split; [now rewrite Ha | exact Ht].
Defined.

End PayoutFacts.

(* ===================================================================== *)
(** * Properties of the notification service *)
(* ===================================================================== *)

Module SmsFacts.

Import MobileMoneyService PaymentService SMSService PaymentFacts PayoutFacts.
Local Open Scope string_scope.

(** The text of the payment notification. *)
Definition notification_text (amount : Q) : string :=
  "MavunoSure: Your claim for KES " ++ format_comma_2f amount
    ++ " has been approved and payment sent.".

(** A gateway that is down: it records what it is asked to send and
    raises. *)
#[export] Instance failing_gateway : Gateway (list (string * list string)) :=
  {| sms_send := fun message recipients outbox =>
       (Raise (PyException "gateway unreachable"),
        (outbox ++ [(message, recipients)])%list) |}.

Section AnyGateway.

Context {S : Type} `{Gateway S}.

(** X27. [send_payment_notification] hands the gateway one message,
    addressed to the farmer alone, and never raises: it answers [True]
    exactly when the gateway returned an answer whose list of recipients
    is not empty and starts with an entry of status [Success], and
    [False] in every other case, an exception of the gateway included. *)
Theorem payment_notification_never_raises (phone_number : string) (amount : Q)
    (claim_id : string) (s : S) :
  let call := sms_send (notification_text amount) [phone_number] s in
  let run := sms_send_payment_notification phone_number amount claim_id s in
  run.2 = call.2
  /\ exists b,
       run.1 = Ok b
       /\ (b = true <->
           exists r first rest,
             call.1 = Ok r
             /\ Recipients r = Some (first :: rest)
             /\ status first = Some "Success").
Proof.
  cbn zeta. cbn [sms_send_payment_notification sms_service].
  unfold send_payment_notification, send_message.
  fold (notification_text amount).
  destruct (sms_send (notification_text amount) [phone_number] s) as [[r|e] s1];
    cbn [fst snd].
  - split; [reflexivity|]. eexists. split; [reflexivity|].
    unfold delivered. split.
    + destruct (Recipients r) as [[|first rest]|] eqn:Hrec; try discriminate.
      intros Hs. apply bool_decide_eq_true in Hs.
      exists r, first, rest. auto.
    + intros (r' & first & rest & [= <-] & -> & Hs).
      now apply bool_decide_eq_true.
  - split; [reflexivity|]. exists false. split; [reflexivity|].
    split; [discriminate|]. intros (r & _ & _ & Hr & _). discriminate Hr.
Qed.

(** X28. The two services of the repository together: outside production
    a payable claim with a valid request is paid whatever the gateway
    does.  The stage returns [True], and the gateway has been asked once,
    to send the notification text for the amount paid to the number of
    the farm. *)
Theorem payout_notifies_through_gateway (claim_id : string)
    (w : world MobileMoneyService.t S) (claim : Claim.t) (farm : Farm.t) :
  payable claim_id w claim farm ->
  transfer_succeeds (money w) = true ->
  valid_request (Farm.phone_number farm) (payout_amount_of claim) ->
  let run := process_payout claim_id w in
  run.1 = Ok true
  /\ sms run.2
     = (sms_send (notification_text (payout_amount_of claim))
          [Farm.phone_number farm] (sms w)).2.
Proof.
  intros Hp Hsim Hv. cbn zeta.
  rewrite (process_payout_eq claim_id w claim farm Hp).
  destruct Hp as (Hc & _ & _).
  destruct (prepared_frame claim_id claim w Hc) as (_ & _ & _ & Hmon & _).
  assert (Hsms : sms (prepared claim_id claim w) = sms w)
    by (unfold prepared; now destruct (negb _)).
  cbn [seq MAX_RETRIES payout_loop].
  rewrite (call_send_payment_valid _ _ _ _ Hv). rewrite Hmon.
  cbn [success]. rewrite Hsim.
  unfold call_send_payment_notification.
  cbn [sms_send_payment_notification sms_service update_claim set_db sms].
  unfold send_payment_notification, send_message.
  fold (notification_text (payout_amount_of claim)). rewrite Hsms.
  now destruct (sms_send _ _ (sms w)) as [[r|e] s1].
Qed.

End AnyGateway.

Lemma payout_notifies_through_gateway_witness :
  let w := mk_world (sample_session "auto_approved" (Some "pending"))
             development_service ([] : list (string * list string)) [] [] [] in
  (process_payout "claim-1" w).1 = Ok true
  /\ sms (process_payout "claim-1" w).2
     = [("MavunoSure: Your claim for KES 5,000.00 has been approved and payment sent.",
         ["+254712345678"])].
Proof.
  cbn zeta.
  destruct (payout_notifies_through_gateway "claim-1"
              (mk_world (sample_session "auto_approved" (Some "pending"))
                 development_service ([] : list (string * list string))
                 [] [] [])
              (sample_claim "auto_approved" (Some "pending")) sample_farm)
    as (Hr & Hs).
  - repeat split; reflexivity.
  - reflexivity.
  - split; reflexivity.
  - split; [exact Hr|]. rewrite Hs. reflexivity.
Defined.

End SmsFacts.
